(** * Recipe creation write path, request validator and enrichment client

    A shallow embedding of the TypeScript sources
    - [validators/recipe.validator.ts]   ([isUuid], [validateIngredient],
      [validateCreateRecipeCommand]),
    - [services/RecipeService.ts]        ([RecipeService.createRecipe]),
    - [pages/api/v1/recipes/post.ts]     ([getAuthUserIdFromHeader], [post]),
    - [services/OpenRouterService.ts]    ([sendMessage], [sendStructuredMessage],
      [handleOpenRouterResponse], [retryWithBackoff], [isRetriableError]),
    together with the properties the specification states about them.  The
    Supabase client, [uuidv4], [fetch], [Math.random] and Ajv are libraries;
    what they answer is a parameter of the model ([Supabase.Env],
    [OpenRouter.Net]).

    JavaScript values are plain data (what [JSON.parse] produces, plus
    [undefined], [NaN] and the infinities); numbers are IEEE-754 doubles.
    A string is a sequence of code units, one [ascii] per code unit, so the
    strings of the model are those whose code units are below 256; [length]
    is the [.length] of the source.  Exceptions are explicit: an operation
    that JavaScript would reject with a [TypeError] yields [Throw]. *)

From Stdlib Require Import Ascii String Floats QArith Qminmax.
From stdpp Require Import base strings list gmap pretty.

Local Open Scope string_scope.
Local Open Scope nat_scope.

(** ** JavaScript values *)

#[warnings="-register-all"]
Inductive JsVal : Type :=
| JUndefined
| JNull
| JBool (b : bool)
| JNum (x : float)
| JStr (s : string)
| JArr (items : list JsVal)
| JObj (fields : list (string * JsVal)).

(** The result of [typeof]. *)
Inductive JsType := TUndefined | TObject | TBoolean | TNumber | TString.

Global Instance JsType_eq_dec : EqDecision JsType.
Proof. solve_decision. Defined.

Definition typeof (v : JsVal) : JsType :=
  match v with
  | JUndefined => TUndefined
  | JNull | JArr _ | JObj _ => TObject
  | JBool _ => TBoolean
  | JNum _ => TNumber
  | JStr _ => TString
  end.

(** [ToBoolean]: the falsy values are [undefined], [null], [false], [0],
    [-0], [NaN] and the empty string. *)
Definition truthy (v : JsVal) : bool :=
  match v with
  | JUndefined | JNull => false
  | JBool b => b
  | JNum x => negb (PrimFloat.eqb x 0%float || PrimFloat.is_nan x)
  | JStr s => negb (String.eqb s "")
  | JArr _ | JObj _ => true
  end.

Definition is_null (v : JsVal) : bool :=
  match v with JNull => true | _ => false end.

Definition is_nullish (v : JsVal) : bool :=
  match v with JUndefined | JNull => true | _ => false end.

(** [a ?? b] *)
Definition nullish_or (a b : JsVal) : JsVal := if is_nullish a then b else a.

(** [a || b] on values *)
Definition js_or (a b : JsVal) : JsVal := if truthy a then a else b.

Definition isArray (v : JsVal) : bool :=
  match v with JArr _ => true | _ => false end.

(** ** Exceptions and completions *)

#[warnings="-register-all"]
Inductive Exn : Type :=
| TypeError (message : string)
| Error (message : string)
| AbortError
| OpenRouterError (message code : string) (status : option Z) (cause : option Exn)
| AuthenticationError (message : string)
| NetworkError (message : string) (cause : Exn)
| RateLimitError (message : string) (retryAfter : option Z)
| ResponseFormatError (message : string) (details : JsVal)
| ValidationError (message : string)
| UnsupportedFeatureError (message : string).

(** How a call ends: it returns, it throws, or the model's loop bound ran out
    ([OutOfFuel] is never produced by code without a loop). *)
Inductive Completion (A : Type) : Type :=
| Normal (a : A)
| Throw (e : Exn)
| OutOfFuel.
Arguments Normal {A} a.
Arguments Throw {A} e.
Arguments OutOfFuel {A}.

(** Synchronous code that may throw. *)
Definition Exc (A : Type) : Type := Completion A.

Global Instance Exc_ret : MRet Exc := fun A a => Normal a.
Global Instance Exc_bind : MBind Exc := fun A B f m =>
  match m with
  | Normal a => f a
  | Throw e => Throw e
  | OutOfFuel => OutOfFuel
  end.

(** Code that may throw and that acts on a state (the outside world). *)
Definition M (S A : Type) : Type := S -> Completion A * S.

Global Instance M_ret {S} : MRet (M S) := fun A a s => (Normal a, s).
Global Instance M_bind {S} : MBind (M S) := fun A B f m s =>
  match m s with
  | (Normal a, s') => f a s'
  | (Throw e, s') => (Throw e, s')
  | (OutOfFuel, s') => (OutOfFuel, s')
  end.

Definition throw {S A} (e : Exn) : M S A := fun s => (Throw e, s).
Definition lift {S A} (c : Exc A) : M S A := fun s => (c, s).
Definition get_state {S} : M S S := fun s => (Normal s, s).
Definition modify_state {S} (f : S -> S) : M S unit := fun s => (Normal tt, f s).

(** [try { body } catch (e) { handler(e) }] *)
Definition try_catch {S A} (body : M S A) (handler : Exn -> M S A) : M S A :=
  fun s =>
    match body s with
    | (Throw e, s') => handler e s'
    | r => r
    end.

(** ** Property access and string operations *)

Fixpoint assoc_get (fields : list (string * JsVal)) (k : string) : option JsVal :=
  match fields with
  | [] => None
  | (k', v) :: rest => if String.eqb k' k then Some v else assoc_get rest k
  end.

(** [o[k] = v]: an existing property keeps its position. *)
Fixpoint assoc_set (fields : list (string * JsVal)) (k : string) (v : JsVal)
  : list (string * JsVal) :=
  match fields with
  | [] => [(k, v)]
  | (k', v') :: rest =>
      if String.eqb k' k then (k', v) :: rest else (k', v') :: assoc_set rest k v
  end.

(** [v.k] for the property names this program reads ([title], [raw_text],
    [recipe_data], [ingredients], [steps], [name], [quantity], [unit_id],
    [unit_text], [normalized_name], [output], [user], [id], [user_id], ...):
    none of them is an index or a property of a built-in prototype, so on
    arrays and primitives the access gives [undefined]; on [undefined] and
    [null] it throws. *)
Definition get_prop (v : JsVal) (k : string) : Exc JsVal :=
  match v with
  | JUndefined => Throw (TypeError ("Cannot read properties of undefined (reading '" +:+ k +:+ "')"))
  | JNull => Throw (TypeError ("Cannot read properties of null (reading '" +:+ k +:+ "')"))
  | JObj fields => Normal (default JUndefined (assoc_get fields k))
  | _ => Normal JUndefined
  end.

(** [v?.k] *)
Definition get_prop_opt (v : JsVal) (k : string) : JsVal :=
  match v with
  | JObj fields => default JUndefined (assoc_get fields k)
  | _ => JUndefined
  end.

(** White space and line terminators removed by [String.prototype.trim],
    among the code units below 256: TAB, LF, VT, FF, CR, SP and NBSP. *)
Definition is_js_space (c : ascii) : bool :=
  let n := nat_of_ascii c in
  (9 <=? n) && (n <=? 13) || (n =? 32) || (n =? 160).

Fixpoint trimStart (s : string) : string :=
  match s with
  | "" => ""
  | String c r => if is_js_space c then trimStart r else s
  end.

Definition trimEnd (s : string) : string := String.rev (trimStart (String.rev s)).

Definition trim (s : string) : string := trimEnd (trimStart s).

(** [v.trim()]: only strings have the method; on anything else the call is
    a [TypeError] ("v.trim is not a function"). *)
Definition js_trim (v : JsVal) : Exc string :=
  match v with
  | JStr s => Normal (trim s)
  | _ => Throw (TypeError "trim is not a function")
  end.

(** [v.length] where the program means the length of a string.  The model
    rejects every other operand, which is stricter than JavaScript (there a
    number has no [length] and the comparison that follows is false). *)
Definition js_str_length (v : JsVal) : Exc nat :=
  match v with
  | JStr s => Normal (String.length s)
  | _ => Throw (TypeError "length of a value that is not a string")
  end.

(** [v.forEach] and [v.map] exist on arrays only. *)
Definition js_array_items (v : JsVal) (method : string) : Exc (list JsVal) :=
  match v with
  | JArr items => Normal items
  | JUndefined | JNull => Throw (TypeError ("Cannot read properties of undefined (reading '" +:+ method +:+ "')"))
  | _ => Throw (TypeError (method +:+ " is not a function"))
  end.

(** Lazy [||] and [&&] on conditions whose operands may throw. *)
Definition or_else (a b : Exc bool) : Exc bool :=
  x ← a; if (x : bool) then mret true else b.
Definition and_then (a b : Exc bool) : Exc bool :=
  x ← a; if (x : bool) then b else mret false.

(** ** validators/recipe.validator.ts *)

Module Validator.

(** [export type ValidationResult =
      { valid: true } | { valid: false; errors: Record<string, string> }] *)
Inductive ValidationResult :=
| Valid
| Invalid (errors : gmap string string).

(** The character class [[0-9a-fA-F-]]. *)
Definition is_hex_or_dash (c : ascii) : bool :=
  let n := nat_of_ascii c in
  (48 <=? n) && (n <=? 57) || (97 <=? n) && (n <=? 102)
  || (65 <=? n) && (n <=? 70) || (n =? 45).

(** [^cls{n}$] (no flags): the whole string is exactly [n] characters of the
    class. *)
Fixpoint match_exactly (cls : ascii -> bool) (n : nat) (s : string) : bool :=
  match n, s with
  | 0, "" => true
  | S n', String c r => cls c && match_exactly cls n' r
  | _, _ => false
  end.

(** [typeof value === 'string' && /^[0-9a-fA-F-]{36}$/.test(value)] *)
Definition isUuid (value : JsVal) : bool :=
  match value with
  | JStr s => match_exactly is_hex_or_dash 36 s
  | _ => false
  end.

Definition ingredient_msg (index : nat) (what : string) : string :=
  "ingredients[" +:+ pretty index +:+ "]" +:+ what.

(** [!v || typeof v !== 'string' || v.trim().length === 0] *)
Definition blank_or_not_string (v : JsVal) : Exc bool :=
  or_else (mret (negb (truthy v)))
    (or_else (mret (negb (bool_decide (typeof v = TString))))
       (t ← js_trim v; mret (String.length t =? 0))).

(** [typeof q !== 'number' || isNaN(q) || q <= 0] *)
Definition not_positive_number (q : JsVal) : bool :=
  match q with
  | JNum x => PrimFloat.is_nan x || PrimFloat.leb x 0%float
  | _ => true
  end.

Definition validateIngredient (item : JsVal) (index : nat) : Exc (option string) :=
  if negb (bool_decide (typeof item = TObject)) || is_null item
  then mret (Some (ingredient_msg index " must be an object"))
  else
    name ← get_prop item "name";
    bad_name ← blank_or_not_string name;
    if (bad_name : bool) then mret (Some (ingredient_msg index ".name is required"))
    else
      len ← js_str_length name;
      if 200 <? len then mret (Some (ingredient_msg index ".name too long"))
      else
        quantity ← get_prop item "quantity";
        if not_positive_number quantity
        then mret (Some (ingredient_msg index ".quantity must be a number > 0"))
        else
          unit_id ← get_prop item "unit_id";
          if truthy unit_id && negb (isUuid unit_id)
          then mret (Some (ingredient_msg index ".unit_id must be a valid UUID"))
          else
            unit_text ← get_prop item "unit_text";
            if truthy unit_text && negb (bool_decide (typeof unit_text = TString))
            then mret (Some (ingredient_msg index ".unit_text must be a string"))
            else
              normalized_name ← get_prop item "normalized_name";
              if truthy normalized_name
                 && negb (bool_decide (typeof normalized_name = TString))
              then mret (Some (ingredient_msg index ".normalized_name must be a string"))
              else mret None.

Definition steps_key (idx : nat) : string := "recipe_data.steps[" +:+ pretty idx +:+ "]".
Definition ingredients_key (idx : nat) : string :=
  "recipe_data.ingredients[" +:+ pretty idx +:+ "]".

(** [items.forEach((x, idx) => { ... errors[...] = ... })], from index [idx] on. *)
Fixpoint forEach_errors
    (callback : JsVal -> nat -> gmap string string -> Exc (gmap string string))
    (items : list JsVal) (idx : nat) (errors : gmap string string)
  : Exc (gmap string string) :=
  match items with
  | [] => mret errors
  | x :: rest =>
      errors' ← callback x idx errors;
      forEach_errors callback rest (S idx) errors'
  end.

(** [const e = validateIngredient(ing, idx);
     if (e) errors[`recipe_data.ingredients[${idx}]`] = e;] *)
Definition check_ingredient (ing : JsVal) (idx : nat) (errors : gmap string string)
  : Exc (gmap string string) :=
  e ← validateIngredient ing idx;
  match e with
  | Some msg => if truthy (JStr msg) then mret (<[ingredients_key idx := msg]> errors)
                else mret errors
  | None => mret errors
  end.

(** The callback of [recipe_data.steps.forEach]. *)
Definition check_step (s : JsVal) (idx : nat) (errors : gmap string string)
  : Exc (gmap string string) :=
  if negb (bool_decide (typeof s = TString))
  then mret (<[steps_key idx := "step must be a string"]> errors)
  else
    len ← js_str_length s;
    if len <? 10 then mret (<[steps_key idx := "step too short (min 10 chars)"]> errors)
    else if 500 <? len then mret (<[steps_key idx := "step too long (max 500 chars)"]> errors)
    else mret errors.

Definition array_length (v : JsVal) : nat :=
  match v with JArr items => length items | _ => 0 end.

(** The [else] branch of [if (!recipe_data || typeof recipe_data !== 'object')]. *)
Definition validate_recipe_data (recipe_data : JsVal) (errors : gmap string string)
  : Exc (gmap string string) :=
  rd_title ← get_prop recipe_data "title";
  bad_title ← blank_or_not_string rd_title;
  let errors :=
    if (bad_title : bool)
    then <["recipe_data.title" := "recipe_data.title required"]> errors else errors in
  ingredients ← get_prop recipe_data "ingredients";
  errors ←
    (if negb (isArray ingredients) || (array_length ingredients =? 0)
     then mret (<["recipe_data.ingredients" := "ingredients must be a non-empty array"]> errors)
     else items ← js_array_items ingredients "forEach";
          forEach_errors check_ingredient items 0 errors);
  steps ← get_prop recipe_data "steps";
  if negb (isArray steps)
  then mret (<["recipe_data.steps" := "steps must be an array of strings"]> errors)
  else items ← js_array_items steps "forEach";
       forEach_errors check_step items 0 errors.

Definition validateCreateRecipeCommand (body : JsVal) : Exc ValidationResult :=
  let errors : gmap string string := ∅ in
  if negb (truthy body) || negb (bool_decide (typeof body = TObject))
  then mret (Invalid {["body" := "Request body must be a JSON object"]})
  else
    title ← get_prop body "title";
    raw_text ← get_prop body "raw_text";
    recipe_data ← get_prop body "recipe_data";
    bad_title ← blank_or_not_string title;
    errors ←
      (if (bad_title : bool) then mret (<["title" := "title is required"]> errors)
       else len ← js_str_length title;
            if 300 <? len then mret (<["title" := "title too long (max 300)"]> errors)
            else mret errors);
    bad_raw_text ← blank_or_not_string raw_text;
    let errors :=
      if (bad_raw_text : bool) then <["raw_text" := "raw_text is required"]> errors
      else errors in
    errors ←
      (if negb (truthy recipe_data) || negb (bool_decide (typeof recipe_data = TObject))
       then mret (<["recipe_data" := "recipe_data is required and must be an object"]> errors)
       else validate_recipe_data recipe_data errors);
    if 0 <? size errors then mret (Invalid errors) else mret Valid.

(** *** What the validator computes

    The validator never throws (Lemma [validateCreateRecipeCommand_normal]
    below); these functions name the value of each of its parts, so that the
    properties of the result can be stated.  They are defined from the code
    above wherever that is possible. *)

(** The value of [!v || typeof v !== 'string' || v.trim().length === 0]. *)
Definition is_blank (v : JsVal) : bool :=
  match v with
  | JStr s => String.eqb s "" || (String.length (trim s) =? 0)
  | _ => true
  end.

(** The value returned by [validateIngredient]. *)
Definition ingredient_result (item : JsVal) (index : nat) : option string :=
  match validateIngredient item index with
  | Normal r => r
  | _ => None
  end.

(** The message, if any, that the steps callback records for a step. *)
Definition step_result (s : JsVal) (idx : nat) : option string :=
  match s with
  | JStr str =>
      if String.length str <? 10 then Some "step too short (min 10 chars)"
      else if 500 <? String.length str then Some "step too long (max 500 chars)"
      else None
  | _ => Some "step must be a string"
  end.

(** The effect of a [forEach] whose callback records [r x idx] under
    [key idx]. *)
Fixpoint fold_errors (r : JsVal -> nat -> option string) (key : nat -> string)
    (items : list JsVal) (idx : nat) (errors : gmap string string)
  : gmap string string :=
  match items with
  | [] => errors
  | x :: rest =>
      fold_errors r key rest (S idx)
        (match r x idx with
         | Some msg => <[key idx := msg]> errors
         | None => errors
         end)
  end.

(** [true] when no callback of the [forEach] records a message. *)
Fixpoint all_pass (r : JsVal -> nat -> option string) (items : list JsVal) (idx : nat)
  : bool :=
  match items with
  | [] => true
  | x :: rest => bool_decide (r x idx = None) && all_pass r rest (S idx)
  end.

Definition is_object (v : JsVal) : bool :=
  truthy v && bool_decide (typeof v = TObject).

(** Every rule of the validator except the one on [recipe_data.steps]. *)
Definition other_rules_ok (body : JsVal) : bool :=
  let title := get_prop_opt body "title" in
  let raw_text := get_prop_opt body "raw_text" in
  let recipe_data := get_prop_opt body "recipe_data" in
  let ingredients := get_prop_opt recipe_data "ingredients" in
  is_object body
  && negb (is_blank title)
  && match title with JStr s => String.length s <=? 300 | _ => false end
  && negb (is_blank raw_text)
  && is_object recipe_data
  && negb (is_blank (get_prop_opt recipe_data "title"))
  && match ingredients with
     | JArr (x :: rest) => all_pass ingredient_result (x :: rest) 0
     | _ => false
     end.

(** The [errors] record after the block that checks [recipe_data]. *)
Definition recipe_data_errors (recipe_data : JsVal) (errors : gmap string string)
  : gmap string string :=
  let e1 :=
    if is_blank (get_prop_opt recipe_data "title")
    then <["recipe_data.title" := "recipe_data.title required"]> errors else errors in
  let e2 :=
    match get_prop_opt recipe_data "ingredients" with
    | JArr (x :: rest) => fold_errors ingredient_result ingredients_key (x :: rest) 0 e1
    | _ => <["recipe_data.ingredients" := "ingredients must be a non-empty array"]> e1
    end in
  match get_prop_opt recipe_data "steps" with
  | JArr steps => fold_errors step_result steps_key steps 0 e2
  | _ => <["recipe_data.steps" := "steps must be an array of strings"]> e2
  end.

(** The [errors] record at the end of [validateCreateRecipeCommand], for a
    body that is an object. *)
Definition command_errors (body : JsVal) : gmap string string :=
  let title := get_prop_opt body "title" in
  let recipe_data := get_prop_opt body "recipe_data" in
  let e1 : gmap string string :=
    if is_blank title then <["title" := "title is required"]> ∅
    else match title with
         | JStr s => if 300 <? String.length s
                     then <["title" := "title too long (max 300)"]> ∅ else ∅
         | _ => ∅
         end in
  let e2 :=
    if is_blank (get_prop_opt body "raw_text")
    then <["raw_text" := "raw_text is required"]> e1 else e1 in
  if is_object recipe_data then recipe_data_errors recipe_data e2
  else <["recipe_data" := "recipe_data is required and must be an object"]> e2.

(** The steps array of a payload, [body.recipe_data.steps]. *)
Definition steps_of (body : JsVal) : JsVal :=
  get_prop_opt (get_prop_opt body "recipe_data") "steps".

(** The ingredients array of a payload, [body.recipe_data.ingredients]. *)
Definition ingredients_of (body : JsVal) : JsVal :=
  get_prop_opt (get_prop_opt body "recipe_data") "ingredients".

(** What [isUuid] checks of a string: 36 characters, each a hexadecimal digit
    or a hyphen. *)
Definition hex_or_dash_36 (v : JsVal) : Prop :=
  exists s, v = JStr s /\ String.length s = 36
            /\ Forall (fun c => is_hex_or_dash c = true) (list_ascii_of_string s).

(** The [errors] record of a result ([{ valid: true }] has none). *)
Definition errors_of (r : ValidationResult) : gmap string string :=
  match r with
  | Valid => ∅
  | Invalid errors => errors
  end.

(** An ingredient entry with a fault of type: it is not a non-null object,
    its [name] is not a string, its [quantity] is not a number, or one of
    [unit_id], [unit_text], [normalized_name] is given (truthy) and is not a
    string. *)
Definition wrong_typed_ingredient (item : JsVal) : Prop :=
  typeof item <> TObject \/ item = JNull
  \/ typeof (get_prop_opt item "name") <> TString
  \/ typeof (get_prop_opt item "quantity") <> TNumber
  \/ (truthy (get_prop_opt item "unit_id") = true
      /\ typeof (get_prop_opt item "unit_id") <> TString)
  \/ (truthy (get_prop_opt item "unit_text") = true
      /\ typeof (get_prop_opt item "unit_text") <> TString)
  \/ (truthy (get_prop_opt item "normalized_name") = true
      /\ typeof (get_prop_opt item "normalized_name") <> TString).

End Validator.

(** ** db/supabase.client.ts and uuid: the persistence collaborator

    [supabaseClient] is the client of the Supabase SDK and [uuidv4] comes
    from the uuid package; neither is code of this repository.  A query of
    the SDK resolves to [{ data, error }] and does not reject; what it
    resolves to is decided by the environment.  The tables are the rows the
    database holds: a query that resolves without an error takes effect, a
    query that resolves with an error leaves the tables as they were. *)

Module Supabase.

(** [PostgrestError]; the program reads its [message] only. *)
Record PostgrestError := { message : string }.

Record PostgrestResponse := { data : JsVal; error : option PostgrestError }.

(** What follows [insert(...)]: nothing, [.select('*')] or
    [.select('*').single()]. *)
Inductive Returning := NoSelect | SelectAll | SelectSingle.

Inductive Query :=
| Insert (table : string) (rows : list JsVal) (returning : Returning)
| DeleteEq (table : string) (column : string) (value : JsVal)
| SelectEqSingle (table : string) (column : string) (value : JsVal).

(** The outside of the program: how the database answers the [n]-th query,
    the identifiers [uuidv4] draws, the auth service (which resolves to
    [{ data, error }] or throws) and the clock. *)
Record Env := {
  respond : nat -> Query -> PostgrestResponse;
  uuid_of : nat -> string;
  getUser : string -> Exn + (JsVal * JsVal);
  date_now : nat -> string;
}.

Record World := {
  tables : gmap string (list JsVal);
  exchanges : list (Query * PostgrestResponse);
  uuid_count : nat;
  clock_reads : nat;
}.

Definition table_rows (t : gmap string (list JsVal)) (name : string) : list JsVal :=
  default [] (t !! name).

(** [.eq(column, value)] on a row, for the string-valued columns the
    program filters on. *)
Definition column_eq (column : string) (value row : JsVal) : bool :=
  match get_prop_opt row column, value with
  | JStr a, JStr b => String.eqb a b
  | _, _ => false
  end.

(** Modelled from the spec: the persistence collaborator behind
    [db/supabase.client.ts] ("a relational store exposed through
    insert/select/update/delete operations per entity").  An insert appends
    its rows to the table, a delete removes the rows that match the filter, a
    select changes nothing. *)
Definition apply_query (q : Query) (t : gmap string (list JsVal))
  : gmap string (list JsVal) :=
  match q with
  | Insert table rows _ => <[table := (table_rows t table ++ rows)%list]> t
  | DeleteEq table column value =>
      <[table := List.filter (fun row => negb (column_eq column value row))
                   (table_rows t table)]> t
  | SelectEqSingle _ _ _ => t
  end.

Section WithEnv.
Variable env : Env.

(** [await supabaseClient.from(...). ...] *)
Definition query (q : Query) : M World PostgrestResponse := fun w =>
  let resp := respond env (length (exchanges w)) q in
  (Normal resp,
   {| tables := match error resp with
                | None => apply_query q (tables w)
                | Some _ => tables w
                end;
      exchanges := (exchanges w ++ [(q, resp)])%list;
      uuid_count := uuid_count w;
      clock_reads := clock_reads w |}).

(** [uuidv4()] *)
Definition uuidv4 : M World string := fun w =>
  (Normal (uuid_of env (uuid_count w)),
   {| tables := tables w; exchanges := exchanges w;
      uuid_count := S (uuid_count w); clock_reads := clock_reads w |}).

(** [new Date().toISOString()] *)
Definition now_iso : M World string := fun w =>
  (Normal (date_now env (clock_reads w)),
   {| tables := tables w; exchanges := exchanges w;
      uuid_count := uuid_count w; clock_reads := S (clock_reads w) |}).

(** [supabaseClient.auth.getUser(token)] *)
Definition auth_getUser (token : string) : M World (JsVal * JsVal) :=
  lift (match getUser env token with
        | inl e => Throw e
        | inr r => Normal r
        end).
End WithEnv.

End Supabase.

(** ** services/RecipeService.ts *)

Module RecipeService.
Import Supabase.

(** The own enumerable properties that [{ ...v }] copies. *)
Definition own_props (v : JsVal) : list (string * JsVal) :=
  match v with
  | JObj fields => fields
  | JArr items => imap (fun i x => (pretty i, x)) items
  | JStr s => imap (fun i c => (pretty i, JStr (String c ""))) (list_ascii_of_string s)
  | _ => []
  end.

(** [items.map(f)] for a callback that acts on the world. *)
Fixpoint map_M {S A B} (f : A -> M S B) (items : list A) : M S (list B) :=
  match items with
  | [] => mret []
  | x :: rest => y ← f x; ys ← map_M f rest; mret (y :: ys)
  end.

Section WithEnv.
Variable env : Env.

(** The callback of [cmd.recipe_data.ingredients.map]. *)
Definition ingredient_row (recipeId : string) (ing : JsVal) : M World JsVal :=
  id ← uuidv4 env;
  name ← lift (get_prop ing "name");
  normalized_name ← lift (get_prop ing "normalized_name");
  quantity ← lift (get_prop ing "quantity");
  unit_id ← lift (get_prop ing "unit_id");
  unit_text ← lift (get_prop ing "unit_text");
  mret (JObj [("id", JStr id);
              ("name", name);
              ("normalized_name", nullish_or normalized_name JNull);
              ("quantity", quantity);
              ("recipe_id", JStr recipeId);
              ("unit_id", nullish_or unit_id JNull);
              ("unit_text", nullish_or unit_text JNull)]).

Definition createRecipe (userId : JsVal) (cmd : JsVal) : M World JsVal :=
  (* Create recipe id *)
  recipeId ← uuidv4 env;
  (* Insert recipe row *)
  title ← lift (get_prop cmd "title");
  raw_text ← lift (get_prop cmd "raw_text");
  recipe_data ← lift (get_prop cmd "recipe_data");
  res ← query env
    (Insert "recipes"
       [JObj [("id", JStr recipeId);
              ("owner_user_id", userId);
              ("title", title);
              ("raw_text", raw_text);
              ("recipe_data", recipe_data)]]
       SelectSingle);
  let recipeData := data res in
  let recipeError := error res in
  if bool_decide (is_Some recipeError) || negb (truthy recipeData)
  then
    throw (Error ("Failed to insert recipe: " +:+
                  match recipeError with
                  | Some e => if String.eqb (message e) "" then "unknown" else message e
                  | None => "unknown"
                  end))
  else
    (* Bulk insert ingredients *)
    recipe_data ← lift (get_prop cmd "recipe_data");
    ingredients ← lift (get_prop recipe_data "ingredients");
    items ← lift (js_array_items ingredients "map");
    ingredientsPayload ← map_M (ingredient_row recipeId) items;
    res ← query env (Insert "ingredients" ingredientsPayload SelectAll);
    let ingredientsData := data res in
    match error res with
    | Some ingredientsError =>
        (* attempt cleanup: delete recipe *)
        _ ← query env (DeleteEq "recipes" "id" (JStr recipeId));
        throw (Error ("Failed to insert ingredients: " +:+ message ingredientsError))
    | None =>
        let ingredients := js_or ingredientsData (JArr []) in
        (* Insert audit row *)
        _ ← try_catch
              (title ← lift (get_prop cmd "title");
               _ ← query env
                 (Insert "recipe_audit"
                    [JObj [("action", JStr "create");
                           ("anonymized_id", JNull);
                           ("recipe_id", JStr recipeId);
                           ("user_id", userId);
                           ("meta", JObj [("title", title)])]]
                    NoSelect);
               mret tt)
              (fun e => (* non-blocking: log and continue *) mret tt);
        (* Assemble response (cached_nutrition left as null for now) *)
        recipe_data ← lift (get_prop cmd "recipe_data");
        mret (JObj (assoc_set
                      (assoc_set
                         (assoc_set (own_props recipeData) "recipe_data" recipe_data)
                         "ingredients" ingredients)
                      "cached_nutrition" JNull))
    end.
End WithEnv.

End RecipeService.

(** ** pages/api/v1/recipes/post.ts *)

Module Route.
Import Supabase Validator.

(** What the handler reads of the request: the [authorization] header and
    the body ([None] when [request.json()] rejects). *)
Record Request := { authorization : option string; json : option JsVal }.

(** [new Response(JSON.stringify(body), { status })]; the body is kept as the
    value that is serialised, the argument of [JSON.stringify], not the text
    that is sent (for the text see [Json.JSON_stringify]). *)
Record Response := { status : nat; body : JsVal }.

Definition exn_message (e : Exn) : string :=
  match e with
  | TypeError m | Error m | OpenRouterError m _ _ _ | AuthenticationError m
  | NetworkError m _ | RateLimitError m _ | ResponseFormatError m _
  | ValidationError m | UnsupportedFeatureError m => m
  | AbortError => "This operation was aborted"
  end.

(** [s.split(sep)] for a one-character separator. *)
Fixpoint split_on (sep : ascii) (s : string) : list string :=
  match s with
  | "" => [""]
  | String c r =>
      if Ascii.eqb c sep then "" :: split_on sep r
      else match split_on sep r with
           | h :: t => String c h :: t
           | [] => [String c ""]
           end
  end.

Definition error_body (code message : string) (details : option JsVal) : JsVal :=
  JObj [("error",
         JObj ([("code", JStr code); ("message", JStr message)]
               ++ match details with Some d => [("details", d)] | None => [] end)%list)].

Definition errors_to_js (errors : gmap string string) : JsVal :=
  JObj (map (fun kv => (fst kv, JStr (snd kv))) (map_to_list errors)).

Section WithEnv.
Variable env : Env.

(** Helper to extract token and validate using Supabase *)
Definition getAuthUserIdFromHeader (req : Request) : M World JsVal :=
  match authorization req with
  | None => mret JNull
  | Some auth =>
      if negb (truthy (JStr auth)) then mret JNull
      else
        let parts := split_on " "%char auth in
        if negb (length parts =? 2) then mret JNull
        else
          let token := nth 1 parts "" in
          (* Verify token using Supabase client *)
          try_catch
            (r ← auth_getUser env token;
             let data := fst r in
             let error := snd r in
             if truthy error || negb (truthy (get_prop_opt data "user"))
             then mret JNull
             else user ← lift (get_prop data "user");
                  lift (get_prop user "id"))
            (fun e => mret JNull)
  end.

(** Map auth uid to internal user_id via auth_user_map table (the body of
    the [try] block). *)
Definition resolveUserId (authUserId : JsVal) : M World JsVal :=
  res ← query env (SelectEqSingle "auth_user_map" "auth_user_id" authUserId);
  let mapping := data res in
  mapped ← lift (if truthy mapping then get_prop mapping "user_id" else mret mapping);
  if truthy mapped then mret mapped
  else
    (* Create a new internal user row and mapping *)
    created_at ← now_iso env;
    updated_at ← now_iso env;
    res ← query env
      (Insert "users"
         [JObj [("user_id", authUserId);
                ("age", JNum 0);
                ("disease", JStr "");
                ("preferences", JObj []);
                ("created_at", JStr created_at);
                ("updated_at", JStr updated_at);
                ("sex", JStr "")]]
         SelectSingle);
    let newUser := data res in
    userId ← lift (get_prop newUser "user_id");
    _ ← query env
      (Insert "auth_user_map"
         [JObj [("auth_user_id", authUserId); ("user_id", userId)]] NoSelect);
    mret userId.

Definition post (request : Request) : M World Response :=
  (* Parse body *)
  match json request with
  | None => mret {| status := 400;
                    body := error_body "bad_request" "Invalid JSON body" None |}
  | Some body =>
      (* Validate *)
      validation ← lift (validateCreateRecipeCommand body);
      match validation with
      | Invalid errors =>
          mret {| status := 400;
                  body := error_body "bad_request" "Validation failed"
                            (Some (errors_to_js errors)) |}
      | Valid =>
          (* Authenticate *)
          authUserId ← getAuthUserIdFromHeader request;
          if negb (truthy authUserId)
          then mret {| status := 401;
                       body := error_body "unauthorized" "Missing or invalid token" None |}
          else
            resolved ← try_catch
              (userId ← resolveUserId authUserId; mret (inl userId))
              (fun e => mret (inr {| status := 500;
                                     body := error_body "internal_error"
                                               "Failed to resolve user" None |}));
            match resolved with
            | inr response => mret response
            | inl userId =>
                (* Create recipe *)
                try_catch
                  (recipe ← RecipeService.createRecipe env userId body;
                   mret {| status := 201; body := recipe |})
                  (fun e =>
                     mret {| status := 500;
                             body := error_body "internal_error"
                               (if String.eqb (exn_message e) "" then "internal"
                                else exn_message e) None |})
            end
      end
  end.
End WithEnv.

(** The body [b] with an [owner_user_id] field set to [v] (added, or
    replaced when [b] already has one). *)
Definition with_owner (b : JsVal) (v : JsVal) : JsVal :=
  match b with
  | JObj fields => JObj (assoc_set fields "owner_user_id" v)
  | _ => b
  end.

(** Two bodies that are objects and differ at most in their [owner_user_id]
    field (its presence, its value, its position). *)
Definition differ_only_in_owner (b1 b2 : JsVal) : Prop :=
  match b1, b2 with
  | JObj f1, JObj f2 =>
      forall k, k <> "owner_user_id" -> assoc_get f1 k = assoc_get f2 k
  | _, _ => False
  end.

(** The queries issued between two worlds. *)
Definition issued (w w' : World) : list (Query * PostgrestResponse) :=
  drop (length (exchanges w)) (exchanges w').

End Route.

(** ** services/OpenRouterService.ts *)

Module OpenRouter.

Inductive Role := system | user | assistant.

Record OpenRouterMessage := { role : Role; content : string }.

(** [{ type, json_schema: { name, strict, schema } }]; the type says that
    [type] is ['json_schema'], the code checks it. *)
Record ResponseFormatSpec := {
  rf_type : string;
  rf_name : string;
  rf_strict : bool;
  rf_schema : JsVal;
}.

(** The options of [sendMessage]. *)
Record SendOptions := {
  opt_model : option string;
  opt_params : option JsVal;
  opt_responseFormat : option ResponseFormatSpec;
  opt_timeoutMs : option Z;
}.

(** A compiled Ajv validator: whether the value is valid, and
    [validator.errors]. *)
Definition ValidateFunction : Type := JsVal -> bool * JsVal.

(** What the code reads of a [Response]: the status, the [Retry-After]
    header, the body as text ([None] when [res.text()] rejects) and the body
    as JSON ([None] when [res.json()] rejects). *)
Record HttpResponse := {
  res_status : Z;
  res_retry_after : option string;
  res_text : option string;
  res_json : option JsVal;
}.

Inductive FetchOutcome :=
| FetchRejects (err : Exn)
| FetchResolves (res : HttpResponse).

(** The outside of the client: what the [n]-th [fetch] yields, what the
    [n]-th [Math.random()] returns, and Ajv's compiler ([None] when
    [ajv.compile] throws). *)
Record Net := {
  fetch_outcome : nat -> FetchOutcome;
  random : nat -> Q;
  ajv_compile : JsVal -> option ValidateFunction;
}.

(** The fields of an [OpenRouterService] that do not change after
    construction. *)
Record Service := {
  baseUrl : string;
  defaultModel : string;
  timeoutMs : Z;
  maxRetries : Z;
  apiKey : string;
}.

(** The fields that change, and the record of what the client did: the
    number of [fetch] calls, the number of [Math.random] calls and the
    waits passed to [setTimeout] by the backoff loop, oldest first. *)
Record State := {
  validators : list (string * ValidateFunction);
  systemMessage : option string;
  isShutdown : bool;
  fetch_count : nat;
  random_count : nat;
  waits : list Q;
}.

(** [new OpenRouterService(config)]: the defaults.  [maxRetries] is kept
    when it is a number and is 3 otherwise. *)
Record OpenRouterConfig := {
  cfg_apiKey : string;
  cfg_baseUrl : option string;
  cfg_defaultModel : option string;
  cfg_timeoutMs : option Z;
  cfg_maxRetries : option Z;
}.

Definition non_empty_or (o : option string) (d : string) : string :=
  match o with
  | Some s => if String.eqb s "" then d else s
  | None => d
  end.

Definition new_service (config : OpenRouterConfig) : Exc Service :=
  if String.eqb (cfg_apiKey config) "" then Throw (AuthenticationError "apiKey is required")
  else Normal {| baseUrl := non_empty_or (cfg_baseUrl config) "https://api.openrouter.ai";
                 defaultModel := non_empty_or (cfg_defaultModel config)
                                   "tngtech/deepseek-r1t2-chimera:free";
                 timeoutMs := default 15000%Z (cfg_timeoutMs config);
                 maxRetries := default 3%Z (cfg_maxRetries config);
                 apiKey := cfg_apiKey config |}.

Definition role_name (r : Role) : string :=
  match r with system => "system" | user => "user" | assistant => "assistant" end.

Definition message_to_js (m : OpenRouterMessage) : JsVal :=
  JObj [("role", JStr (role_name (role m))); ("content", JStr (content m))].

Definition responseFormat_to_js (rf : ResponseFormatSpec) : JsVal :=
  JObj [("type", JStr (rf_type rf));
        ("json_schema", JObj [("name", JStr (rf_name rf));
                              ("strict", JBool (rf_strict rf));
                              ("schema", rf_schema rf)])].

Definition buildPayload (svc : Service) (systemMessage : option string)
    (messages : list OpenRouterMessage) (opts : SendOptions) : Exc JsVal :=
  match messages with
  | [] => Throw (ValidationError "messages must be a non-empty array")
  | _ =>
      let model := non_empty_or (opt_model opts) (defaultModel svc) in
      let combinedMessages :=
        (match systemMessage with
         | Some m => if String.eqb m "" then []
                     else [{| role := system; content := m |}]
         | None => []
         end ++ messages)%list in
      let payload :=
        [("model", JStr model);
         ("messages", JArr (map message_to_js combinedMessages))] in
      let payload :=
        match opt_params opts with
        | Some p => if truthy p then assoc_set payload "params" p else payload
        | None => payload
        end in
      let payload :=
        match opt_responseFormat opts with
        | Some rf => assoc_set payload "response_format" (responseFormat_to_js rf)
        | None => payload
        end in
      Normal (JObj payload)
  end.

(** [parseInt(s, 10)]: optional white space, an optional sign, then decimal
    digits; [None] stands for [NaN]. *)
Definition is_digit (c : ascii) : bool :=
  let n := nat_of_ascii c in (48 <=? n) && (n <=? 57).

Fixpoint parse_digits (s : string) (acc : option Z) : option Z :=
  match s with
  | "" => acc
  | String c r =>
      if is_digit c
      then parse_digits r (Some (10 * default 0%Z acc + Z.of_nat (nat_of_ascii c - 48))%Z)
      else acc
  end.

Definition parseInt (s : string) : option Z :=
  match trimStart s with
  | String "-" r => Z.opp <$> parse_digits r None
  | String "+" r => parse_digits r None
  | t => parse_digits t None
  end.

(** [parseInt(res.headers.get('Retry-After') || '0', 10) || undefined] *)
Definition retryAfter_of (header : option string) : option Z :=
  match parseInt (non_empty_or header "0") with
  | Some n => if (n =? 0)%Z then None else Some n
  | None => None
  end.

Definition res_ok (res : HttpResponse) : bool :=
  (200 <=? res_status res)%Z && (res_status res <=? 299)%Z.

Definition handleOpenRouterResponse (res : HttpResponse) (sentPayload : JsVal)
  : Exc JsVal :=
  (* Normalize non-2xx codes *)
  if negb (res_ok res) then
    let text := default "" (res_text res) in
    if (res_status res =? 401)%Z then Throw (AuthenticationError "Invalid API key")
    else if (res_status res =? 429)%Z then
      let retryAfter := retryAfter_of (res_retry_after res) in
      Throw (RateLimitError "Rate limited by OpenRouter" retryAfter)
    else Throw (OpenRouterError
                  ("OpenRouter returned " +:+ pretty (res_status res) +:+ ": " +:+ text)
                  "OPENROUTER_HTTP" (Some (res_status res)) None)
  else
    (* Parse JSON *)
    match res_json res with
    | None => Throw (OpenRouterError "Invalid JSON response from OpenRouter"
                       "INVALID_JSON" (Some (res_status res))
                       (Some (Error "SyntaxError")))
    | Some data =>
        (* If response_format requested, prefer validated field *)
        if truthy (get_prop_opt sentPayload "response_format")
        then
          let first_choice :=
            match get_prop_opt data "choices" with
            | JArr (c :: _) => c
            | JObj fields => default JUndefined (assoc_get fields "0")
            | _ => JUndefined
            end in
          Normal (nullish_or (get_prop_opt data "output")
                    (nullish_or (get_prop_opt first_choice "message") data))
        else Normal data
    end.

Definition isRetriableError (err : Exn) : bool :=
  match err with
  | RateLimitError _ _ => true
  | NetworkError _ _ => true
  | _ => false
  end.

Definition is_AbortError (err : Exn) : bool :=
  match err with AbortError => true | _ => false end.

(** [{ ...opts, responseFormat }] *)
Definition with_responseFormat (opts : SendOptions) (rf : ResponseFormatSpec)
  : SendOptions :=
  {| opt_model := opt_model opts; opt_params := opt_params opts;
     opt_responseFormat := Some rf; opt_timeoutMs := opt_timeoutMs opts |}.

Section WithNet.
Variable net : Net.

(** [await fetch(...)] *)
Definition fetch : M State HttpResponse := fun s =>
  (match fetch_outcome net (fetch_count s) with
   | FetchRejects err => Throw err
   | FetchResolves res => Normal res
   end,
   {| validators := validators s; systemMessage := systemMessage s;
      isShutdown := isShutdown s; fetch_count := S (fetch_count s);
      random_count := random_count s; waits := waits s |}).

(** [Math.random()] *)
Definition Math_random : M State Q := fun s =>
  (Normal (random net (random_count s)),
   {| validators := validators s; systemMessage := systemMessage s;
      isShutdown := isShutdown s; fetch_count := fetch_count s;
      random_count := S (random_count s); waits := waits s |}).

(** [await new Promise((r) => setTimeout(r, wait))] *)
Definition sleep (wait : Q) : M State unit := fun s =>
  (Normal tt,
   {| validators := validators s; systemMessage := systemMessage s;
      isShutdown := isShutdown s; fetch_count := fetch_count s;
      random_count := random_count s; waits := (waits s ++ [wait])%list |}).

(** The closure [attempt] of [sendMessage]: the call of
    [handleOpenRouterResponse] is inside the [try] block. *)
Definition attempt (payload : JsVal) : M State JsVal :=
  try_catch
    (res ← fetch;
     lift (handleOpenRouterResponse res payload))
    (fun err =>
       if is_AbortError err then throw (NetworkError "Request timeout" err)
       else throw (NetworkError "Network request failed" err)).

(** The [while (true)] loop of [retryWithBackoff]; [attempt] is the value of
    the counter before the iteration.  The call of [logger.warn] is left
    out. *)
Fixpoint retry_loop {A} (fuel : nat) (fn : M State A) (retries : Z) (attempt : nat)
  : M State A :=
  match fuel with
  | 0 => fun s => (OutOfFuel, s)
  | S fuel' =>
      try_catch fn
        (fun err =>
           let attempt := S attempt in
           let retriable := isRetriableError err in
           if negb retriable || (retries <? Z.of_nat attempt)%Z then throw err
           else
             r ← Math_random;
             let jitter := (r * 100)%Q in
             let wait :=
               (Qmin 2000 (inject_Z (300 * 2 ^ Z.of_nat attempt)) + jitter)%Q in
             _ ← sleep wait;
             retry_loop fuel' fn retries attempt)
  end.

Definition retryWithBackoff {A} (fuel : nat) (fn : M State A) (retries : Z) : M State A :=
  retry_loop fuel fn retries 0.

Definition sendMessage (fuel : nat) (svc : Service) (messages : list OpenRouterMessage)
    (opts : SendOptions) : M State JsVal :=
  s ← get_state;
  if isShutdown s
  then throw (OpenRouterError "Service is shutdown" "OPENROUTER_ERROR" None None)
  else
    match messages with
    | [] => throw (ValidationError "messages must be a non-empty array")
    | _ =>
        payload ← lift (buildPayload svc (systemMessage s) messages opts);
        retryWithBackoff fuel (attempt payload) (maxRetries svc)
    end.

Definition set_validator (name : string) (v : ValidateFunction) : M State unit :=
  modify_state (fun s =>
    {| validators := (name, v) :: validators s; systemMessage := systemMessage s;
       isShutdown := isShutdown s; fetch_count := fetch_count s;
       random_count := random_count s; waits := waits s |}).

Fixpoint validators_get (vs : list (string * ValidateFunction)) (name : string)
  : option ValidateFunction :=
  match vs with
  | [] => None
  | (n, v) :: rest => if String.eqb n name then Some v else validators_get rest name
  end.

Definition sendStructuredMessage (fuel : nat) (svc : Service)
    (messages : list OpenRouterMessage) (responseFormat : option ResponseFormatSpec)
    (opts : SendOptions) : M State JsVal :=
  match responseFormat with
  | None => throw (ValidationError "responseFormat must be json_schema")
  | Some rf =>
      if negb (String.eqb (rf_type rf) "json_schema")
      then throw (ValidationError "responseFormat must be json_schema")
      else
        res ← sendMessage fuel svc messages (with_responseFormat opts rf);
        (* Validate using AJV *)
        let schemaName := rf_name rf in
        let schema := rf_schema rf in
        s ← get_state;
        validator ←
          match validators_get (validators s) schemaName with
          | Some v => mret v
          | None =>
              match ajv_compile net schema with
              | Some v => _ ← set_validator schemaName v; mret v
              | None => throw (ValidationError "Invalid response schema provided")
              end
          end;
        let payload := nullish_or (get_prop_opt res "output") res in
        let '(valid, errors) := (validator : ValidateFunction) payload in
        if (valid : bool) then mret payload
        else throw (ResponseFormatError "Response did not match schema" errors)
  end.
End WithNet.

(** The validator a structured call uses for a format: the one registered
    under the schema's name, or else the one compiled from the schema. *)
Definition validator_for (net : Net) (s : State) (rf : ResponseFormatSpec)
  : option ValidateFunction :=
  match validators_get (validators s) (rf_name rf) with
  | Some v => Some v
  | None => ajv_compile net (rf_schema rf)
  end.

End OpenRouter.

(** ** Example payloads *)

Module Examples.

Fixpoint repeat_char (c : ascii) (n : nat) : string :=
  match n with
  | 0 => ""
  | S n' => String c (repeat_char c n')
  end.

Definition ingredient (name : string) (quantity : float) : JsVal :=
  JObj [("name", JStr name); ("quantity", JNum quantity)].

(** The example scenario of the specification, with the steps left open. *)
Definition salmon_with (steps : JsVal) : JsVal :=
  JObj [("title", JStr "Salmon with Spinach");
        ("raw_text", JStr "...");
        ("recipe_data",
          JObj [("title", JStr "Salmon with Spinach");
                ("ingredients", JArr [ingredient "salmon" 200; ingredient "spinach" 150]);
                ("steps", steps)])].

Definition salmon : JsVal :=
  salmon_with (JArr [JStr "Cook salmon for 10 minutes.";
                     JStr "Saute spinach in olive oil for 3 minutes."]).

(** Steps of length 9, 10, 500 and 501. *)
Definition boundary_steps : list JsVal :=
  [JStr (repeat_char "a" 9); JStr (repeat_char "a" 10);
   JStr (repeat_char "a" 500); JStr (repeat_char "a" 501)].

(** An ingredient whose [unit_id] is the empty string. *)
Definition ingredient_with_empty_unit_id : JsVal :=
  JObj [("name", JStr "salt"); ("quantity", JNum 1); ("unit_id", JStr "")].

(** An ingredient whose [unit_id] is 36 hyphens. *)
Definition ingredient_with_hyphens_unit_id : JsVal :=
  JObj [("name", JStr "salt"); ("quantity", JNum 1);
        ("unit_id", JStr (repeat_char "-" 36))].

(** An ingredient whose [unit_id] is a short string. *)
Definition ingredient_with_short_unit_id : JsVal :=
  JObj [("name", JStr "salt"); ("quantity", JNum 1); ("unit_id", JStr "abc")].

Import Supabase.

Definition ok_response (d : JsVal) : PostgrestResponse := {| data := d; error := None |}.
Definition error_response (m : string) : PostgrestResponse :=
  {| data := JNull; error := Some {| message := m |} |}.

Definition is_table (name : string) (q : Query) : bool :=
  match q with
  | Insert t _ _ | DeleteEq t _ _ | SelectEqSingle t _ _ => String.eqb t name
  end.

(** A database that performs every write and returns the written rows; it
    knows no auth mapping yet. *)
Definition respond_ok (q : Query) : PostgrestResponse :=
  match q with
  | Insert _ rows SelectSingle => ok_response (hd JNull rows)
  | Insert _ rows SelectAll => ok_response (JArr rows)
  | Insert _ _ NoSelect => ok_response JNull
  | DeleteEq _ _ _ => ok_response JNull
  | SelectEqSingle _ _ _ => error_response "no rows"
  end.

Definition env_with (respond : nat -> Query -> PostgrestResponse) : Env :=
  {| respond := respond;
     uuid_of := fun n => "uuid-" +:+ pretty n;
     getUser := fun token =>
       inr (JObj [("user", JObj [("id", JStr ("auth-" +:+ token))])], JNull);
     date_now := fun _ => "2025-01-01T00:00:00.000Z" |}.

Definition env_ok : Env := env_with (fun _ => respond_ok).

(** The same database, except that it refuses the ingredient rows. *)
Definition env_ingredients_fail : Env :=
  env_with (fun _ q =>
    if is_table "ingredients" q then error_response "violates foreign key constraint"
    else respond_ok q).

(** The same database, except that it refuses the ingredient rows and then
    the delete as well. *)
Definition env_cleanup_fails : Env :=
  env_with (fun _ q =>
    match q with
    | DeleteEq _ _ _ => error_response "connection lost"
    | _ => if is_table "ingredients" q
           then error_response "violates foreign key constraint"
           else respond_ok q
    end).

Definition empty_world : World :=
  {| tables := ∅; exchanges := []; uuid_count := 0; clock_reads := 0 |}.

Definition salmon_request : Route.Request :=
  {| Route.authorization := Some "Bearer token-1"; Route.json := Some salmon |}.

Import OpenRouter.

Definition rate_limited : HttpResponse :=
  {| res_status := 429; res_retry_after := Some "7";
     res_text := Some "slow down"; res_json := None |}.

Definition ok_json (data : JsVal) : HttpResponse :=
  {| res_status := 200; res_retry_after := None;
     res_text := None; res_json := Some data |}.

(** A validator for [{ ingredients: [...] }]: it asks for an [ingredients]
    array. *)
Definition needs_ingredients : ValidateFunction := fun v =>
  if isArray (get_prop_opt v "ingredients") then (true, JNull)
  else (false, JArr [JObj [("message", JStr "must have required property 'ingredients'")]]).

Definition net_with (outcome : nat -> FetchOutcome) : Net :=
  {| fetch_outcome := outcome;
     random := fun _ => (1 # 2)%Q;
     ajv_compile := fun _ => Some needs_ingredients |}.

(** A provider that answers 429 with [Retry-After: 7] every time. *)
Definition net_rate_limited : Net := net_with (fun _ => FetchResolves rate_limited).

(** A provider that answers 401 every time. *)
Definition net_unauthorized : Net :=
  net_with (fun _ => FetchResolves
    {| res_status := 401; res_retry_after := None;
       res_text := Some "no"; res_json := None |}).

(** A provider that answers 200 with an [output] that has no
    [ingredients]. *)
Definition net_wrong_shape : Net :=
  net_with (fun _ => FetchResolves (ok_json (JObj [("output", JObj [("foo", JNum 1)])]))).

Definition default_service : Service :=
  {| baseUrl := "https://api.openrouter.ai";
     defaultModel := "tngtech/deepseek-r1t2-chimera:free";
     timeoutMs := 15000; maxRetries := 3; apiKey := "sk-test" |}.

Definition fresh_state : State :=
  {| validators := []; systemMessage := None; isShutdown := false;
     fetch_count := 0; random_count := 0; waits := [] |}.

Definition hello : list OpenRouterMessage := [{| role := user; content := "hi" |}].

Definition no_options : SendOptions :=
  {| opt_model := None; opt_params := None; opt_responseFormat := None;
     opt_timeoutMs := None |}.

Definition nutrition_format : ResponseFormatSpec :=
  {| rf_type := "json_schema"; rf_name := "ingredient_nutrition_list";
     rf_strict := true;
     rf_schema := JObj [("type", JStr "object");
                        ("required", JArr [JStr "ingredients"])] |}.

End Examples.

(** ** The rows [createRecipe] writes

    The values of the object literals of [RecipeService.createRecipe], for a
    command whose property reads do not throw; Lemma
    [RecipeServiceMore.createRecipe_run] relates them to the code. *)

Module RecipeRows.

(** The row passed to [from('recipes').insert]. *)
Definition recipe_row (recipeId : string) (userId cmd : JsVal) : JsVal :=
  JObj [("id", JStr recipeId);
        ("owner_user_id", userId);
        ("title", get_prop_opt cmd "title");
        ("raw_text", get_prop_opt cmd "raw_text");
        ("recipe_data", get_prop_opt cmd "recipe_data")].

(** The row the [map] callback builds for one ingredient. *)
Definition ingredient_row_value (recipeId id : string) (ing : JsVal) : JsVal :=
  JObj [("id", JStr id);
        ("name", get_prop_opt ing "name");
        ("normalized_name", nullish_or (get_prop_opt ing "normalized_name") JNull);
        ("quantity", get_prop_opt ing "quantity");
        ("recipe_id", JStr recipeId);
        ("unit_id", nullish_or (get_prop_opt ing "unit_id") JNull);
        ("unit_text", nullish_or (get_prop_opt ing "unit_text") JNull)].

(** The row passed to [from('recipe_audit').insert]. *)
Definition audit_row (recipeId : string) (userId cmd : JsVal) : JsVal :=
  JObj [("action", JStr "create");
        ("anonymized_id", JNull);
        ("recipe_id", JStr recipeId);
        ("user_id", userId);
        ("meta", JObj [("title", get_prop_opt cmd "title")])].

Import Supabase.

(** The identifier [createRecipe] draws for the recipe when started in [w]. *)
Definition new_recipe_id (env : Env) (w : World) : string := uuid_of env (uuid_count w).

(** Its first query and the answer to it. *)
Definition recipe_insert (env : Env) (w : World) (userId cmd : JsVal) : Query :=
  Insert "recipes" [recipe_row (new_recipe_id env w) userId cmd] SelectSingle.

Definition recipe_insert_response (env : Env) (w : World) (userId cmd : JsVal)
  : PostgrestResponse :=
  respond env (length (exchanges w)) (recipe_insert env w userId cmd).

(** The rows of its second query, for the ingredients [items]: the
    identifiers that follow the recipe's are drawn in order. *)
Definition ingredient_rows (env : Env) (w : World) (items : list JsVal) : list JsVal :=
  imap (fun i ing =>
          ingredient_row_value (new_recipe_id env w)
            (uuid_of env (S (uuid_count w) + i)) ing) items.

Definition ingredients_insert (env : Env) (w : World) (items : list JsVal) : Query :=
  Insert "ingredients" (ingredient_rows env w items) SelectAll.

Definition ingredients_insert_response (env : Env) (w : World) (items : list JsVal)
  : PostgrestResponse :=
  respond env (S (length (exchanges w))) (ingredients_insert env w items).

(** A command whose [recipe_data.ingredients] is the array [items] of
    objects: the shape the ingredient [map] needs. *)
Definition has_ingredients (cmd : JsVal) (items : list JsVal) : Prop :=
  is_nullish cmd = false
  /\ get_prop_opt (get_prop_opt cmd "recipe_data") "ingredients" = JArr items
  /\ Forall (fun item => is_nullish item = false) items.

End RecipeRows.

(** ** The queries of the route's user resolution

    The values of the query literals of [post], as Lemma
    [RouteMore.resolveUserId_run] relates them to the code. *)

Module RouteRows.
Import Supabase.

(** [from('auth_user_map').select('*').eq('auth_user_id', authUserId).limit(1).single()] *)
Definition mapping_select (authUserId : JsVal) : Query :=
  SelectEqSingle "auth_user_map" "auth_user_id" authUserId.

Definition mapping_response (env : Env) (w : World) (authUserId : JsVal)
  : PostgrestResponse :=
  respond env (length (exchanges w)) (mapping_select authUserId).

(** The row passed to [from('users').insert]. *)
Definition user_row (authUserId : JsVal) (created_at updated_at : string) : JsVal :=
  JObj [("user_id", authUserId);
        ("age", JNum 0);
        ("disease", JStr "");
        ("preferences", JObj []);
        ("created_at", JStr created_at);
        ("updated_at", JStr updated_at);
        ("sex", JStr "")].

Definition user_insert (env : Env) (w : World) (authUserId : JsVal) : Query :=
  Insert "users"
    [user_row authUserId (date_now env (clock_reads w)) (date_now env (S (clock_reads w)))]
    SelectSingle.

Definition user_insert_response (env : Env) (w : World) (authUserId : JsVal)
  : PostgrestResponse :=
  respond env (S (length (exchanges w))) (user_insert env w authUserId).

(** The row passed to [from('auth_user_map').insert]. *)
Definition mapping_insert (authUserId userId : JsVal) : Query :=
  Insert "auth_user_map" [JObj [("auth_user_id", authUserId); ("user_id", userId)]] NoSelect.

(** The number of spaces of a header value. *)
Definition spaces (s : string) : nat :=
  count_occ ascii_dec (list_ascii_of_string s) " "%char.

End RouteRows.

(** ** services/OpenRouterService.ts, the remaining public methods *)

Module OpenRouterAdmin.
Import OpenRouter.

(** [setSystemMessage(message)] *)
Definition setSystemMessage (message : JsVal) : M State unit :=
  if negb (truthy message) || negb (bool_decide (typeof message = TString))
  then throw (ValidationError "system message must be a non-empty string")
  else
    match message with
    | JStr m =>
        modify_state (fun s =>
          {| validators := validators s; systemMessage := Some m;
             isShutdown := isShutdown s; fetch_count := fetch_count s;
             random_count := random_count s; waits := waits s |})
    | _ => mret tt
    end.

(** [shutdown()]; the call of [logger.info] is left out. *)
Definition shutdown : M State unit :=
  modify_state (fun s =>
    {| validators := validators s; systemMessage := systemMessage s;
       isShutdown := true; fetch_count := fetch_count s;
       random_count := random_count s; waits := waits s |}).

(** [details] of a health check: [{ status }] or [{ message }]. *)
Inductive HealthDetails :=
| StatusDetails (status : Z)
| MessageDetails (message : string).

Record HealthResult := { ok : bool; latMs : option Z; details : HealthDetails }.

(** [healthCheck()]; [start] and [finish] are what the two calls of
    [Date.now()] return.  The call of [logger.error] is left out. *)
Definition healthCheck (net : Net) (start finish : Z) : M State HealthResult :=
  try_catch
    (res ← fetch net;
     let lat := (finish - start)%Z in
     if (res_status res =? 401)%Z then throw (AuthenticationError "Invalid API key")
     else mret {| ok := res_ok res; latMs := Some lat;
                  details := StatusDetails (res_status res) |})
    (fun err =>
       mret {| ok := false; latMs := None;
               details := MessageDetails (Route.exn_message err) |}).

(** An attempt on this outcome of [fetch] fails: the promise rejects, the
    status is not 2xx, or the body is not JSON. *)
Definition fetch_fails (o : FetchOutcome) : Prop :=
  match o with
  | FetchRejects _ => True
  | FetchResolves res => res_ok res = false \/ res_json res = None
  end.

End OpenRouterAdmin.

(** ** [JSON.stringify]

    The serialisation the handler applies to every response body, for the
    values whose text does not depend on how a number is printed: [null],
    booleans, strings, and arrays and objects of these.  [None] stands for a
    value that is left out here (a finite number, a property name that is an
    array index, which would be moved to the front) and for [undefined] at
    the top.  Strings are quoted as [QuoteJSONString] does for code units
    below 256; the property names of an object are taken to be distinct. *)

Module Json.

Definition hex_digit (n : nat) : ascii :=
  ascii_of_nat (if n <? 10 then 48 + n else 87 + n).

(** The escape of one code unit: the two-character escapes, [\u00xx] for the
    other control characters, the character itself otherwise. *)
Definition quote_char (c : ascii) : string :=
  let n := nat_of_ascii c in
  let esc (x : string) := String (ascii_of_nat 92) x in
  if n =? 8 then esc "b"
  else if n =? 9 then esc "t"
  else if n =? 10 then esc "n"
  else if n =? 12 then esc "f"
  else if n =? 13 then esc "r"
  else if n =? 34 then esc (String c "")
  else if n =? 92 then esc (String c "")
  else if n <? 32
       then esc ("u00" +:+ String (hex_digit (n / 16)) (String (hex_digit (n mod 16)) ""))
  else String c "".

Fixpoint quote_chars (s : string) : string :=
  match s with
  | "" => ""
  | String c rest => quote_char c +:+ quote_chars rest
  end.

Definition QuoteJSONString (s : string) : string :=
  String (ascii_of_nat 34) (quote_chars s +:+ String (ascii_of_nat 34) "").

Fixpoint join_with (sep : string) (parts : list string) : string :=
  match parts with
  | [] => ""
  | [a] => a
  | a :: rest => a +:+ sep +:+ join_with sep rest
  end.

(** The text of an array with these element texts. *)
Definition json_array (elements : list string) : string :=
  "[" +:+ join_with "," elements +:+ "]".

(** The text of an object with these members: property names and the texts
    of their values. *)
Definition json_object (members : list (string * string)) : string :=
  "{" +:+ join_with "," (map (fun m => QuoteJSONString (fst m) +:+ ":" +:+ snd m) members)
  +:+ "}".

(** A property name made of digits (an array index is one). *)
Definition is_index_key (k : string) : bool :=
  negb (String.eqb k "")
  && forallb (fun c => let n := nat_of_ascii c in (48 <=? n) && (n <=? 57))
       (list_ascii_of_string k).

Fixpoint JSON_stringify (v : JsVal) : option string :=
  match v with
  | JUndefined => None
  | JNull => Some "null"
  | JBool b => Some (if b then "true" else "false")
  | JNum x => if PrimFloat.is_nan x || PrimFloat.is_infinity x then Some "null" else None
  | JStr s => Some (QuoteJSONString s)
  | JArr items =>
      let fix elements (l : list JsVal) : option (list string) :=
        match l with
        | [] => Some []
        | x :: rest =>
            match match x with JUndefined => Some "null" | _ => JSON_stringify x end,
                  elements rest with
            | Some a, Some b => Some (a :: b)
            | _, _ => None
            end
        end in
      json_array <$> elements items
  | JObj fields =>
      let fix members (l : list (string * JsVal)) : option (list (string * string)) :=
        match l with
        | [] => Some []
        | (k, x) :: rest =>
            if is_index_key k then None
            else match x with
                 | JUndefined => members rest
                 | _ => match JSON_stringify x, members rest with
                        | Some a, Some b => Some ((k, a) :: b)
                        | _, _ => None
                        end
                 end
        end in
      json_object <$> members fields
  end.

End Json.

(** ** Further example data *)

Module MoreExamples.
Import Examples Supabase.

(** A payload with several faults at once: a blank title, no [raw_text], a
    second ingredient with a short [unit_id], a short step and a step that is
    a number. *)
Definition broken_payload : JsVal :=
  JObj [("title", JStr "   ");
        ("recipe_data",
          JObj [("title", JStr "Soup");
                ("ingredients", JArr [ingredient "salt" 1; ingredient_with_short_unit_id]);
                ("steps", JArr [JStr "Mix."; JNum 3])])].

(** A payload whose [recipe_data] has no [ingredients]. *)
Definition note_without_ingredients : JsVal :=
  JObj [("title", JStr "Note"); ("raw_text", JStr "...");
        ("recipe_data", JObj [("title", JStr "Note")])].

(** A database that refuses the recipe row. *)
Definition env_recipes_fail : Env :=
  env_with (fun _ q =>
    if is_table "recipes" q then error_response "duplicate key" else respond_ok q).

(** A database that refuses a recipe row whose title is not a string and
    performs every other write. *)
Definition env_picky : Env :=
  env_with (fun _ q =>
    match q with
    | Insert table [row] _ =>
        if String.eqb table "recipes"
           && negb (bool_decide (typeof (get_prop_opt row "title") = TString))
        then error_response "null value in column title"
        else respond_ok q
    | _ => respond_ok q
    end).

(** A database that refuses the audit row. *)
Definition env_audit_fails : Env :=
  env_with (fun _ q =>
    if is_table "recipe_audit" q then error_response "permission denied"
    else respond_ok q).

(** A database that knows the auth user already. *)
Definition env_known_user : Env :=
  env_with (fun _ q =>
    match q with
    | SelectEqSingle _ _ v =>
        ok_response (JObj [("auth_user_id", v); ("user_id", JStr "user-7")])
    | _ => respond_ok q
    end).

(** A database that knows no mapping and refuses the [users] row. *)
Definition env_users_fail : Env :=
  env_with (fun _ q =>
    if is_table "users" q then error_response "permission denied" else respond_ok q).

(** The response of a run of the handler ([0] when there is none). *)
Definition answer (run : Completion Route.Response * World) : Route.Response :=
  match fst run with
  | Normal response => response
  | _ => {| Route.status := 0; Route.body := JNull |}
  end.

Import OpenRouter.

(** A provider whose first answer is a rejected [fetch], whose second is a
    500 and whose later answers are 200 with a JSON body. *)
Definition net_flaky : Net :=
  net_with (fun i =>
    match i with
    | 0 => FetchRejects (TypeError "fetch failed")
    | 1 => FetchResolves {| res_status := 500; res_retry_after := None;
                             res_text := Some "oops"; res_json := None |}
    | _ => FetchResolves (ok_json (JObj [("output", JStr "hello")]))
    end).

(** A provider that answers 200, with an Ajv that refuses every schema. *)
Definition net_bad_schema : Net :=
  {| fetch_outcome := fun _ => FetchResolves (ok_json (JObj [("output", JStr "hello")]));
     random := fun _ => (1 # 2)%Q;
     ajv_compile := fun _ => None |}.

(** A client that has the validator of [nutrition_format] registered. *)
Definition cached_state : State :=
  {| validators := [("ingredient_nutrition_list", needs_ingredients)];
     systemMessage := None; isShutdown := false;
     fetch_count := 0; random_count := 0; waits := [] |}.

(** A format with the name of [nutrition_format] and another schema. *)
Definition renamed_format : ResponseFormatSpec :=
  {| rf_type := "json_schema"; rf_name := "ingredient_nutrition_list";
     rf_strict := true; rf_schema := JObj [("type", JStr "string")] |}.

End MoreExamples.

(** * Properties *)

(** ** Strings and property lists *)

Lemma string_length_app (s1 s2 : string) :
  String.length (s1 +:+ s2) = String.length s1 + String.length s2.
Proof. induction s1 as [|c s1 IH]; simpl; [done|]. by rewrite IH. Qed.

Lemma string_app_cancel_r (s1 s2 t : string) : s1 +:+ t = s2 +:+ t -> s1 = s2.
Proof.
  revert s2. induction s1 as [|c s1 IH]; intros [|d s2] H; simpl in *; try done.
  - apply (f_equal String.length) in H.
    rewrite ?string_length_app in H. simpl in H.
    rewrite ?string_length_app in H. lia.
  - apply (f_equal String.length) in H.
    rewrite ?string_length_app in H. simpl in H.
    rewrite ?string_length_app in H. lia.
  - injection H as -> H. f_equal. by apply IH.
Qed.

Lemma string_app_cancel_l (p s1 s2 : string) : p +:+ s1 = p +:+ s2 -> s1 = s2.
Proof. induction p as [|c p IH]; simpl; [done|]. intros [= H]. by apply IH. Qed.

Lemma assoc_get_set_eq fields k v : assoc_get (assoc_set fields k v) k = Some v.
Proof.
  induction fields as [|[k' v'] rest IH]; simpl.
  - by rewrite String.eqb_refl.
  - destruct (String.eqb k' k) eqn:E; simpl; rewrite E; done.
Qed.

Lemma assoc_get_set_ne fields k k' v :
  k <> k' -> assoc_get (assoc_set fields k v) k' = assoc_get fields k'.
Proof.
  intros Hne. induction fields as [|[k0 v0] rest IH]; simpl.
  - destruct (String.eqb_spec k k'); done.
  - destruct (String.eqb_spec k0 k) as [->|]; simpl.
    + destruct (String.eqb_spec k k'); done.
    + destruct (String.eqb_spec k0 k'); done.
Qed.

(** ** The request validator *)

Module ValidatorFacts.
Import Validator.

Lemma steps_key_inj i j : steps_key i = steps_key j -> i = j.
Proof.
  unfold steps_key. intros H.
  apply string_app_cancel_l, string_app_cancel_r in H.
  by apply (inj pretty) in H.
Qed.

Lemma ingredients_key_inj i j : ingredients_key i = ingredients_key j -> i = j.
Proof.
  unfold ingredients_key. intros H.
  apply string_app_cancel_l, string_app_cancel_r in H.
  by apply (inj pretty) in H.
Qed.

Lemma get_prop_normal v k :
  is_nullish v = false -> get_prop v k = Normal (get_prop_opt v k).
Proof. by destruct v. Qed.

Lemma blank_or_not_string_normal v : blank_or_not_string v = Normal (is_blank v).
Proof.
  destruct v as [| |b|x|s|l|f]; try done.
  - by destruct b.
  - unfold blank_or_not_string; simpl.
    by destruct (_ || _).
  - unfold blank_or_not_string; simpl. by destruct (String.eqb s "").
Qed.

Lemma is_blank_false v : is_blank v = false -> exists s, v = JStr s.
Proof. destruct v; try done. eauto. Qed.

(** [validateIngredient] returns for every item and index, and each message
    it returns starts with [ingredients[index]]. *)
Lemma validateIngredient_cases item index :
  exists r, validateIngredient item index = Normal r
    /\ forall msg, r = Some msg -> exists what, msg = ingredient_msg index what.
Proof.
  unfold validateIngredient.
  pose proof (fun what : string =>
    conj (eq_refl (Normal (Some (ingredient_msg index what))))
         (fun msg (H : Some (ingredient_msg index what) = Some msg) =>
            ex_intro (fun w => msg = ingredient_msg index w) what
              (eq_sym (f_equal (default "") H)))) as Hmsg.
  destruct (negb _ || is_null item) eqn:Hobj; [by eexists; apply Hmsg|].
  assert (is_nullish item = false) as Hnn by (by destruct item).
  rewrite !(get_prop_normal item) by done. simpl.
  rewrite blank_or_not_string_normal. simpl.
  destruct (is_blank _) eqn:Hname; [by eexists; apply Hmsg|].
  apply is_blank_false in Hname as [s ->]. simpl.
  destruct (200 <? _); [by eexists; apply Hmsg|].
  destruct (not_positive_number _); [by eexists; apply Hmsg|].
  destruct (truthy _ && negb (isUuid _)); [by eexists; apply Hmsg|].
  destruct (truthy _ && negb (bool_decide _)); [by eexists; apply Hmsg|].
  destruct (truthy _ && negb (bool_decide _)); [by eexists; apply Hmsg|].
  by eexists.
Qed.

Lemma validateIngredient_normal item index :
  validateIngredient item index = Normal (ingredient_result item index).
Proof.
  unfold ingredient_result.
  by destruct (validateIngredient_cases item index) as (r & -> & _).
Qed.

Lemma ingredient_result_msg item index msg :
  ingredient_result item index = Some msg ->
  exists what, msg = ingredient_msg index what.
Proof.
  unfold ingredient_result.
  destruct (validateIngredient_cases item index) as (r & -> & H). apply H.
Qed.

Lemma check_ingredient_normal ing idx errors :
  check_ingredient ing idx errors =
  Normal (match ingredient_result ing idx with
          | Some msg => <[ingredients_key idx := msg]> errors
          | None => errors
          end).
Proof.
  unfold check_ingredient. rewrite validateIngredient_normal. simpl.
  destruct (ingredient_result ing idx) as [msg|] eqn:E; [|done].
  by apply ingredient_result_msg in E as [what ->].
Qed.

Lemma check_step_normal s idx errors :
  check_step s idx errors =
  Normal (match step_result s idx with
          | Some msg => <[steps_key idx := msg]> errors
          | None => errors
          end).
Proof.
  destruct s; try done. unfold check_step; simpl.
  destruct (_ <? 10); [done|]. by destruct (500 <? _).
Qed.

Lemma forEach_errors_normal callback r key items :
  (forall x i e, callback x i e =
     Normal (match r x i with Some msg => <[key i := msg]> e | None => e end)) ->
  forall idx errors,
    forEach_errors callback items idx errors
    = Normal (fold_errors r key items idx errors).
Proof.
  intros Hcb. induction items as [|x rest IH]; intros idx errors; simpl; [done|].
  rewrite Hcb. simpl. apply IH.
Qed.

Lemma is_object_not_nullish v : is_object v = true -> is_nullish v = false.
Proof. by destruct v. Qed.

Lemma is_object_array_items l : is_object (JArr l) = true.
Proof. done. Qed.

Lemma validate_recipe_data_normal recipe_data errors :
  is_object recipe_data = true ->
  validate_recipe_data recipe_data errors
  = Normal (recipe_data_errors recipe_data errors).
Proof.
  intros Hobj. apply is_object_not_nullish in Hobj.
  unfold validate_recipe_data, recipe_data_errors.
  rewrite !(get_prop_normal recipe_data) by done. simpl.
  rewrite blank_or_not_string_normal. simpl.
  set (e1 := if is_blank _ then _ else errors).
  assert (forall e2 : gmap string string,
    (if negb (isArray (get_prop_opt recipe_data "steps"))
     then mret (<["recipe_data.steps" := "steps must be an array of strings"]> e2)
     else items ← js_array_items (get_prop_opt recipe_data "steps") "forEach";
          forEach_errors check_step items 0 e2)
    = Normal (match get_prop_opt recipe_data "steps" with
              | JArr steps => fold_errors step_result steps_key steps 0 e2
              | _ => <["recipe_data.steps" := "steps must be an array of strings"]> e2
              end)) as Hsteps.
  { intros e2. destruct (get_prop_opt recipe_data "steps"); try done. simpl.
    apply (forEach_errors_normal _ step_result steps_key), check_step_normal. }
  destruct (get_prop_opt recipe_data "ingredients") as [| | | | |[|x rest]|];
    simpl; try apply Hsteps.
  rewrite check_ingredient_normal. simpl.
  rewrite (forEach_errors_normal _ ingredient_result ingredients_key)
    by apply check_ingredient_normal.
  simpl. apply Hsteps.
Qed.

(** The validator returns for every input; its result is determined by
    [command_errors]. *)
Lemma validateCreateRecipeCommand_normal body :
  validateCreateRecipeCommand body
  = Normal (if is_object body
            then if 0 <? size (command_errors body)
                 then Invalid (command_errors body) else Valid
            else Invalid {["body" := "Request body must be a JSON object"]}).
Proof.
  unfold validateCreateRecipeCommand.
  assert (forall v, negb (truthy v) || negb (bool_decide (typeof v = TObject))
                    = negb (is_object v)) as Hneg
    by (intros v; unfold is_object; by destruct (truthy v)).
  rewrite Hneg.
  destruct (is_object body) eqn:Hobj; simpl; [|done].
  apply is_object_not_nullish in Hobj.
  rewrite !(get_prop_normal body) by done. simpl.
  rewrite !blank_or_not_string_normal. simpl.
  unfold command_errors. rewrite Hneg.
  destruct (is_blank (get_prop_opt body "title")) eqn:Hb; simpl.
  - rewrite ?blank_or_not_string_normal. simpl.
    destruct (is_object (get_prop_opt body "recipe_data")) eqn:Hrd; simpl;
      rewrite ?validate_recipe_data_normal by done; simpl; by destruct (0 <? _).
  - apply is_blank_false in Hb as [s Hs]. rewrite Hs. simpl.
    destruct (300 <? String.length s); simpl.
    + rewrite ?blank_or_not_string_normal. simpl.
      destruct (is_object (get_prop_opt body "recipe_data")) eqn:Hrd; simpl;
        rewrite ?validate_recipe_data_normal by done; simpl; by destruct (0 <? _).
    + rewrite ?blank_or_not_string_normal. simpl.
      destruct (is_object (get_prop_opt body "recipe_data")) eqn:Hrd; simpl;
        rewrite ?validate_recipe_data_normal by done; simpl; by destruct (0 <? _).
Qed.

(** *** The error record built by a [forEach] *)

Section FoldErrors.
Variable r : JsVal -> nat -> option string.
Variable key : nat -> string.
Hypothesis key_inj : forall i j, key i = key j -> i = j.

Lemma fold_errors_lookup_other items idx (errors : gmap string string) k :
  (forall j, idx <= j -> k <> key j) ->
  fold_errors r key items idx errors !! k = errors !! k.
Proof.
  revert idx errors. induction items as [|x rest IH]; intros idx errors Hk; simpl; [done|].
  rewrite IH by (intros j Hj; apply Hk; lia).
  destruct (r x idx); [|done].
  rewrite lookup_insert_ne; [done|]. intros E. by apply (Hk idx).
Qed.

Lemma fold_errors_lookup items idx (errors : gmap string string) j x :
  items !! j = Some x ->
  fold_errors r key items idx errors !! key (idx + j)
  = match r x (idx + j) with
    | Some msg => Some msg
    | None => errors !! key (idx + j)
    end.
Proof.
  revert idx errors j.
  induction items as [|y rest IH]; intros idx errors j Hj; [done|].
  destruct j as [|j]; simpl in *.
  - injection Hj as ->. rewrite Nat.add_0_r.
    rewrite fold_errors_lookup_other
      by (intros j Hj E; apply key_inj in E; lia).
    destruct (r x idx); [|done]. by rewrite lookup_insert_eq.
  - replace (idx + S j) with (S idx + j) by lia.
    rewrite (IH _ _ _ Hj). destruct (r x (S idx + j)); [done|].
    destruct (r y idx); [|done].
    rewrite lookup_insert_ne; [done|].
    intros E. apply key_inj in E. lia.
Qed.

Lemma all_pass_spec items idx :
  all_pass r items idx = true <->
  forall j x, items !! j = Some x -> r x (idx + j) = None.
Proof.
  revert idx. induction items as [|y rest IH]; intros idx; simpl.
  - split; [intros _ j x Hj; done|done].
  - rewrite andb_true_iff, bool_decide_eq_true, IH. split.
    + intros [Hy Hrest] [|j] x Hj; simpl in Hj.
      * injection Hj as <-. by rewrite Nat.add_0_r.
      * replace (idx + S j) with (S idx + j) by lia. by apply Hrest.
    + intros H. split.
      * specialize (H 0 y eq_refl). by rewrite Nat.add_0_r in H.
      * intros j x Hj. specialize (H (S j) x Hj).
        by replace (idx + S j) with (S idx + j) in H by lia.
Qed.

Lemma fold_errors_empty items idx (errors : gmap string string) :
  fold_errors r key items idx errors = ∅ <->
  errors = ∅ /\ all_pass r items idx = true.
Proof.
  revert idx errors. induction items as [|y rest IH]; intros idx errors; simpl.
  - split; [by intros ->|by intros [-> _]].
  - rewrite IH, andb_true_iff, bool_decide_eq_true.
    destruct (r y idx) as [msg|].
    + split; [intros [H _]; by apply insert_non_empty in H|intros [_ [? _]]; done].
    + split; [by intros [-> ->]|by intros [-> [_ ->]]].
Qed.
End FoldErrors.

Lemma size_positive_false (m : gmap string string) : (0 <? size m) = false <-> m = ∅.
Proof.
  rewrite Nat.ltb_ge. rewrite <- map_size_empty_iff. lia.
Qed.

(** A payload that passes every rule but the one on steps has, after
    validation, exactly the errors of the steps [forEach]. *)
Lemma other_rules_ok_errors body :
  other_rules_ok body = true ->
  command_errors body
  = match steps_of body with
    | JArr steps => fold_errors step_result steps_key steps 0 ∅
    | _ => <["recipe_data.steps" := "steps must be an array of strings"]> ∅
    end.
Proof.
  unfold other_rules_ok, command_errors, recipe_data_errors, steps_of.
  rewrite !andb_true_iff, !negb_true_iff.
  intros ((((((_ & Ht) & Hlen) & Hraw) & Hrd) & Hrdt) & Hing).
  rewrite Ht, Hraw, Hrd, Hrdt.
  destruct (get_prop_opt body "title") as [| | | |s| |]; try done.
  apply Nat.leb_le in Hlen.
  destruct (Nat.ltb_spec 300 (String.length s)) as [?|_]; [lia|].
  destruct (get_prop_opt (get_prop_opt body "recipe_data") "ingredients")
    as [| | | | |[|x rest]|]; try done.
  assert (fold_errors ingredient_result ingredients_key (x :: rest) 0 ∅ = ∅) as ->; [|done].
  by apply fold_errors_empty.
Qed.

(** Acceptance is exactly: every rule but the one on steps holds, and the
    steps are an array none of whose elements is reported. *)
Lemma validateCreateRecipeCommand_valid_iff body :
  validateCreateRecipeCommand body = Normal Valid <->
  other_rules_ok body = true
  /\ exists steps, steps_of body = JArr steps /\ all_pass step_result steps 0 = true.
Proof.
  rewrite validateCreateRecipeCommand_normal.
  destruct (is_object body) eqn:Hobj.
  2:{ split; [done|]. unfold other_rules_ok. rewrite Hobj. simpl. by intros [? _]. }
  destruct (0 <? size (command_errors body)) eqn:Hsz.
  - split; [done|]. intros [Hok (steps & Hs & Hall)].
    rewrite (other_rules_ok_errors _ Hok), Hs in Hsz.
    assert (fold_errors step_result steps_key steps 0 ∅ = ∅) as E
      by by apply fold_errors_empty.
    rewrite E in Hsz. done.
  - split; [intros _|done]. apply size_positive_false in Hsz.
    revert Hsz. unfold command_errors, recipe_data_errors, other_rules_ok, steps_of.
    rewrite Hobj.
    destruct (is_object (get_prop_opt body "recipe_data")) eqn:Hrd;
      [|intros H; by apply insert_non_empty in H].
    destruct (get_prop_opt (get_prop_opt body "recipe_data") "steps") as [| | | | |steps|];
      try (intros H; by apply insert_non_empty in H).
    rewrite fold_errors_empty. intros [H Hsteps].
    destruct (get_prop_opt (get_prop_opt body "recipe_data") "ingredients")
      as [| | | | |[|x rest]|]; try (by apply insert_non_empty in H).
    apply fold_errors_empty in H as [H Hing].
    destruct (is_blank (get_prop_opt (get_prop_opt body "recipe_data") "title"));
      [by apply insert_non_empty in H|].
    destruct (is_blank (get_prop_opt body "raw_text"));
      [by apply insert_non_empty in H|].
    destruct (is_blank (get_prop_opt body "title")) eqn:Hb;
      [by apply insert_non_empty in H|].
    apply is_blank_false in Hb as [s Hs]. rewrite Hs in *.
    destruct (Nat.ltb_spec 300 (String.length s)) as [?|Hle];
      [by apply insert_non_empty in H|].
    apply Nat.leb_le in Hle. rewrite Hle, Hing. split; [done|]. eauto.
Qed.

Lemma match_exactly_spec cls n s :
  match_exactly cls n s = true <->
  String.length s = n /\ Forall (fun c => cls c = true) (list_ascii_of_string s).
Proof.
  revert s. induction n as [|n IH]; intros [|c s]; simpl.
  - split; [intros _; split; [done|constructor]|done].
  - split; [done|intros [? _]; done].
  - split; [done|intros [? _]; done].
  - rewrite andb_true_iff, IH, Forall_cons. split.
    + intros [Hc [<- Hs]]. done.
    + intros [[= <-] [Hc Hs]]. done.
Qed.

Lemma isUuid_spec v : isUuid v = true <-> hex_or_dash_36 v.
Proof.
  unfold hex_or_dash_36. destruct v as [| | | |s| |];
    try (split; [done|intros (s' & ? & _); done]).
  unfold isUuid. rewrite match_exactly_spec. split.
  - intros [? ?]. eauto.
  - intros (s' & [= <-] & ? & ?). done.
Qed.

Lemma is_blank_not_string v : typeof v <> TString -> is_blank v = true.
Proof. by destruct v. Qed.

(** The entries of the error record that the [recipe_data] block does not
    write are those it was given. *)
Lemma recipe_data_errors_other recipe_data (errors : gmap string string) k :
  k <> "recipe_data.title" -> k <> "recipe_data.ingredients" -> k <> "recipe_data.steps" ->
  (forall j, k <> ingredients_key j) -> (forall j, k <> steps_key j) ->
  recipe_data_errors recipe_data errors !! k = errors !! k.
Proof.
  intros H1 H2 H3 H4 H5. unfold recipe_data_errors.
  assert ((if is_blank (get_prop_opt recipe_data "title")
           then <["recipe_data.title" := "recipe_data.title required"]> errors
           else errors) !! k = errors !! k) as He1
    by (destruct (is_blank _); [by rewrite lookup_insert_ne|done]).
  set (e1 := if is_blank _ then _ else errors) in *.
  assert (match get_prop_opt recipe_data "ingredients" with
          | JArr (x :: rest) =>
              fold_errors ingredient_result ingredients_key (x :: rest) 0 e1
          | _ => <["recipe_data.ingredients" := "ingredients must be a non-empty array"]> e1
          end !! k = errors !! k) as He2.
  { destruct (get_prop_opt recipe_data "ingredients") as [| | | | |[|x rest]|];
      try (by rewrite lookup_insert_ne).
    by rewrite fold_errors_lookup_other. }
  destruct (get_prop_opt recipe_data "steps");
    try (by rewrite lookup_insert_ne).
  by rewrite fold_errors_lookup_other.
Qed.

(** A wrong-typed ingredient entry is reported. *)
Lemma wrong_typed_ingredient_reported item index :
  wrong_typed_ingredient item ->
  exists msg, ingredient_result item index = Some msg.
Proof.
  intros Hwrong. unfold ingredient_result, validateIngredient.
  destruct (negb (bool_decide (typeof item = TObject)) || is_null item) eqn:Hobj;
    [by eexists|].
  apply orb_false_iff in Hobj as [Ht Hn].
  apply negb_false_iff, bool_decide_eq_true in Ht.
  assert (item <> JNull) as Hn' by (by destruct item).
  assert (is_nullish item = false) as Hnn by (by destruct item).
  rewrite !(get_prop_normal item) by done. simpl.
  rewrite blank_or_not_string_normal. simpl.
  destruct (is_blank (get_prop_opt item "name")) eqn:Hname; [by eexists|].
  destruct (is_blank_false _ Hname) as [name Ename]. rewrite Ename in *. simpl.
  destruct (200 <? String.length name); [by eexists|].
  destruct (not_positive_number (get_prop_opt item "quantity")) eqn:Hq; [by eexists|].
  destruct (truthy (get_prop_opt item "unit_id") && negb (isUuid _)) eqn:Hu;
    [by eexists|].
  destruct (truthy (get_prop_opt item "unit_text") && negb (bool_decide _)) eqn:Hx;
    [by eexists|].
  destruct (truthy (get_prop_opt item "normalized_name") && negb (bool_decide _)) eqn:Hm;
    [by eexists|].
  exfalso.
  destruct Hwrong as [H|[H|[H|[H|[[H1 H2]|[[H1 H2]|[H1 H2]]]]]]]; try done.
  - by rewrite Ename in H.
  - revert H Hq. destruct (get_prop_opt item "quantity"); simpl; intros Ha Hb;
      first [discriminate|by destruct Ha].
  - rewrite H1 in Hu. simpl in Hu. apply negb_false_iff in Hu.
    revert H2 Hu. destruct (get_prop_opt item "unit_id"); simpl; intros Ha Hb;
      first [discriminate|by destruct Ha].
  - rewrite H1 in Hx. simpl in Hx. by apply negb_false_iff, bool_decide_eq_true in Hx.
  - rewrite H1 in Hm. simpl in Hm. by apply negb_false_iff, bool_decide_eq_true in Hm.
Qed.

(** What the [recipe_data] block records for wrong-typed parts. *)
Lemma recipe_data_errors_reports recipe_data (errors : gmap string string) :
  (typeof (get_prop_opt recipe_data "title") <> TString ->
   recipe_data_errors recipe_data errors !! "recipe_data.title"
   = Some "recipe_data.title required")
  /\ (isArray (get_prop_opt recipe_data "ingredients") = false ->
      recipe_data_errors recipe_data errors !! "recipe_data.ingredients"
      = Some "ingredients must be a non-empty array")
  /\ (isArray (get_prop_opt recipe_data "steps") = false ->
      recipe_data_errors recipe_data errors !! "recipe_data.steps"
      = Some "steps must be an array of strings")
  /\ (forall items i item,
        get_prop_opt recipe_data "ingredients" = JArr items ->
        items !! i = Some item ->
        wrong_typed_ingredient item ->
        exists msg, recipe_data_errors recipe_data errors !! ingredients_key i = Some msg)
  /\ (forall steps i step,
        get_prop_opt recipe_data "steps" = JArr steps ->
        steps !! i = Some step ->
        typeof step <> TString ->
        recipe_data_errors recipe_data errors !! steps_key i
        = Some "step must be a string").
Proof.
  unfold recipe_data_errors.
  set (e1 := if is_blank (get_prop_opt recipe_data "title") then _ else errors).
  set (e2 := match get_prop_opt recipe_data "ingredients" with
             | JArr (x :: rest) => _
             | _ => _
             end).
  assert (forall k v, e2 !! k = Some v -> (forall j, k <> steps_key j) ->
            k <> "recipe_data.steps" ->
            match get_prop_opt recipe_data "steps" with
            | JArr steps => fold_errors step_result steps_key steps 0 e2
            | _ => <["recipe_data.steps" := "steps must be an array of strings"]> e2
            end !! k = Some v) as Hkeep.
  { intros k v Hk Hne1 Hne2. destruct (get_prop_opt recipe_data "steps");
      try (by rewrite lookup_insert_ne).
    rewrite fold_errors_lookup_other; [done|]. intros j _. apply Hne1. }
  split; [|split; [|split; [|split]]].
  - intros Ht. apply Hkeep; [|intros j; by unfold steps_key|done].
    assert (e1 !! "recipe_data.title" = Some "recipe_data.title required") as He1.
    { subst e1. rewrite (is_blank_not_string _ Ht). by rewrite lookup_insert_eq. }
    subst e2. destruct (get_prop_opt recipe_data "ingredients") as [| | | | |[|x rest]|];
      try (by rewrite lookup_insert_ne).
    rewrite fold_errors_lookup_other; [done|]. intros j _. by unfold ingredients_key.
  - intros Harr. apply Hkeep; [|intros j; by unfold steps_key|done].
    subst e2. destruct (get_prop_opt recipe_data "ingredients") as [| | | | |items|];
      try done; by rewrite lookup_insert_eq.
  - intros Harr. destruct (get_prop_opt recipe_data "steps"); try done;
      by rewrite lookup_insert_eq.
  - intros items i item Hitems Hi Hwrong.
    destruct (wrong_typed_ingredient_reported item i Hwrong) as [msg Hmsg].
    exists msg. apply Hkeep;
      [|intros j; by unfold ingredients_key, steps_key|by unfold ingredients_key].
    subst e2. rewrite Hitems. destruct items as [|x rest]; [done|].
    pose proof (fold_errors_lookup ingredient_result ingredients_key
                  ingredients_key_inj (x :: rest) 0 e1 i item Hi) as H.
    change (0 + i) with i in H. by rewrite Hmsg in H.
  - intros steps i step Hsteps Hi Ht. rewrite Hsteps.
    pose proof (fold_errors_lookup step_result steps_key steps_key_inj steps 0 e2 i step Hi)
      as H.
    change (0 + i) with i in H. rewrite H. by destruct step.
Qed.

(** What the validator records for wrong-typed top-level fields. *)
Lemma command_errors_reports body :
  (typeof (get_prop_opt body "title") <> TString ->
   command_errors body !! "title" = Some "title is required")
  /\ (typeof (get_prop_opt body "raw_text") <> TString ->
      command_errors body !! "raw_text" = Some "raw_text is required")
  /\ (is_object (get_prop_opt body "recipe_data") = false ->
      command_errors body !! "recipe_data"
      = Some "recipe_data is required and must be an object").
Proof.
  unfold command_errors.
  set (e1 := if is_blank (get_prop_opt body "title") then _ else _).
  set (e2 := if is_blank (get_prop_opt body "raw_text") then _ else e1).
  assert (forall k v, e2 !! k = Some v -> k = "title" \/ k = "raw_text" ->
            (if is_object (get_prop_opt body "recipe_data")
             then recipe_data_errors (get_prop_opt body "recipe_data") e2
             else <["recipe_data" := "recipe_data is required and must be an object"]> e2)
              !! k = Some v) as Hkeep.
  { intros k v Hk Hkey. destruct (is_object (get_prop_opt body "recipe_data")).
    - rewrite recipe_data_errors_other; [done|..];
        destruct Hkey as [-> | ->]; try done; intros j; by unfold ingredients_key, steps_key.
    - rewrite lookup_insert_ne; [done|]. by destruct Hkey as [-> | ->]. }
  split; [|split].
  - intros Ht. apply Hkeep; [|by left].
    assert (e1 !! "title" = Some "title is required") as He1.
    { subst e1. rewrite (is_blank_not_string _ Ht). by rewrite lookup_insert_eq. }
    subst e2. destruct (is_blank (get_prop_opt body "raw_text")); [|done].
    by rewrite lookup_insert_ne.
  - intros Ht. apply Hkeep; [|by right].
    subst e2. rewrite (is_blank_not_string _ Ht). by rewrite lookup_insert_eq.
  - intros Hrd. rewrite Hrd. by rewrite lookup_insert_eq.
Qed.

(** C6.  For every input value (of any type: [undefined], [null], a number,
    a string, an array, an object whose fields are missing or wrong-typed)
    [validateCreateRecipeCommand] returns a [ValidationResult] and does not
    throw: the result is either the accepted result or a non-empty record of
    violation messages.  A wrong-typed or malformed input is reported: an
    input that is not a non-null object under the key [body]; in an object, a
    [title] or [raw_text] that is missing or not a string, a [recipe_data]
    that is not a non-null object, a [recipe_data.title] that is not a
    string, [ingredients] or [steps] that is not an array, an ingredient
    entry with a fault of type and a step that is not a string, each under
    the key of its field path. *)
Theorem validateCreateRecipeCommand_never_throws (body : JsVal) :
  exists r : ValidationResult,
    validateCreateRecipeCommand body = Normal r
    /\ (r = Valid \/ exists errors, r = Invalid errors /\ errors <> ∅)
    /\ (is_object body = false ->
        r = Invalid {["body" := "Request body must be a JSON object"]})
    /\ (is_object body = true ->
        (typeof (get_prop_opt body "title") <> TString ->
         errors_of r !! "title" = Some "title is required")
        /\ (typeof (get_prop_opt body "raw_text") <> TString ->
            errors_of r !! "raw_text" = Some "raw_text is required")
        /\ (is_object (get_prop_opt body "recipe_data") = false ->
            errors_of r !! "recipe_data"
            = Some "recipe_data is required and must be an object")
        /\ (is_object (get_prop_opt body "recipe_data") = true ->
            (typeof (get_prop_opt (get_prop_opt body "recipe_data") "title") <> TString ->
             errors_of r !! "recipe_data.title" = Some "recipe_data.title required")
            /\ (isArray (ingredients_of body) = false ->
                errors_of r !! "recipe_data.ingredients"
                = Some "ingredients must be a non-empty array")
            /\ (isArray (steps_of body) = false ->
                errors_of r !! "recipe_data.steps"
                = Some "steps must be an array of strings")
            /\ (forall items i item,
                  ingredients_of body = JArr items ->
                  items !! i = Some item ->
                  wrong_typed_ingredient item ->
                  exists msg, errors_of r !! ingredients_key i = Some msg)
            /\ (forall steps i step,
                  steps_of body = JArr steps ->
                  steps !! i = Some step ->
                  typeof step <> TString ->
                  errors_of r !! steps_key i = Some "step must be a string"))).
Proof.
  rewrite validateCreateRecipeCommand_normal. eexists. split; [done|].
  destruct (is_object body) eqn:Hobj.
  2:{ split; [|split; [done|done]]. right. eexists. split; [done|].
      apply insert_non_empty. }
  assert (errors_of (if 0 <? size (command_errors body)
                     then Invalid (command_errors body) else Valid)
          = command_errors body) as Herr.
  { destruct (0 <? size (command_errors body)) eqn:Hsz; [done|].
    apply size_positive_false in Hsz. by rewrite Hsz. }
  split; [|split; [done|]].
  { destruct (0 <? size (command_errors body)) eqn:Hsz; [|by left].
    right. eexists. split; [done|]. intros E. rewrite E in Hsz. done. }
  intros _. rewrite Herr.
  destruct (command_errors_reports body) as (Htitle & Hraw & Hrd).
  split; [exact Htitle|]. split; [exact Hraw|]. split; [exact Hrd|].
  intros Hrdobj. unfold command_errors, ingredients_of, steps_of. rewrite Hrdobj.
  apply recipe_data_errors_reports.
Qed.

(** C7.  For a payload that passes every other rule, the steps rule accepts a
    step string exactly when its length is between 10 and 500: the payload is
    accepted iff every step is a string of such a length, and the entry of
    the error record under [recipe_data.steps[i]] is the "too short" message
    for a step shorter than 10 (so for length 9), the "too long" message for
    a step longer than 500 (so for length 501), and absent otherwise (so for
    lengths 10 and 500). *)
Theorem steps_length_rule (body : JsVal) (steps : list JsVal) :
  other_rules_ok body = true ->
  steps_of body = JArr steps ->
  exists r : ValidationResult,
    validateCreateRecipeCommand body = Normal r
    /\ (r = Valid <->
        forall i v, steps !! i = Some v ->
          exists s, v = JStr s /\ 10 <= String.length s <= 500)
    /\ (forall i s, steps !! i = Some (JStr s) ->
          errors_of r !! steps_key i
          = if String.length s <? 10 then Some "step too short (min 10 chars)"
            else if 500 <? String.length s then Some "step too long (max 500 chars)"
            else None).
Proof.
  intros Hok Hsteps.
  assert (is_object body = true) as Hobj.
  { unfold other_rules_ok in Hok. by destruct (is_object body). }
  pose proof (other_rules_ok_errors body Hok) as Herr. rewrite Hsteps in Herr.
  pose proof (validateCreateRecipeCommand_normal body) as Hn. rewrite Hobj in Hn.
  eexists. split; [exact Hn|]. split.
  - transitivity (all_pass step_result steps 0 = true).
    + destruct (0 <? size (command_errors body)) eqn:Hsz.
      * split; [done|]. intros Hall.
        assert (command_errors body = ∅) as E
          by (rewrite Herr; by apply fold_errors_empty).
        rewrite E in Hsz. done.
      * split; [intros _|done]. apply size_positive_false in Hsz.
        rewrite Herr in Hsz. by apply fold_errors_empty in Hsz as [_ ?].
    + rewrite all_pass_spec. simpl. unfold step_result. split.
      * intros H i v Hi. specialize (H i v Hi). destruct v as [| | | |s| |]; try done.
        exists s. split; [done|].
        destruct (Nat.ltb_spec (String.length s) 10); [done|].
        destruct (Nat.ltb_spec 500 (String.length s)); [done|]. lia.
      * intros H i v Hi. destruct (H i v Hi) as (s & -> & Hlen).
        destruct (Nat.ltb_spec (String.length s) 10); [lia|].
        destruct (Nat.ltb_spec 500 (String.length s)); [lia|]. done.
  - intros i s Hi.
    assert (errors_of (if 0 <? size (command_errors body)
                       then Invalid (command_errors body) else Valid)
            = command_errors body) as ->.
    { destruct (0 <? size (command_errors body)) eqn:Hsz; [done|].
      apply size_positive_false in Hsz. by rewrite Hsz. }
    rewrite Herr.
    pose proof (fold_errors_lookup step_result steps_key steps_key_inj steps 0 ∅ i _ Hi)
      as Hl.
    simpl in Hl. rewrite Hl. rewrite lookup_empty.
    destruct (String.length s <? 10); [done|]. by destruct (500 <? String.length s).
Qed.

(** C10.  A payload that passes every other rule and whose
    [recipe_data.steps] is the empty array is accepted: the steps rule asks
    for an array, not for a non-empty one. *)
Theorem empty_steps_accepted (body : JsVal) :
  other_rules_ok body = true ->
  steps_of body = JArr [] ->
  validateCreateRecipeCommand body = Normal Valid.
Proof.
  intros Hok Hsteps. apply validateCreateRecipeCommand_valid_iff.
  split; [done|]. by exists [].
Qed.

(** A truthy [unit_id] is put to [isUuid]: the entry passes only when
    [isUuid] holds, and is reported when it does not. *)
Lemma validateIngredient_unit_id (item : JsVal) (index : nat) :
  truthy (get_prop_opt item "unit_id") = true ->
  (validateIngredient item index = Normal None ->
     isUuid (get_prop_opt item "unit_id") = true)
  /\ (isUuid (get_prop_opt item "unit_id") = false ->
       exists what, validateIngredient item index
                    = Normal (Some (ingredient_msg index what))).
Proof.
  intros Htruthy. unfold validateIngredient.
  assert (forall what : string,
    (mret (Some (ingredient_msg index what)) = Normal None ->
       isUuid (get_prop_opt item "unit_id") = true)
    /\ (isUuid (get_prop_opt item "unit_id") = false ->
         exists what', mret (Some (ingredient_msg index what))
                       = Normal (Some (ingredient_msg index what')))) as Hmsg
    by (intros what; split; [done|intros _; by exists what]).
  destruct (negb _ || is_null item) eqn:Hobj; [apply Hmsg|].
  assert (is_nullish item = false) as Hnn by (by destruct item).
  rewrite !(get_prop_normal item) by done. simpl.
  rewrite blank_or_not_string_normal. simpl.
  destruct (is_blank _) eqn:Hname; [apply Hmsg|].
  apply is_blank_false in Hname as [s ->]. simpl.
  destruct (200 <? _); [apply Hmsg|].
  destruct (not_positive_number _); [apply Hmsg|].
  rewrite Htruthy. simpl.
  destruct (isUuid (get_prop_opt item "unit_id")) eqn:Huuid; simpl; [|apply Hmsg].
  destruct (truthy _ && negb (bool_decide _)); [apply Hmsg|].
  destruct (truthy _ && negb (bool_decide _)); [apply Hmsg|].
  done.
Qed.

(** C8 (as the code has it).  For an ingredient entry whose [unit_id] is
    truthy (not [undefined], [null], [false], [0], [NaN] or the empty string),
    [validateIngredient] accepts the entry only if the [unit_id] is a string
    of exactly 36 characters, each a hexadecimal digit or a hyphen, and any
    other truthy [unit_id] makes it return a message for that ingredient's
    index ([ingredients[index]...]). *)
Theorem unit_id_rule (item : JsVal) (index : nat) :
  truthy (get_prop_opt item "unit_id") = true ->
  (validateIngredient item index = Normal None ->
     hex_or_dash_36 (get_prop_opt item "unit_id"))
  /\ (~ hex_or_dash_36 (get_prop_opt item "unit_id") ->
       exists what, validateIngredient item index
                    = Normal (Some (ingredient_msg index what))).
Proof.
  intros Htruthy.
  destruct (validateIngredient_unit_id item index Htruthy) as [Hacc Hrej].
  split.
  - intros Hnone. apply isUuid_spec. by apply Hacc.
  - intros Hbad. apply Hrej.
    destruct (isUuid (get_prop_opt item "unit_id")) eqn:E; [|done].
    apply isUuid_spec in E. by destruct Hbad.
Qed.

(** The same rule seen from [validateCreateRecipeCommand]: a truthy
    [unit_id] that fails the check puts a message under
    [recipe_data.ingredients[i]]. *)
Lemma unit_id_reported_by_command (body : JsVal) (items : list JsVal) (i : nat)
    (item : JsVal) :
  is_object body = true ->
  is_object (get_prop_opt body "recipe_data") = true ->
  ingredients_of body = JArr items ->
  items !! i = Some item ->
  truthy (get_prop_opt item "unit_id") = true ->
  ~ hex_or_dash_36 (get_prop_opt item "unit_id") ->
  exists errors what,
    validateCreateRecipeCommand body = Normal (Invalid errors)
    /\ errors !! ingredients_key i = Some (ingredient_msg i what).
Proof.
  intros Hobj Hrd Hing Hi Htruthy Hbad.
  assert (isUuid (get_prop_opt item "unit_id") = false) as Hno.
  { destruct (isUuid (get_prop_opt item "unit_id")) eqn:E; [|done].
    apply isUuid_spec in E. by destruct Hbad. }
  destruct (proj2 (validateIngredient_unit_id item i Htruthy) Hno) as [what Hwhat].
  assert (ingredient_result item i = Some (ingredient_msg i what)) as Hres
    by (unfold ingredient_result; by rewrite Hwhat).
  assert (command_errors body !! ingredients_key i = Some (ingredient_msg i what)) as Hl.
  { unfold command_errors, recipe_data_errors. rewrite Hrd.
    unfold ingredients_of in Hing. rewrite Hing.
    destruct items as [|x rest]; [done|].
    set (e1 := if is_blank (get_prop_opt (get_prop_opt body "recipe_data") "title")
               then _ else _).
    assert (fold_errors ingredient_result ingredients_key (x :: rest) 0 e1
              !! ingredients_key i = Some (ingredient_msg i what)) as Hfold.
    { pose proof (fold_errors_lookup ingredient_result ingredients_key
                    ingredients_key_inj (x :: rest) 0 e1 i item Hi) as H.
      simpl in H. by rewrite Hres in H. }
    destruct (get_prop_opt (get_prop_opt body "recipe_data") "steps");
      try (rewrite lookup_insert_ne; [exact Hfold|by unfold ingredients_key]).
    rewrite fold_errors_lookup_other; [exact Hfold|].
    intros j _. by unfold ingredients_key, steps_key. }
  rewrite validateCreateRecipeCommand_normal, Hobj.
  destruct (0 <? size (command_errors body)) eqn:Hsz.
  - eauto.
  - apply size_positive_false in Hsz. rewrite Hsz in Hl. done.
Qed.

(** An empty ingredients array, by contrast with an empty steps array, is
    reported. *)
Lemma empty_ingredients_rejected (body : JsVal) :
  is_object body = true ->
  is_object (get_prop_opt body "recipe_data") = true ->
  ingredients_of body = JArr [] ->
  exists errors,
    validateCreateRecipeCommand body = Normal (Invalid errors)
    /\ errors !! "recipe_data.ingredients" = Some "ingredients must be a non-empty array".
Proof.
  intros Hobj Hrd Hing.
  assert (command_errors body !! "recipe_data.ingredients"
          = Some "ingredients must be a non-empty array") as Hl.
  { unfold command_errors, recipe_data_errors. rewrite Hrd.
    unfold ingredients_of in Hing. rewrite Hing.
    destruct (get_prop_opt (get_prop_opt body "recipe_data") "steps");
      try (rewrite lookup_insert_ne; [by rewrite lookup_insert_eq|done]).
    rewrite fold_errors_lookup_other; [by rewrite lookup_insert_eq|].
    intros j _. by unfold steps_key. }
  rewrite validateCreateRecipeCommand_normal, Hobj.
  destruct (0 <? size (command_errors body)) eqn:Hsz.
  - eauto.
  - apply size_positive_false in Hsz. rewrite Hsz in Hl. done.
Qed.

Import Examples.

Lemma steps_length_rule_witness :
  exists r : ValidationResult,
    validateCreateRecipeCommand (salmon_with (JArr boundary_steps)) = Normal r
    /\ errors_of r !! steps_key 0 = Some "step too short (min 10 chars)"
    /\ errors_of r !! steps_key 1 = None
    /\ errors_of r !! steps_key 2 = None
    /\ errors_of r !! steps_key 3 = Some "step too long (max 500 chars)".
Proof.
  destruct (steps_length_rule (salmon_with (JArr boundary_steps)) boundary_steps)
    as (r & Hr & _ & Hl); [vm_compute; reflexivity|reflexivity|].
  exists r. split; [exact Hr|].
  split; [exact (Hl 0 _ eq_refl)|].
  split; [exact (Hl 1 _ eq_refl)|].
  split; [exact (Hl 2 _ eq_refl)|exact (Hl 3 _ eq_refl)].
Defined.

Lemma empty_steps_accepted_witness :
  validateCreateRecipeCommand (salmon_with (JArr [])) = Normal Valid.
Proof.
  apply (empty_steps_accepted (salmon_with (JArr []))); [vm_compute; reflexivity|reflexivity].
Defined.

Lemma unit_id_rule_witness :
  exists what,
    validateIngredient ingredient_with_short_unit_id 3
    = Normal (Some (ingredient_msg 3 what)).
Proof.
  apply (unit_id_rule ingredient_with_short_unit_id 3); [reflexivity|].
  intros (s & Hs & Hlen & _). injection Hs as <-. simpl in Hlen. lia.
Defined.

(** A body whose [title] is a number is rejected, with the title reported. *)
Lemma wrong_typed_title_rejected :
  exists errors,
    validateCreateRecipeCommand (JObj [("title", JNum 42)]) = Normal (Invalid errors)
    /\ errors !! "title" = Some "title is required".
Proof. eexists. split; vm_compute; reflexivity. Qed.

(** C8, as stated, fails: an entry that carries [unit_id: ""] is accepted,
    although the empty string is not a 36-character string. *)
Lemma empty_unit_id_accepted :
  get_prop ingredient_with_empty_unit_id "unit_id" = Normal (JStr "")
  /\ validateIngredient ingredient_with_empty_unit_id 0 = Normal None
  /\ ~ hex_or_dash_36 (JStr "").
Proof.
  split; [reflexivity|]. split; [vm_compute; reflexivity|].
  intros (s & Hs & Hlen & _). injection Hs as <-. simpl in Hlen. lia.
Qed.

(** [isUuid] asks for the characters only, not for the 8-4-4-4-12 grouping:
    36 hyphens pass. *)
Lemma hyphens_unit_id_accepted :
  validateIngredient ingredient_with_hyphens_unit_id 0 = Normal None.
Proof. vm_compute. reflexivity. Qed.

(** The example scenarios of the specification. *)
Lemma salmon_accepted : validateCreateRecipeCommand salmon = Normal Valid.
Proof. vm_compute. reflexivity. Qed.

Lemma salmon_short_step_rejected :
  exists errors,
    validateCreateRecipeCommand (salmon_with (JArr [JStr "short"]))
    = Normal (Invalid errors)
    /\ errors !! "recipe_data.steps[0]" = Some "step too short (min 10 chars)".
Proof. eexists. split; [vm_compute; reflexivity|]. vm_compute. reflexivity. Qed.

End ValidatorFacts.

(** ** The recipe write path *)

Module RecipeServiceFacts.
Import Supabase RecipeService Route RecipeRows ValidatorFacts.

Lemma issued_app w (l : list (Query * PostgrestResponse)) w' :
  exchanges w' = (exchanges w ++ l)%list -> issued w w' = l.
Proof. intros E. unfold issued. rewrite E. by rewrite drop_app_length. Qed.

Lemma issued_same w w' : exchanges w' = exchanges w -> issued w w' = [].
Proof. intros E. apply issued_app. by rewrite app_nil_r. Qed.

Lemma get_prop_fuel v k : get_prop v k <> OutOfFuel.
Proof. by destruct v. Qed.

Lemma js_array_items_fuel v k : js_array_items v k <> OutOfFuel.
Proof. by destruct v. Qed.

Lemma js_array_items_normal v k items : js_array_items v k = Normal items -> v = JArr items.
Proof. destruct v; try done. by intros [= ->]. Qed.

Lemma get_prop_normal_inv v k x : get_prop v k = Normal x -> x = get_prop_opt v k.
Proof. destruct v; simpl; by intros [= <-]. Qed.

Section WithEnv.
Variable env : Env.

(** Building the ingredient rows draws identifiers and may throw, but it
    does not talk to the database. *)
Lemma ingredient_row_quiet recipeId ing w :
  exchanges (snd (ingredient_row env recipeId ing w)) = exchanges w
  /\ tables (snd (ingredient_row env recipeId ing w)) = tables w
  /\ fst (ingredient_row env recipeId ing w) <> OutOfFuel.
Proof. by destruct ing. Qed.

Lemma map_ingredient_row_quiet recipeId items w :
  exchanges (snd (map_M (ingredient_row env recipeId) items w)) = exchanges w
  /\ tables (snd (map_M (ingredient_row env recipeId) items w)) = tables w
  /\ fst (map_M (ingredient_row env recipeId) items w) <> OutOfFuel.
Proof.
  revert w. induction items as [|ing rest IH]; intros w; [done|].
  simpl. unfold mbind, M_bind.
  destruct (ingredient_row_quiet recipeId ing w) as (He & Ht & Hf).
  destruct (ingredient_row env recipeId ing w) as [[row|e|] w1]; simpl in *; [|done..].
  destruct (IH w1) as (He' & Ht' & Hf').
  destruct (map_M (ingredient_row env recipeId) rest w1) as [[rows|e|] w2];
    simpl in *; repeat split; congruence.
Qed.

(** It does not throw when every entry is an object. *)
Lemma map_ingredient_row_normal recipeId items w :
  Forall (fun item => is_nullish item = false) items ->
  exists payload, fst (map_M (ingredient_row env recipeId) items w) = Normal payload.
Proof.
  intros Hall. revert w. induction Hall as [|item rest Hitem _ IH]; intros w.
  - by exists [].
  - simpl. unfold mbind, M_bind.
    assert (exists row w1, ingredient_row env recipeId item w = (Normal row, w1))
      as (row & w1 & ->) by (destruct item; try done; by eexists _, _).
    destruct (IH w1) as [payload Hp].
    destruct (map_M (ingredient_row env recipeId) rest w1) as [c w2].
    simpl in Hp. subst c. by eexists.
Qed.

(** The four ways a call of [createRecipe] can go. *)
Lemma createRecipe_cases userId cmd w :
  let run := createRecipe env userId cmd w in
  let recipeId := uuid_of env (uuid_count w) in
  let q1 := Insert "recipes"
              [JObj [("id", JStr recipeId);
                     ("owner_user_id", userId);
                     ("title", get_prop_opt cmd "title");
                     ("raw_text", get_prop_opt cmd "raw_text");
                     ("recipe_data", get_prop_opt cmd "recipe_data")]]
              SelectSingle in
  let r1 := respond env (length (exchanges w)) q1 in
  let t1 := match error r1 with
            | None => apply_query q1 (tables w)
            | Some _ => tables w
            end in
  (* the command is [undefined] or [null]: nothing is sent *)
  (is_nullish cmd = true /\ exchanges (snd run) = exchanges w /\ exists e, fst run = Throw e)
  (* the recipe insert fails, or the ingredient rows cannot be built *)
  \/ ((is_Some (error r1) \/ truthy (data r1) = false
       \/ ~ exists items,
             get_prop_opt (get_prop_opt cmd "recipe_data") "ingredients" = JArr items
             /\ Forall (fun item => is_nullish item = false) items)
      /\ exchanges (snd run) = (exchanges w ++ [(q1, r1)])%list /\ exists e, fst run = Throw e)
  (* the ingredient insert fails *)
  \/ (exists payload r3 e,
        let q2 := Insert "ingredients" payload SelectAll in
        let r2 := respond env (S (length (exchanges w))) q2 in
        exchanges (snd run)
        = (exchanges w ++ [(q1, r1); (q2, r2); (DeleteEq "recipes" "id" (JStr recipeId), r3)])%list
        /\ error r1 = None /\ error r2 = Some e
        /\ fst run = Throw (Error ("Failed to insert ingredients: " +:+ message e))
        /\ tables (snd run)
           = match error r3 with
             | None => apply_query (DeleteEq "recipes" "id" (JStr recipeId)) t1
             | Some _ => t1
             end)
  (* both inserts succeed *)
  \/ (exists payload audit r3 response,
        let q2 := Insert "ingredients" payload SelectAll in
        let r2 := respond env (S (length (exchanges w))) q2 in
        exchanges (snd run)
        = (exchanges w ++ [(q1, r1); (q2, r2); (Insert "recipe_audit" audit NoSelect, r3)])%list
        /\ error r1 = None /\ truthy (data r1) = true /\ error r2 = None
        /\ fst run = Normal response
        /\ get_prop_opt response "recipe_data" = get_prop_opt cmd "recipe_data"
        /\ get_prop_opt response "ingredients" = js_or (data r2) (JArr [])
        /\ get_prop_opt response "cached_nutrition" = JNull).
Proof.
  intros run recipeId q1 r1 t1. subst run. unfold createRecipe.
  unfold mbind, M_bind. simpl.
  destruct (is_nullish cmd) eqn:Hnn.
  { left. split; [done|].
    destruct cmd; try done; simpl; (split; [done|eauto]). }
  unfold lift. rewrite !(get_prop_normal cmd) by done.
  cbv beta iota. fold recipeId. fold q1. fold r1.
  destruct (bool_decide (is_Some (error r1)) || negb (truthy (data r1))) eqn:Hfail.
  { right; left. split; [|split; [done|eauto]].
    apply orb_true_iff in Hfail as [H|H].
    - left. by apply bool_decide_eq_true in H.
    - right; left. by apply negb_true_iff in H. }
  apply orb_false_iff in Hfail as [Herr Hdata].
  apply bool_decide_eq_false in Herr. apply negb_false_iff in Hdata.
  assert (error r1 = None) as Herr1 by (destruct (error r1); [by destruct Herr|done]).
  clear Herr.
  set (w1 := {| tables := _; exchanges := (exchanges w ++ [(q1, r1)])%list;
                uuid_count := _; clock_reads := _ |}).
  assert (exchanges w1 = (exchanges w ++ [(q1, r1)])%list) as Hw1 by done.
  pose proof (get_prop_fuel (get_prop_opt cmd "recipe_data") "ingredients") as Hf1.
  destruct (get_prop (get_prop_opt cmd "recipe_data") "ingredients")
    as [ings|e|] eqn:Hings; [| |done].
  2:{ right; left. split; [|eauto]. right; right. intros (items & Hitems & _).
      destruct (get_prop_opt cmd "recipe_data"); done. }
  apply get_prop_normal_inv in Hings.
  pose proof (js_array_items_fuel ings "map") as Hf2.
  destruct (js_array_items ings "map") as [items|e|] eqn:Harr; [| |done].
  2:{ right; left. split; [|eauto]. right; right. intros (items & Hitems & _).
      rewrite <- Hings in Hitems. rewrite Hitems in Harr. done. }
  apply js_array_items_normal in Harr.
  destruct (map_ingredient_row_quiet recipeId items w1) as (He2 & Ht2 & Hf3).
  pose proof (map_ingredient_row_normal recipeId items w1) as Hn3.
  destruct (map_M (ingredient_row env recipeId) items w1) as [[payload|e|] w2];
    simpl in He2, Ht2, Hf3, Hn3; [| |done].
  2:{ right; left. split; [|split; [|eauto]].
      - right; right. intros (items' & Hitems & Hall).
        rewrite <- Hings, Harr in Hitems. injection Hitems as <-.
        by destruct (Hn3 Hall).
      - simpl. by rewrite He2. }
  assert (length (exchanges w2) = S (length (exchanges w))) as Hlen
    by (rewrite He2; simpl; rewrite length_app; simpl; lia).
  rewrite Hlen.
  set (r2 := respond env (S (length (exchanges w))) (Insert "ingredients" payload SelectAll)).
  destruct (error r2) as [e|] eqn:Herr2.
  - right; right; left.
    exists payload,
      (respond env (length (exchanges w2 ++ [(Insert "ingredients" payload SelectAll, r2)]))
         (DeleteEq "recipes" "id" (JStr recipeId))), e.
    simpl. rewrite He2, Ht2. simpl. rewrite <- !app_assoc. simpl.
    split; [done|]. repeat split; done.
  - right; right; right.
    eexists payload, _, _, _.
    simpl. rewrite He2. simpl. rewrite <- !app_assoc. simpl.
    split; [done|]. repeat split; try done.
    + unfold get_prop_opt. rewrite assoc_get_set_ne by done.
      rewrite assoc_get_set_ne by done. by rewrite assoc_get_set_eq.
    + unfold get_prop_opt. rewrite assoc_get_set_ne by done.
      by rewrite assoc_get_set_eq.
    + unfold get_prop_opt. by rewrite assoc_get_set_eq.
Qed.

(** C1 (as the code has it).  When the recipe-row insert has succeeded and
    the ingredient bulk insert that follows reports an error, [createRecipe]
    sends one more query, a delete of the recipe row it has just inserted
    (by the same id), does not look at the result of that delete, and
    throws [Failed to insert ingredients: ...]; it does not return.  If the
    delete takes effect, no row with that id is left in [recipes]. *)
Theorem createRecipe_compensating_delete userId cmd w q1 r1 q2 r2 rest e :
  issued w (snd (createRecipe env userId cmd w)) = (q1, r1) :: (q2, r2) :: rest ->
  error r1 = None ->
  error r2 = Some e ->
  exists recipeId row payload r3,
    q1 = Insert "recipes" [row] SelectSingle
    /\ get_prop_opt row "id" = JStr recipeId
    /\ q2 = Insert "ingredients" payload SelectAll
    /\ rest = [(DeleteEq "recipes" "id" (JStr recipeId), r3)]
    /\ fst (createRecipe env userId cmd w)
       = Throw (Error ("Failed to insert ingredients: " +:+ message e))
    /\ (error r3 = None ->
        forall row', In row' (table_rows (tables (snd (createRecipe env userId cmd w)))
                                "recipes") ->
                     get_prop_opt row' "id" <> JStr recipeId).
Proof.
  intros Hlog Herr1 Herr2.
  destruct (createRecipe_cases userId cmd w)
    as [(_ & H & _)|[(_ & H & _)|[(payload & r3 & e' & H & _ & He & Hthrow & Htab)
                     |(payload & audit & r3 & resp & H & _ & _ & He & _)]]];
  first [apply issued_app in H|apply issued_same in H]; rewrite H in Hlog; try done.
  - injection Hlog as <- <- <- <- <-.
    assert (e' = e) as -> by congruence.
    eexists _, _, payload, r3. repeat split; try done.
    intros Hdel row' Hin Hid. rewrite Htab, Hdel in Hin. simpl in Hin.
    unfold table_rows in Hin at 1. rewrite lookup_insert_eq in Hin. simpl in Hin.
    apply filter_In in Hin as [_ Hne]. unfold column_eq in Hne.
    rewrite Hid, String.eqb_refl in Hne. done.
  - injection Hlog as <- <- <- <- <-. congruence.
Qed.

Lemma valid_command_shape cmd :
  Validator.validateCreateRecipeCommand cmd = Normal Validator.Valid ->
  is_nullish cmd = false
  /\ exists items,
       get_prop_opt (get_prop_opt cmd "recipe_data") "ingredients" = JArr items
       /\ Forall (fun item => is_nullish item = false) items.
Proof.
  intros Hv. apply validateCreateRecipeCommand_valid_iff in Hv as [Hok _].
  unfold Validator.other_rules_ok in Hok. rewrite !andb_true_iff in Hok.
  destruct Hok as ((((((Hobj & _) & _) & _) & _) & _) & Hing).
  split; [by apply is_object_not_nullish|].
  destruct (get_prop_opt (get_prop_opt cmd "recipe_data") "ingredients")
    as [| | | | |[|x rest]|]; try done.
  eexists; split; [done|].
  apply Forall_lookup. intros j item Hj.
  rewrite all_pass_spec in Hing. specialize (Hing j item Hj).
  destruct item; try done.
Qed.

(** Building the ingredient rows of a list of objects: one identifier is
    drawn per row, in order, and nothing else changes. *)
Lemma map_ingredient_row_run recipeId items w :
  Forall (fun item => is_nullish item = false) items ->
  map_M (ingredient_row env recipeId) items w
  = (Normal (imap (fun i ing =>
                     ingredient_row_value recipeId (uuid_of env (uuid_count w + i)) ing)
               items),
     {| tables := tables w; exchanges := exchanges w;
        uuid_count := uuid_count w + length items;
        clock_reads := clock_reads w |}).
Proof.
  intros Hall. revert w. induction Hall as [|item rest Hitem _ IH]; intros w.
  - simpl. unfold mret, M_ret. rewrite Nat.add_0_r. by destruct w.
  - simpl. unfold mbind at 1, M_bind at 1.
    assert (ingredient_row env recipeId item w
            = (Normal (ingredient_row_value recipeId (uuid_of env (uuid_count w)) item),
               {| tables := tables w; exchanges := exchanges w;
                  uuid_count := S (uuid_count w); clock_reads := clock_reads w |})) as ->.
    { unfold ingredient_row, mbind, M_bind, uuidv4, lift.
      rewrite !(get_prop_normal item) by done. done. }
    unfold mbind, M_bind. rewrite IH. simpl. unfold mret, M_ret.
    rewrite Nat.add_0_r. f_equal.
    + f_equal. f_equal. apply imap_ext. intros i x _. simpl. do 2 f_equal. lia.
    + f_equal. lia.
Qed.

(** The run of [createRecipe] on a command whose ingredients are an array
    of objects, once the recipe row has been accepted. *)
Lemma createRecipe_run userId cmd w items :
  is_nullish cmd = false ->
  get_prop_opt (get_prop_opt cmd "recipe_data") "ingredients" = JArr items ->
  Forall (fun item => is_nullish item = false) items ->
  let n := length (exchanges w) in
  let recipeId := uuid_of env (uuid_count w) in
  let q1 := Insert "recipes" [recipe_row recipeId userId cmd] SelectSingle in
  let r1 := respond env n q1 in
  let payload :=
    imap (fun i ing =>
            ingredient_row_value recipeId (uuid_of env (S (uuid_count w) + i)) ing) items in
  let q2 := Insert "ingredients" payload SelectAll in
  let r2 := respond env (S n) q2 in
  let del := DeleteEq "recipes" "id" (JStr recipeId) in
  let q3 := Insert "recipe_audit" [audit_row recipeId userId cmd] NoSelect in
  let r3 := respond env (S (S n)) (match error r2 with Some _ => del | None => q3 end) in
  error r1 = None ->
  truthy (data r1) = true ->
  createRecipe env userId cmd w
  = (match error r2 with
     | Some e => Throw (Error ("Failed to insert ingredients: " +:+ message e))
     | None =>
         Normal (JObj (assoc_set
                         (assoc_set
                            (assoc_set (own_props (data r1)) "recipe_data"
                               (get_prop_opt cmd "recipe_data"))
                            "ingredients" (js_or (data r2) (JArr [])))
                         "cached_nutrition" JNull))
     end,
     {| tables :=
          match error r2 with
          | Some _ =>
              match error r3 with
              | None => apply_query del (apply_query q1 (tables w))
              | Some _ => apply_query q1 (tables w)
              end
          | None =>
              match error r3 with
              | None => apply_query q3 (apply_query q2 (apply_query q1 (tables w)))
              | Some _ => apply_query q2 (apply_query q1 (tables w))
              end
          end;
        exchanges :=
          (exchanges w
           ++ [(q1, r1); (q2, r2);
               (match error r2 with Some _ => del | None => q3 end, r3)])%list;
        uuid_count := S (uuid_count w) + length items;
        clock_reads := clock_reads w |}).
Proof.
  intros Hnn Hitems Hall n recipeId q1 r1 payload q2 r2 del q3 r3 Herr1 Hdata.
  assert (get_prop (get_prop_opt cmd "recipe_data") "ingredients" = Normal (JArr items))
    as Hget by (destruct (get_prop_opt cmd "recipe_data"); try done; simpl in *; congruence).
  unfold createRecipe, mbind, M_bind. simpl.
  unfold lift. rewrite !(get_prop_normal cmd) by done. cbv beta iota.
  unfold recipe_row in q1. fold recipeId. fold q1. fold n. fold r1.
  rewrite Herr1, Hdata. simpl. rewrite Hget. simpl.
  rewrite map_ingredient_row_run by done. simpl.
  assert (length (exchanges w ++ [(q1, r1)]) = S n) as Hlen1
    by (rewrite length_app; simpl; lia).
  assert (forall x : Query * PostgrestResponse,
            length ((exchanges w ++ [(q1, r1)]) ++ [x]) = S (S n)) as Hlen2
    by (intros x; rewrite !length_app; simpl; lia).
  rewrite Hlen1. change (respond env (S n) (Insert "ingredients" _ SelectAll)) with r2.
  subst r3. destruct (error r2) as [e|] eqn:E.
  - unfold throw. simpl. rewrite Hlen2, <- !app_assoc. simpl. reflexivity.
  - unfold try_catch, mret, M_ret. simpl. rewrite Hlen2, <- !app_assoc. simpl.
    reflexivity.
Qed.

(** C3.  For a valid command, when the recipe insert that [createRecipe]
    makes is answered without error and with a row, and the ingredient
    insert that it makes next is answered without error, [createRecipe]
    returns, and the response it returns has [recipe_data] equal to the
    submitted [recipe_data] and [cached_nutrition] equal to [null].  The two
    inserts are the first two queries of the call. *)
Theorem createRecipe_round_trip userId cmd w items :
  Validator.validateCreateRecipeCommand cmd = Normal Validator.Valid ->
  Validator.ingredients_of cmd = JArr items ->
  error (recipe_insert_response env w userId cmd) = None ->
  truthy (data (recipe_insert_response env w userId cmd)) = true ->
  error (ingredients_insert_response env w items) = None ->
  exists response rest,
    fst (createRecipe env userId cmd w) = Normal response
    /\ issued w (snd (createRecipe env userId cmd w))
       = (recipe_insert env w userId cmd, recipe_insert_response env w userId cmd)
         :: (ingredients_insert env w items, ingredients_insert_response env w items)
         :: rest
    /\ get_prop_opt response "recipe_data" = get_prop_opt cmd "recipe_data"
    /\ get_prop_opt response "cached_nutrition" = JNull.
Proof.
  intros Hvalid Hitems Herr1 Hdata Herr2.
  destruct (valid_command_shape cmd Hvalid) as (Hnn & items' & Hitems' & Hall).
  unfold Validator.ingredients_of in Hitems. rewrite Hitems in Hitems'.
  injection Hitems' as <-.
  pose proof (createRecipe_run userId cmd w items Hnn Hitems Hall Herr1 Hdata) as Hrun.
  cbv zeta in Hrun. rewrite Hrun.
  change (respond env (S (length (exchanges w))) _)
    with (ingredients_insert_response env w items).
  rewrite Herr2. simpl. eexists _, _.
  split; [done|]. split; [by apply issued_app|]. split.
  - unfold get_prop_opt. rewrite !assoc_get_set_ne by done.
    by rewrite assoc_get_set_eq.
  - unfold get_prop_opt. by rewrite assoc_get_set_eq.
Qed.
End WithEnv.

Import Examples MoreExamples.

Lemma createRecipe_compensating_delete_witness :
  fst (createRecipe env_ingredients_fail (JStr "user-1") salmon empty_world)
  = Throw (Error "Failed to insert ingredients: violates foreign key constraint")
  /\ forall row',
       In row' (table_rows
                  (tables (snd (createRecipe env_ingredients_fail (JStr "user-1") salmon
                                  empty_world))) "recipes") ->
       get_prop_opt row' "id" <> JStr "uuid-0".
Proof.
  edestruct (createRecipe_compensating_delete env_ingredients_fail (JStr "user-1") salmon
               empty_world)
    as (recipeId & row & payload & r3 & Hq1 & Hid & Hq2 & Hrest & Hthrow & Hgone);
    [vm_compute; reflexivity|reflexivity|reflexivity|].
  injection Hq1 as <-. injection Hid as <-. injection Hrest as <-.
  split; [exact Hthrow|exact (Hgone eq_refl)].
Defined.

(** C1, as stated, fails: when the delete itself is refused, the recipe row
    stays in [recipes] although the ingredient insert failed. *)
Lemma cleanup_failure_leaves_recipe :
  (fun x => error (snd x))
    <$> issued empty_world
          (snd (createRecipe env_cleanup_fails (JStr "user-1") salmon empty_world))
  = [None; Some {| message := "violates foreign key constraint" |};
     Some {| message := "connection lost" |}]
  /\ (fst <$> issued empty_world
                (snd (createRecipe env_cleanup_fails (JStr "user-1") salmon empty_world)))
       !! 2 = Some (DeleteEq "recipes" "id" (JStr "uuid-0"))
  /\ fst (createRecipe env_cleanup_fails (JStr "user-1") salmon empty_world)
     = Throw (Error "Failed to insert ingredients: violates foreign key constraint")
  /\ exists row,
       In row (table_rows
                 (tables (snd (createRecipe env_cleanup_fails (JStr "user-1") salmon
                                 empty_world))) "recipes")
       /\ get_prop_opt row "id" = JStr "uuid-0".
Proof.
  split; [vm_compute; reflexivity|]. split; [vm_compute; reflexivity|].
  split; [vm_compute; reflexivity|].
  eexists. split; [vm_compute; left; reflexivity|reflexivity].
Qed.

Lemma createRecipe_round_trip_witness :
  exists response rest,
    fst (createRecipe env_picky (JStr "user-1") salmon empty_world) = Normal response
    /\ issued empty_world (snd (createRecipe env_picky (JStr "user-1") salmon empty_world))
       = (recipe_insert env_picky empty_world (JStr "user-1") salmon,
          recipe_insert_response env_picky empty_world (JStr "user-1") salmon)
         :: (ingredients_insert env_picky empty_world
               [ingredient "salmon" 200; ingredient "spinach" 150],
             ingredients_insert_response env_picky empty_world
               [ingredient "salmon" 200; ingredient "spinach" 150])
         :: rest
    /\ get_prop_opt response "recipe_data" = get_prop_opt salmon "recipe_data"
    /\ get_prop_opt response "cached_nutrition" = JNull.
Proof.
  apply (createRecipe_round_trip env_picky (JStr "user-1") salmon empty_world
           [ingredient "salmon" 200; ingredient "spinach" 150]);
    [vm_compute; reflexivity|reflexivity|reflexivity|reflexivity|reflexivity].
Defined.

(** The database of this example does not accept every row: it refuses a
    recipe row without a title. *)
Lemma env_picky_refuses_untitled :
  error (respond env_picky 0 (Insert "recipes" [JObj [("title", JNull)]] SelectSingle))
  = Some {| message := "null value in column title" |}.
Proof. reflexivity. Qed.

End RecipeServiceFacts.

Lemma M_bind_ext {S A B} (m : M S A) (f g : A -> M S B) (w : S) :
  (forall a w', f a w' = g a w') -> (m ≫= f) w = (m ≫= g) w.
Proof.
  intros H. unfold mbind, M_bind. destruct (m w) as [[a|e|] w']; auto.
Qed.

Lemma M_bind_normal {S A B} (m : M S A) (f : A -> M S B) (w w1 : S) (a : A) :
  m w = (Normal a, w1) -> (m ≫= f) w = f a w1.
Proof. intros H. unfold mbind, M_bind. by rewrite H. Qed.

(** ** The route handler *)

Module RouteFacts.
Import Supabase RecipeService Route Validator ValidatorFacts RecipeServiceFacts.

Lemma differ_get_prop b1 b2 k :
  differ_only_in_owner b1 b2 -> k <> "owner_user_id" ->
  get_prop b1 k = get_prop b2 k.
Proof.
  destruct b1, b2; try done. simpl. intros H Hk. by rewrite (H k Hk).
Qed.

Lemma differ_get_prop_opt b1 b2 k :
  differ_only_in_owner b1 b2 -> k <> "owner_user_id" ->
  get_prop_opt b1 k = get_prop_opt b2 k.
Proof.
  destruct b1, b2; try done. simpl. intros H Hk. by rewrite (H k Hk).
Qed.

(** The validator does not read [owner_user_id]. *)
Lemma differ_validate b1 b2 :
  differ_only_in_owner b1 b2 ->
  validateCreateRecipeCommand b1 = validateCreateRecipeCommand b2.
Proof.
  intros H. rewrite !validateCreateRecipeCommand_normal.
  assert (is_object b1 = is_object b2) as -> by (by destruct b1, b2).
  assert (command_errors b1 = command_errors b2) as ->; [|done].
  unfold command_errors.
  rewrite (differ_get_prop_opt b1 b2 "title"),
          (differ_get_prop_opt b1 b2 "raw_text"),
          (differ_get_prop_opt b1 b2 "recipe_data") by done.
  done.
Qed.

Section WithEnv.
Variable env : Env.

(** Neither does [createRecipe]. *)
Lemma differ_createRecipe userId b1 b2 w :
  differ_only_in_owner b1 b2 ->
  createRecipe env userId b1 w = createRecipe env userId b2 w.
Proof.
  intros H. unfold createRecipe.
  rewrite (differ_get_prop b1 b2 "title"),
          (differ_get_prop b1 b2 "raw_text"),
          (differ_get_prop b1 b2 "recipe_data") by done.
  done.
Qed.

Lemma getAuthUserIdFromHeader_quiet request w :
  exists authUserId,
    getAuthUserIdFromHeader env request w = (Normal authUserId, w).
Proof.
  unfold getAuthUserIdFromHeader.
  destruct (authorization request) as [auth|]; [|by eexists].
  destruct (negb (truthy (JStr auth))); [by eexists|].
  destruct (negb (length (split_on " " auth) =? 2)); [by eexists|].
  unfold try_catch, mbind, M_bind, auth_getUser, lift.
  destruct (getUser env (nth 1 (split_on " " auth) "")) as [e|[data error]];
    [by eexists|].
  simpl.
  destruct (truthy error || negb (truthy (get_prop_opt data "user"))) eqn:E;
    [by eexists|].
  apply orb_false_iff in E as [_ E]. apply negb_false_iff in E.
  assert (is_nullish data = false) as Hd by (by destruct data).
  rewrite (get_prop_normal data) by done.
  assert (is_nullish (get_prop_opt data "user") = false) as Hu
    by (by destruct (get_prop_opt data "user")).
  rewrite (get_prop_normal _ _ Hu). by eexists.
Qed.
(** Resolving the user talks to [auth_user_map] and [users] only. *)
Lemma resolveUserId_log authUserId w :
  exists l,
    exchanges (snd (resolveUserId env authUserId w)) = (exchanges w ++ l)%list
    /\ Forall (fun x => forall rows returning, fst x <> Insert "recipes" rows returning) l.
Proof.
  unfold resolveUserId, mbind, M_bind. simpl.
  set (q0 := SelectEqSingle _ _ _).
  set (r0 := respond env (length (exchanges w)) q0).
  assert (forall rows returning, q0 <> Insert "recipes" rows returning) as H0 by done.
  unfold lift.
  assert (exists mapped,
    (if truthy (data r0) then get_prop (data r0) "user_id" else mret (data r0))
    = Normal mapped) as [mapped ->].
  { destruct (truthy (data r0)) eqn:E; [|by eexists].
    rewrite get_prop_normal by (by destruct (data r0)). by eexists. }
  destruct (truthy mapped).
  { exists [(q0, r0)]. simpl. split; [done|]. by repeat constructor. }
  simpl.
  set (q1 := Insert "users" _ _).
  set (r1 := respond env _ q1).
  assert (forall rows returning, q1 <> Insert "recipes" rows returning) as H1 by done.
  destruct (get_prop (data r1) "user_id") as [userId|e|] eqn:E.
  - eexists [(q0, r0); (q1, r1); (_, _)]. simpl. rewrite <- !app_assoc. simpl.
    split; [done|]. by repeat constructor.
  - exists [(q0, r0); (q1, r1)]. simpl. rewrite <- !app_assoc. simpl.
    split; [done|]. by repeat constructor.
  - by destruct (get_prop_fuel _ _ E).
Qed.

Lemma issued_trans w w1 w2 l1 l2 :
  exchanges w1 = (exchanges w ++ l1)%list ->
  exchanges w2 = (exchanges w1 ++ l2)%list ->
  issued w w2 = (l1 ++ l2)%list.
Proof. intros E1 E2. apply issued_app. by rewrite E2, E1, app_assoc. Qed.

(** The queries of [createRecipe]: the only insert into [recipes] is the
    first query, one row whose [owner_user_id] is the [userId] argument. *)
Lemma createRecipe_log userId cmd w :
  exists l,
    exchanges (snd (createRecipe env userId cmd w)) = (exchanges w ++ l)%list
    /\ Forall (fun x => forall rows returning,
                 fst x = Insert "recipes" rows returning ->
                 exists row, rows = [row] /\ get_prop_opt row "owner_user_id" = userId) l.
Proof.
  assert (forall q r, q = Insert "recipes"
            [JObj [("id", JStr (uuid_of env (uuid_count w)));
                   ("owner_user_id", userId);
                   ("title", get_prop_opt cmd "title");
                   ("raw_text", get_prop_opt cmd "raw_text");
                   ("recipe_data", get_prop_opt cmd "recipe_data")]] SelectSingle ->
          forall rows returning,
            fst (q, r : PostgrestResponse) = Insert "recipes" rows returning ->
            exists row, rows = [row] /\ get_prop_opt row "owner_user_id" = userId) as Hq1.
  { intros q r -> rows returning [= <- _]. by eexists. }
  destruct (createRecipe_cases env userId cmd w)
    as [(_ & H & _)|[(_ & H & _)|[(payload & r3 & e' & H & _)
                     |(payload & audit & r3 & resp & H & _)]]].
  - exists []. rewrite app_nil_r. split; [done|constructor].
  - eexists. split; [exact H|]. repeat constructor. by apply Hq1.
  - eexists. split; [exact H|]. repeat constructor; [by apply Hq1|done..].
  - eexists. split; [exact H|]. repeat constructor; [by apply Hq1|done..].
Qed.

(** C2.  Two [POST /api/v1/recipes] requests whose bodies differ only in an
    [owner_user_id] field are handled alike: same response, same rows
    persisted.  And every row the handler inserts into [recipes] has as
    [owner_user_id] the internal user id that [resolveUserId] obtained from
    the auth mapping for the authenticated user; no field of the body is
    read for it. *)
Theorem post_owner_from_auth_mapping auth b1 b2 w :
  differ_only_in_owner b1 b2 ->
  post env {| authorization := auth; json := Some b1 |} w
  = post env {| authorization := auth; json := Some b2 |} w
  /\ forall rows returning r,
       In (Insert "recipes" rows returning, r)
          (issued w (snd (post env {| authorization := auth; json := Some b1 |} w))) ->
       exists authUserId userId w' row,
         getAuthUserIdFromHeader env {| authorization := auth; json := Some b1 |} w
         = (Normal authUserId, w)
         /\ resolveUserId env authUserId w = (Normal userId, w')
         /\ rows = [row]
         /\ get_prop_opt row "owner_user_id" = userId.
Proof.
  intros Hdiff. split.
  - unfold post. cbn [json]. rewrite (differ_validate b1 b2 Hdiff).
    apply M_bind_ext. intros [|errors] w0; [|done].
    change (getAuthUserIdFromHeader env {| authorization := auth; json := Some b1 |})
      with (getAuthUserIdFromHeader env {| authorization := auth; json := Some b2 |}).
    apply M_bind_ext. intros authUserId w1.
    destruct (negb (truthy authUserId)); [done|].
    apply M_bind_ext. intros [userId|response] w2; [|done].
    unfold try_catch, mbind, M_bind.
    by rewrite (differ_createRecipe userId b1 b2 w2 Hdiff).
  - intros rows returning r. unfold post. cbn [json].
    unfold mbind at 1, M_bind, lift.
    destruct (validateCreateRecipeCommand b1) as [[|errors]|e|];
      try (simpl; unfold issued; rewrite drop_all; by intros []).
    destruct (getAuthUserIdFromHeader_quiet
                {| authorization := auth; json := Some b1 |} w) as [a1 H1].
    unfold mbind at 1, M_bind. rewrite H1.
    destruct (negb (truthy a1));
      [simpl; unfold issued; rewrite drop_all; by intros []|].
    unfold mbind at 1, M_bind.
    destruct (resolveUserId_log a1 w) as (l1 & Hl1 & Hno).
    unfold try_catch at 1. unfold mbind at 1, M_bind.
    destruct (resolveUserId env a1 w) as [[userId|e|] w1] eqn:Hres; simpl in Hl1.
    2,3: simpl; rewrite (issued_app w l1 w1 Hl1); intros Hin;
         apply (proj2 (list_elem_of_In _ _)) in Hin;
         rewrite Forall_forall in Hno; by destruct (Hno _ Hin rows returning).
    simpl.
    destruct (createRecipe_log userId b1 w1) as (l2 & Hl2 & Hown).
    match goal with
    | |- In _ (issued w (snd ?run)) -> _ =>
        assert (exchanges (snd run) = exchanges (snd (createRecipe env userId b1 w1)))
          as Hsame
          by (unfold try_catch, mbind, M_bind;
              by destruct (createRecipe env userId b1 w1) as [[?|?|] ?]);
        rewrite <- Hsame in Hl2;
        rewrite (issued_trans w w1 (snd run) l1 l2 Hl1 Hl2)
    end.
    intros Hin. apply in_app_or in Hin as [Hin|Hin];
      apply (proj2 (list_elem_of_In _ _)) in Hin.
    + rewrite Forall_forall in Hno. by destruct (Hno _ Hin rows returning).
    + rewrite Forall_forall in Hown. destruct (Hown _ Hin rows returning eq_refl)
        as (row & -> & Hrow).
      eexists a1, userId, w1, row. done.
Qed.
End WithEnv.

Import Examples.

Lemma post_owner_from_auth_mapping_witness :
  post env_ok salmon_request empty_world
  = post env_ok {| authorization := Some "Bearer token-1";
                   json := Some (with_owner salmon (JStr "attacker")) |} empty_world.
Proof.
  apply (post_owner_from_auth_mapping env_ok (Some "Bearer token-1") salmon
           (with_owner salmon (JStr "attacker")) empty_world).
  intros k Hk. symmetry. apply assoc_get_set_ne. congruence.
Defined.

(** The example scenario: the request is answered with 201 and the one row
    in [recipes] is owned by the user the auth mapping resolved, also when the
    body names another owner. *)
Lemma salmon_created_for_resolved_user :
  status (default {| status := 0; body := JNull |}
            (match fst (post env_ok {| authorization := Some "Bearer token-1";
                                       json := Some (with_owner salmon (JStr "attacker")) |}
                          empty_world) with
             | Normal response => Some response
             | _ => None
             end)) = 201
  /\ (fun row => get_prop_opt row "owner_user_id")
       <$> table_rows
             (tables (snd (post env_ok
                             {| authorization := Some "Bearer token-1";
                                json := Some (with_owner salmon (JStr "attacker")) |}
                             empty_world))) "recipes"
     = [JStr "auth-token-1"].
Proof. split; vm_compute; reflexivity. Qed.

End RouteFacts.

(** ** The enrichment client *)

Module OpenRouterFacts.
Import OpenRouter.

Lemma handleOpenRouterResponse_fuel res payload :
  handleOpenRouterResponse res payload <> OutOfFuel.
Proof.
  unfold handleOpenRouterResponse.
  destruct (negb (res_ok res)).
  - destruct (res_status res =? 401)%Z; [done|]. by destruct (res_status res =? 429)%Z.
  - destruct (res_json res); [|done]. by destruct (truthy _).
Qed.

(** On a 429 the response handler throws a [RateLimitError] that carries the
    parsed [Retry-After]. *)
Lemma handleOpenRouterResponse_429 res payload :
  res_status res = 429%Z ->
  handleOpenRouterResponse res payload
  = Throw (RateLimitError "Rate limited by OpenRouter"
             (retryAfter_of (res_retry_after res))).
Proof. intros H. unfold handleOpenRouterResponse, res_ok. by rewrite H. Qed.

Section WithNet.
Variable net : Net.

(** One attempt is one [fetch]; it touches nothing else, and whatever it
    throws is a [NetworkError]. *)
Lemma attempt_run payload s :
  fetch_count (snd (attempt net payload s)) = S (fetch_count s)
  /\ waits (snd (attempt net payload s)) = waits s
  /\ random_count (snd (attempt net payload s)) = random_count s
  /\ validators (snd (attempt net payload s)) = validators s
  /\ ((exists v, fst (attempt net payload s) = Normal v)
      \/ exists m cause, fst (attempt net payload s) = Throw (NetworkError m cause)).
Proof.
  unfold attempt, try_catch, mbind, M_bind, fetch, lift, throw. simpl.
  destruct (fetch_outcome net (fetch_count s)) as [err|res].
  - destruct (is_AbortError err); simpl; repeat split; eauto.
  - pose proof (handleOpenRouterResponse_fuel res payload) as Hf.
    destruct (handleOpenRouterResponse res payload) as [v|err|]; [| |done].
    + simpl. repeat split; eauto.
    + destruct (is_AbortError err); simpl; repeat split; eauto.
Qed.

(** On a 429 the attempt throws a [NetworkError] whose cause is the
    [RateLimitError] of the response handler. *)
Lemma attempt_429 payload s res :
  fetch_outcome net (fetch_count s) = FetchResolves res ->
  res_status res = 429%Z ->
  fst (attempt net payload s)
  = Throw (NetworkError "Network request failed"
             (RateLimitError "Rate limited by OpenRouter"
                (retryAfter_of (res_retry_after res)))).
Proof.
  intros Hf Hs. unfold attempt, try_catch, mbind, M_bind, fetch, lift, throw. simpl.
  rewrite Hf. by rewrite (handleOpenRouterResponse_429 res payload Hs).
Qed.

Lemma jitter_range (r : Q) :
  (0 <= r)%Q -> (r < 1)%Q -> (0 <= r * 100)%Q /\ (r * 100 < 100)%Q.
Proof.
  destruct r as [a b]. unfold Qle, Qlt, Qmult. cbn [Qnum Qden].
  rewrite ?Pos.mul_1_r. intros H0 H1. split; lia.
Qed.

(** The backoff loop around [attempt], started with the counter at [k]:
    with fuel for the retries that are left it ends; it waits once before
    each retry, never more often than there are retries left; and the wait
    before retry number [k + n + 1] is [min(2000, 300 * 2^(k + n + 1))] plus
    a jitter in [[0, 100)]. *)
Lemma retry_loop_waits payload retries :
  (forall i, (0 <= random net i)%Q /\ (random net i < 1)%Q) ->
  forall fuel k s,
    Z.to_nat retries - k < fuel ->
    fst (retry_loop net fuel (attempt net payload) retries k s) <> OutOfFuel
    /\ exists ws,
         waits (snd (retry_loop net fuel (attempt net payload) retries k s))
         = (waits s ++ ws)%list
         /\ length ws <= Z.to_nat retries - k
         /\ fetch_count (snd (retry_loop net fuel (attempt net payload) retries k s))
            = fetch_count s + length ws + 1
         /\ validators (snd (retry_loop net fuel (attempt net payload) retries k s))
            = validators s
         /\ forall n w, ws !! n = Some w ->
              exists jitter,
                (0 <= jitter)%Q /\ (jitter < 100)%Q
                /\ w = (Qmin 2000 (inject_Z (300 * 2 ^ Z.of_nat (k + n + 1))) + jitter)%Q.
Proof.
  intros Hrand. induction fuel as [|fuel IH]; intros k s Hfuel; [lia|].
  simpl. unfold try_catch.
  destruct (attempt_run payload s) as (Hfc & Hw & Hrc & Hv & Hres).
  destruct (attempt net payload s) as [[v|err|] s1]; simpl in *.
  - split; [done|]. exists []. rewrite app_nil_r. simpl.
    repeat split; try done; lia.
  - destruct (negb (isRetriableError err) || (retries <? Z.of_nat (S k))%Z) eqn:E.
    + unfold throw. simpl. split; [done|]. exists []. rewrite app_nil_r. simpl.
      repeat split; try done; lia.
    + apply orb_false_iff in E as [_ E]. apply Z.ltb_ge in E.
      unfold mbind, M_bind, Math_random, sleep. simpl.
      match goal with |- context [retry_loop net fuel _ retries (S k) ?s2] =>
        destruct (IH (S k) s2) as (Hf & ws & Hws & Hlen & Hfetch & Hval & Hwait);
          [lia|]; simpl in Hws, Hfetch, Hval
      end.
      split; [exact Hf|].
      eexists (_ :: ws).
      split; [rewrite Hws, Hw, <- app_assoc; reflexivity|].
      simpl. split; [lia|]. split; [lia|]. split; [congruence|].
      intros [|n] w Hn; simpl in Hn.
      * injection Hn as <-. eexists. 
        destruct (jitter_range _ (proj1 (Hrand (random_count s1)))
                    (proj2 (Hrand (random_count s1)))) as [H0 H1].
        split; [exact H0|]. split; [exact H1|].
        replace (k + 0 + 1) with (S k) by lia. reflexivity.
      * destruct (Hwait n w Hn) as (j & H0 & H1 & ->).
        exists j. split; [done|]. split; [done|].
        by replace (k + S n + 1) with (S k + n + 1) by lia.
  - destruct Hres as [[? ?]|(? & ? & ?)]; done.
Qed.

(** C9.  The wait before retry number [n + 1] of [sendMessage] is
    [min(2000, 300 * 2^(n + 1))] ms plus a jitter in [[0, 100)] ms, where
    [Math.random()] yields a value in [[0, 1)]; there are at most
    [maxRetries] waits, every [fetch] but the first comes after one, and
    with them the loop ends. *)
Theorem backoff_waits fuel svc messages opts s :
  (forall i, (0 <= random net i)%Q /\ (random net i < 1)%Q) ->
  Z.to_nat (maxRetries svc) < fuel ->
  fst (sendMessage net fuel svc messages opts s) <> OutOfFuel
  /\ exists ws,
       waits (snd (sendMessage net fuel svc messages opts s)) = (waits s ++ ws)%list
       /\ length ws <= Z.to_nat (maxRetries svc)
       /\ fetch_count (snd (sendMessage net fuel svc messages opts s))
          <= fetch_count s + length ws + 1
       /\ forall n w, ws !! n = Some w ->
            exists jitter,
              (0 <= jitter)%Q /\ (jitter < 100)%Q
              /\ w = (Qmin 2000 (inject_Z (300 * 2 ^ Z.of_nat (n + 1))) + jitter)%Q.
Proof.
  intros Hrand Hfuel. unfold sendMessage, mbind, M_bind, get_state. simpl.
  assert (forall e : Exn,
    fst (throw (A := JsVal) e s) <> OutOfFuel
    /\ exists ws, waits (snd (throw (A := JsVal) e s)) = (waits s ++ ws)%list
         /\ length ws <= Z.to_nat (maxRetries svc)
         /\ fetch_count (snd (throw (A := JsVal) e s)) <= fetch_count s + length ws + 1
         /\ forall n w, ws !! n = Some w ->
              exists jitter,
                (0 <= jitter)%Q /\ (jitter < 100)%Q
                /\ w = (Qmin 2000 (inject_Z (300 * 2 ^ Z.of_nat (n + 1))) + jitter)%Q)
    as Hthrow.
  { intros e. split; [done|]. exists []. simpl. rewrite app_nil_r.
    repeat split; try done; lia. }
  destruct (isShutdown s); [apply Hthrow|].
  destruct messages as [|m rest]; [apply Hthrow|].
  unfold lift, buildPayload. simpl.
  match goal with |- context [retryWithBackoff net fuel (attempt net ?p) _ s] =>
    destruct (retry_loop_waits p (maxRetries svc) Hrand fuel 0 s)
      as (Hf & ws & Hws & Hlen & Hfetch & _ & Hwait); [lia|]
  end.
  unfold retryWithBackoff. split; [exact Hf|].
  exists ws. split; [exact Hws|]. split; [lia|]. split; [lia|]. exact Hwait.
Qed.

(** When every [fetch] from the current one on is answered with 429, the
    loop started with the counter at [k] makes one attempt and then one more
    for each retry that is left, and ends by throwing what the last attempt
    threw. *)
Lemma retry_loop_rate_limited payload retries :
  forall fuel k s,
    Z.to_nat retries - k < fuel ->
    (forall i, fetch_count s <= i ->
       exists res, fetch_outcome net i = FetchResolves res /\ res_status res = 429%Z) ->
    exists res,
      fetch_outcome net (fetch_count s + (Z.to_nat retries - k)) = FetchResolves res
      /\ fst (retry_loop net fuel (attempt net payload) retries k s)
         = Throw (NetworkError "Network request failed"
                    (RateLimitError "Rate limited by OpenRouter"
                       (retryAfter_of (res_retry_after res))))
      /\ fetch_count (snd (retry_loop net fuel (attempt net payload) retries k s))
         = fetch_count s + (Z.to_nat retries - k) + 1.
Proof.
  induction fuel as [|fuel IH]; intros k s Hfuel Hall; [lia|].
  simpl. unfold try_catch.
  destruct (Hall (fetch_count s) (le_n _)) as (res0 & Hres0 & Hst0).
  pose proof (attempt_429 payload s res0 Hres0 Hst0) as Hthrow.
  destruct (attempt_run payload s) as (Hfc & _).
  destruct (attempt net payload s) as [c s1]. simpl in Hthrow, Hfc. subst c.
  simpl isRetriableError. simpl negb. rewrite orb_false_l.
  destruct (retries <? Z.of_nat (S k))%Z eqn:E.
  - apply Z.ltb_lt in E. replace (Z.to_nat retries - k) with 0 by lia.
    exists res0. rewrite Nat.add_0_r. unfold throw. simpl. repeat split; [done|lia].
  - apply Z.ltb_ge in E.
    unfold mbind, M_bind, Math_random, sleep. simpl.
    match goal with |- context [retry_loop net fuel _ retries (S k) ?s2] =>
      destruct (IH (S k) s2) as (res & Hres & Hfst & Hcount); [lia| |]
    end.
    { simpl. intros i Hi. apply Hall. lia. }
    simpl in Hres, Hcount. exists res.
    split; [by replace (fetch_count s + (Z.to_nat retries - k))
                 with (fetch_count s1 + (Z.to_nat retries - S k)) by lia|].
    split; [exact Hfst|]. lia.
Qed.

(** C4 (what the code does).  When every attempt of a [sendMessage] call is
    answered with 429, the client makes [1 + maxRetries] attempts and then
    throws; what it throws is a [NetworkError] whose [cause] is the
    [RateLimitError] with the parsed [Retry-After] of the last response, not
    a [RateLimitError]. *)
Theorem rate_limit_surfaces_as_network_error fuel svc messages opts s :
  isShutdown s = false ->
  messages <> [] ->
  Z.to_nat (maxRetries svc) < fuel ->
  (forall i, fetch_count s <= i ->
     exists res, fetch_outcome net i = FetchResolves res /\ res_status res = 429%Z) ->
  exists res,
    fetch_outcome net (fetch_count s + Z.to_nat (maxRetries svc)) = FetchResolves res
    /\ fst (sendMessage net fuel svc messages opts s)
       = Throw (NetworkError "Network request failed"
                  (RateLimitError "Rate limited by OpenRouter"
                     (retryAfter_of (res_retry_after res))))
    /\ fetch_count (snd (sendMessage net fuel svc messages opts s))
       = fetch_count s + 1 + Z.to_nat (maxRetries svc).
Proof.
  intros Hup Hmsgs Hfuel Hall.
  unfold sendMessage, mbind, M_bind, get_state. simpl. rewrite Hup.
  destruct messages as [|m rest]; [done|].
  unfold lift, buildPayload. simpl. unfold retryWithBackoff.
  match goal with |- context [retry_loop net fuel (attempt net ?p) _ 0 s] =>
    destruct (retry_loop_rate_limited p (maxRetries svc) fuel 0 s)
      as (res & Hres & Hfst & Hcount); [lia|exact Hall|]
  end.
  rewrite Nat.sub_0_r in Hres, Hcount.
  exists res. split; [exact Hres|]. split; [exact Hfst|]. lia.
Qed.

(** C5.  A [sendStructuredMessage] call with a [json_schema] format whose
    [sendMessage] returned validates the payload ([res?.output ?? res]) with
    the validator of the named schema before it returns it; when the payload
    does not satisfy the schema the call throws a [ResponseFormatError] that
    carries the validator's errors, and in either case it makes no [fetch]
    beyond those of [sendMessage]: the mismatch is not retried. *)
Theorem schema_mismatch_not_retried fuel svc messages rf opts s res s1 v :
  rf_type rf = "json_schema" ->
  sendMessage net fuel svc messages (with_responseFormat opts rf) s = (Normal res, s1) ->
  validator_for net s1 rf = Some v ->
  fst (sendStructuredMessage net fuel svc messages (Some rf) opts s)
  = (if fst (v (nullish_or (get_prop_opt res "output") res))
     then Normal (nullish_or (get_prop_opt res "output") res)
     else Throw (ResponseFormatError "Response did not match schema"
                   (snd (v (nullish_or (get_prop_opt res "output") res)))))
  /\ fetch_count (snd (sendStructuredMessage net fuel svc messages (Some rf) opts s))
     = fetch_count s1.
Proof.
  intros Htype Hsend Hv.
  unfold sendStructuredMessage. rewrite Htype, String.eqb_refl.
  change (negb true) with false. cbv iota.
  rewrite (M_bind_normal _ _ s s1 res Hsend).
  rewrite (M_bind_normal get_state _ s1 s1 s1 eq_refl).
  unfold validator_for in Hv.
  destruct (validators_get (validators s1) (rf_name rf)) as [v0|].
  - injection Hv as ->. unfold mbind, M_bind, mret, M_ret.
    destruct (v (nullish_or (get_prop_opt res "output") res)) as [[|] errors]; done.
  - rewrite Hv. unfold mbind, M_bind, mret, M_ret, set_validator, modify_state.
    destruct (v (nullish_or (get_prop_opt res "output") res)) as [[|] errors]; done.
Qed.

End WithNet.

Import Examples.

Lemma backoff_waits_witness :
  fst (sendMessage net_rate_limited 10 default_service hello no_options fresh_state)
  <> OutOfFuel
  /\ exists ws,
       waits (snd (sendMessage net_rate_limited 10 default_service hello no_options
                     fresh_state)) = (waits fresh_state ++ ws)%list
       /\ length ws <= Z.to_nat (maxRetries default_service)
       /\ fetch_count (snd (sendMessage net_rate_limited 10 default_service hello
                              no_options fresh_state))
          <= fetch_count fresh_state + length ws + 1
       /\ forall n w, ws !! n = Some w ->
            exists jitter,
              (0 <= jitter)%Q /\ (jitter < 100)%Q
              /\ w = (Qmin 2000 (inject_Z (300 * 2 ^ Z.of_nat (n + 1))) + jitter)%Q.
Proof.
  apply (backoff_waits net_rate_limited 10 default_service hello no_options fresh_state).
  - intros i. split; [discriminate|reflexivity].
  - simpl. lia.
Defined.

(** The three waits of the example: 600, 1200 and 2000 ms, each with a
    jitter of 50 ms. *)
Lemma backoff_waits_example :
  waits (snd (sendMessage net_rate_limited 10 default_service hello no_options
                fresh_state))
  = [(Qmin 2000 (inject_Z 600) + (1 # 2) * 100)%Q;
     (Qmin 2000 (inject_Z 1200) + (1 # 2) * 100)%Q;
     (Qmin 2000 (inject_Z 2400) + (1 # 2) * 100)%Q].
Proof. reflexivity. Qed.

Lemma rate_limit_surfaces_as_network_error_witness :
  fst (sendMessage net_rate_limited 10 default_service hello no_options fresh_state)
  = Throw (NetworkError "Network request failed"
             (RateLimitError "Rate limited by OpenRouter" (Some 7%Z)))
  /\ fetch_count (snd (sendMessage net_rate_limited 10 default_service hello no_options
                         fresh_state)) = 4.
Proof.
  destruct (rate_limit_surfaces_as_network_error net_rate_limited 10 default_service
              hello no_options fresh_state) as (res & Hres & Hfst & Hcount).
  - reflexivity.
  - discriminate.
  - simpl. lia.
  - intros i _. exists rate_limited. split; reflexivity.
  - injection Hres as <-. split; [exact Hfst|exact Hcount].
Defined.

(** The same wrapping reaches a 401: the [AuthenticationError] becomes the
    cause of a [NetworkError], which the loop retries. *)
Lemma unauthorized_is_wrapped_and_retried :
  fst (sendMessage net_unauthorized 10 default_service hello no_options fresh_state)
  = Throw (NetworkError "Network request failed" (AuthenticationError "Invalid API key"))
  /\ fetch_count (snd (sendMessage net_unauthorized 10 default_service hello no_options
                         fresh_state)) = 4.
Proof. split; reflexivity. Qed.

Lemma schema_mismatch_not_retried_witness :
  fst (sendStructuredMessage net_wrong_shape 10 default_service hello
         (Some nutrition_format) no_options fresh_state)
  = Throw (ResponseFormatError "Response did not match schema"
             (JArr [JObj [("message",
                           JStr "must have required property 'ingredients'")]]))
  /\ fetch_count (snd (sendStructuredMessage net_wrong_shape 10 default_service hello
                         (Some nutrition_format) no_options fresh_state)) = 1.
Proof.
  edestruct (schema_mismatch_not_retried net_wrong_shape 10 default_service hello
               nutrition_format no_options fresh_state) as [Hfst Hcount].
  - reflexivity.
  - vm_compute. reflexivity.
  - reflexivity.
  - split; [exact Hfst|exact Hcount].
Defined.

End OpenRouterFacts.

(** * Further properties *)

(** ** More on the request validator *)

Module ValidatorMore.
Import Validator ValidatorFacts.

Lemma fold_errors_lookup_inv r key items idx (errors : gmap string string) k msg :
  fold_errors r key items idx errors !! k = Some msg ->
  errors !! k = Some msg
  \/ exists j x, items !! j = Some x /\ k = key (idx + j) /\ r x (idx + j) = Some msg.
Proof.
  revert idx errors. induction items as [|y rest IH]; intros idx errors H; simpl in H.
  - by left.
  - apply IH in H as [H|(j & x & Hj & -> & Hr)].
    + destruct (r y idx) as [m|] eqn:Hy; [|by left].
      destruct (decide (key idx = k)) as [<-|Hne].
      * rewrite lookup_insert_eq in H. injection H as ->.
        right. exists 0, y. by rewrite Nat.add_0_r.
      * rewrite lookup_insert_ne in H by done. by left.
    + right. exists (S j), x. by replace (idx + S j) with (S idx + j) by lia.
Qed.

Lemma errors_of_result body :
  is_object body = true ->
  exists r, validateCreateRecipeCommand body = Normal r
            /\ errors_of r = command_errors body.
Proof.
  intros Hobj. rewrite validateCreateRecipeCommand_normal, Hobj.
  eexists. split; [done|].
  destruct (0 <? size (command_errors body)) eqn:Hsz; [done|].
  apply size_positive_false in Hsz. by rewrite Hsz.
Qed.

(** X2.  Every ingredient that [validateIngredient] reports appears in the result
    under [recipe_data.ingredients[i]] with the message returned for it,
    whatever else is wrong with the payload. *)
Theorem ingredient_error_reported (body : JsVal) (items : list JsVal) (i : nat)
    (item : JsVal) (msg : string) :
  is_object body = true ->
  is_object (get_prop_opt body "recipe_data") = true ->
  ingredients_of body = JArr items ->
  items !! i = Some item ->
  validateIngredient item i = Normal (Some msg) ->
  exists errors,
    validateCreateRecipeCommand body = Normal (Invalid errors)
    /\ errors !! ingredients_key i = Some msg.
Proof.
  intros Hobj Hrd Hing Hi Hres.
  assert (ingredient_result item i = Some msg) as Hr
    by (unfold ingredient_result; by rewrite Hres).
  assert (command_errors body !! ingredients_key i = Some msg) as Hl.
  { unfold command_errors, recipe_data_errors. rewrite Hrd.
    unfold ingredients_of in Hing. rewrite Hing.
    destruct items as [|x rest]; [done|].
    set (e1 := if is_blank (get_prop_opt (get_prop_opt body "recipe_data") "title")
               then _ else _).
    assert (fold_errors ingredient_result ingredients_key (x :: rest) 0 e1
              !! ingredients_key i = Some msg) as Hfold.
    { pose proof (fold_errors_lookup ingredient_result ingredients_key
                    ingredients_key_inj (x :: rest) 0 e1 i item Hi) as H.
      simpl in H. by rewrite Hr in H. }
    destruct (get_prop_opt (get_prop_opt body "recipe_data") "steps");
      try (rewrite lookup_insert_ne; [exact Hfold|by unfold ingredients_key]).
    rewrite fold_errors_lookup_other; [exact Hfold|].
    intros j _. by unfold ingredients_key, steps_key. }
  rewrite validateCreateRecipeCommand_normal, Hobj.
  destruct (0 <? size (command_errors body)) eqn:Hsz.
  - eauto.
  - apply size_positive_false in Hsz. rewrite Hsz in Hl. done.
Qed.

(** Every step is checked, whatever else is wrong with the payload: the
    entry under [recipe_data.steps[i]] says that the step is not a string,
    too short or too long, and is absent for a string of 10 to 500
    characters. *)
Theorem step_error_reported (body : JsVal) (steps : list JsVal) (i : nat) (step : JsVal) :
  is_object body = true ->
  is_object (get_prop_opt body "recipe_data") = true ->
  steps_of body = JArr steps ->
  steps !! i = Some step ->
  exists r,
    validateCreateRecipeCommand body = Normal r
    /\ errors_of r !! steps_key i
       = match step with
         | JStr s =>
             if String.length s <? 10 then Some "step too short (min 10 chars)"
             else if 500 <? String.length s then Some "step too long (max 500 chars)"
             else None
         | _ => Some "step must be a string"
         end.
Proof.
  intros Hobj Hrd Hsteps Hi.
  destruct (errors_of_result body Hobj) as (r & Hr & Herr).
  exists r. split; [exact Hr|]. rewrite Herr.
  unfold command_errors, recipe_data_errors. rewrite Hrd.
  unfold steps_of in Hsteps. rewrite Hsteps.
  match goal with |- fold_errors _ _ _ _ ?e !! _ = _ =>
    pose proof (fold_errors_lookup step_result steps_key steps_key_inj steps 0 e i step Hi)
      as Hl; change (0 + i) with i in Hl; rewrite Hl;
    assert (e !! steps_key i = None) as He
  end.
  { destruct (get_prop_opt (get_prop_opt body "recipe_data") "ingredients")
      as [| | | | |[|x rest]|];
      try (rewrite lookup_insert_ne by (by unfold steps_key));
      try (rewrite fold_errors_lookup_other
             by (intros j _; by unfold ingredients_key, steps_key));
      (destruct (is_blank (get_prop_opt (get_prop_opt body "recipe_data") "title"));
       [rewrite lookup_insert_ne by (by unfold steps_key)|]);
      (destruct (is_blank (get_prop_opt body "raw_text"));
       [rewrite lookup_insert_ne by (by unfold steps_key)|]);
      (destruct (is_blank (get_prop_opt body "title"));
       [by rewrite lookup_insert_ne by (by unfold steps_key)|]);
      (destruct (get_prop_opt body "title"); try done;
       destruct (300 <? _); [by rewrite lookup_insert_ne by (by unfold steps_key)|done]). }
  unfold step_result. destruct step; try done.
  destruct (_ <? 10); [done|]. by destruct (500 <? _).
Qed.

(** X3.  What the validator reports about the title of an object body: a missing,
    non-string or blank title is ['title is required'], a title of more than
    300 characters is ['title too long (max 300)'], and a title of 300
    characters or fewer is not reported. *)
Theorem title_rule (body : JsVal) :
  is_object body = true ->
  exists r,
    validateCreateRecipeCommand body = Normal r
    /\ errors_of r !! "title"
       = match get_prop_opt body "title" with
         | JStr s =>
             if String.eqb s "" || (String.length (trim s) =? 0)
             then Some "title is required"
             else if 300 <? String.length s then Some "title too long (max 300)"
             else None
         | _ => Some "title is required"
         end.
Proof.
  intros Hobj.
  destruct (errors_of_result body Hobj) as (r & Hr & Herr).
  exists r. split; [exact Hr|]. rewrite Herr.
  unfold command_errors.
  set (e1 := if is_blank (get_prop_opt body "title") then _ else _).
  assert (e1 !! "title"
          = match get_prop_opt body "title" with
            | JStr s =>
                if String.eqb s "" || (String.length (trim s) =? 0)
                then Some "title is required"
                else if 300 <? String.length s then Some "title too long (max 300)"
                else None
            | _ => Some "title is required"
            end) as <-.
  { subst e1. destruct (get_prop_opt body "title") as [| | | |s| |];
      try (simpl; by rewrite lookup_insert_eq).
    unfold is_blank. destruct (String.eqb s "" || _); [by rewrite lookup_insert_eq|].
    destruct (300 <? _); [by rewrite lookup_insert_eq|done]. }
  set (e2 := if is_blank (get_prop_opt body "raw_text") then _ else e1).
  assert (e2 !! "title" = e1 !! "title") as <-
    by (subst e2; destruct (is_blank (get_prop_opt body "raw_text"));
        [by rewrite lookup_insert_ne|done]).
  destruct (is_object (get_prop_opt body "recipe_data")).
  - apply recipe_data_errors_other; try done; intros j; by unfold ingredients_key, steps_key.
  - by rewrite lookup_insert_ne.
Qed.

Lemma get_prop_opt_set_ne fields k k' v :
  k <> k' -> get_prop_opt (JObj (assoc_set fields k v)) k' = get_prop_opt (JObj fields) k'.
Proof. intros H. simpl. by rewrite assoc_get_set_ne. Qed.

(** X4.  The validator reads [title], [raw_text] and [recipe_data] only: setting
    any other field of the body does not change its result. *)
Theorem other_fields_ignored (fields : list (string * JsVal)) (k : string) (v : JsVal) :
  k <> "title" -> k <> "raw_text" -> k <> "recipe_data" ->
  validateCreateRecipeCommand (JObj (assoc_set fields k v))
  = validateCreateRecipeCommand (JObj fields).
Proof.
  intros H1 H2 H3. rewrite !validateCreateRecipeCommand_normal.
  assert (command_errors (JObj (assoc_set fields k v)) = command_errors (JObj fields)) as ->;
    [|done].
  unfold command_errors. by rewrite !get_prop_opt_set_ne by done.
Qed.

(** X1.  When [validateIngredient] accepts: the entry is a non-null object (an
    array counts), its name is a non-blank string of at most 200 characters,
    its quantity is a number above zero, and each of [unit_id], [unit_text]
    and [normalized_name] is falsy or, respectively, accepted by [isUuid], a
    string, a string.  The index plays no part. *)
Theorem ingredient_accepted_iff (item : JsVal) (index : nat) :
  validateIngredient item index = Normal None <->
  typeof item = TObject /\ item <> JNull
  /\ (exists name, get_prop_opt item "name" = JStr name
                   /\ name <> "" /\ trim name <> "" /\ String.length name <= 200)
  /\ (exists q, get_prop_opt item "quantity" = JNum q
                /\ PrimFloat.is_nan q = false /\ PrimFloat.leb q 0%float = false)
  /\ (truthy (get_prop_opt item "unit_id") = true ->
      isUuid (get_prop_opt item "unit_id") = true)
  /\ (truthy (get_prop_opt item "unit_text") = true ->
      typeof (get_prop_opt item "unit_text") = TString)
  /\ (truthy (get_prop_opt item "normalized_name") = true ->
      typeof (get_prop_opt item "normalized_name") = TString).
Proof.
  unfold validateIngredient.
  destruct (negb (bool_decide (typeof item = TObject)) || is_null item) eqn:Hobj.
  { split; [done|]. intros (Ht & Hn & _). apply orb_true_iff in Hobj as [H|H].
    - apply negb_true_iff, bool_decide_eq_false in H. done.
    - by destruct item. }
  apply orb_false_iff in Hobj as [Ht Hn].
  apply negb_false_iff, bool_decide_eq_true in Ht.
  assert (item <> JNull) as Hn' by (by destruct item).
  assert (is_nullish item = false) as Hnn by (by destruct item).
  rewrite !(get_prop_normal item) by done. simpl.
  rewrite blank_or_not_string_normal. simpl.
  destruct (is_blank (get_prop_opt item "name")) eqn:Hname.
  { split; [done|]. intros (_ & _ & (name & E & H1 & H2 & _) & _).
    rewrite E in Hname. simpl in Hname.
    apply orb_true_iff in Hname as [H|H].
    - by apply String.eqb_eq in H.
    - apply Nat.eqb_eq in H. by destruct (trim name). }
  destruct (is_blank_false _ Hname) as [name Ename]. rewrite Ename in *. simpl.
  simpl in Hname. apply orb_false_iff in Hname as [Hne Htrim].
  apply String.eqb_neq in Hne. apply Nat.eqb_neq in Htrim.
  assert (trim name <> "") as Htrim' by (intros E; by rewrite E in Htrim).
  destruct (Nat.ltb_spec 200 (String.length name)) as [Hlong|Hlen].
  { split; [done|]. intros (_ & _ & (name' & [= <-] & _ & _ & H) & _). lia. }
  destruct (not_positive_number (get_prop_opt item "quantity")) eqn:Hq.
  { split; [done|]. intros (_ & _ & _ & (q & E & H1 & H2) & _).
    rewrite E in Hq. simpl in Hq. by rewrite H1, H2 in Hq. }
  destruct (get_prop_opt item "quantity") as [| | |q| | |] eqn:Eq; try done.
  simpl in Hq. apply orb_false_iff in Hq as [Hnan Hle].
  destruct (truthy (get_prop_opt item "unit_id") && negb (isUuid _)) eqn:Hu.
  { split; [done|]. intros (_ & _ & _ & _ & H & _).
    apply andb_true_iff in Hu as [Hu1 Hu2]. rewrite (H Hu1) in Hu2. done. }
  destruct (truthy (get_prop_opt item "unit_text") && negb (bool_decide _)) eqn:Hx.
  { split; [done|]. intros (_ & _ & _ & _ & _ & H & _).
    apply andb_true_iff in Hx as [Hx1 Hx2].
    apply negb_true_iff, bool_decide_eq_false in Hx2. by destruct Hx2; apply H. }
  destruct (truthy (get_prop_opt item "normalized_name") && negb (bool_decide _)) eqn:Hm.
  { split; [done|]. intros (_ & _ & _ & _ & _ & _ & H).
    apply andb_true_iff in Hm as [Hm1 Hm2].
    apply negb_true_iff, bool_decide_eq_false in Hm2. by destruct Hm2; apply H. }
  split; [intros _|done].
  split; [done|]. split; [done|]. split; [by exists name|]. split; [by exists q|].
  split; [|split].
  - intros H. rewrite H in Hu. simpl in Hu. by apply negb_false_iff in Hu.
  - intros H. rewrite H in Hx. simpl in Hx.
    by apply negb_false_iff, bool_decide_eq_true in Hx.
  - intros H. rewrite H in Hm. simpl in Hm.
    by apply negb_false_iff, bool_decide_eq_true in Hm.
Qed.

(** X5.  Every entry of the error record has a cause.  Its key is one of the seven
    fixed keys, or [recipe_data.ingredients[i]] for an ingredient [i] of the
    payload with the message [validateIngredient] returns for it, or
    [recipe_data.steps[i]] for a step [i] of the payload that is not a string
    of 10 to 500 characters; no other key, and no index outside the arrays,
    is ever reported. *)
Theorem reported_errors_have_a_cause (body : JsVal) (errors : gmap string string)
    (k msg : string) :
  validateCreateRecipeCommand body = Normal (Invalid errors) ->
  errors !! k = Some msg ->
  In k ["body"; "title"; "raw_text"; "recipe_data"; "recipe_data.title";
        "recipe_data.ingredients"; "recipe_data.steps"]
  \/ (exists items i item,
        ingredients_of body = JArr items /\ items !! i = Some item
        /\ k = ingredients_key i
        /\ validateIngredient item i = Normal (Some msg))
  \/ (exists steps i step,
        steps_of body = JArr steps /\ steps !! i = Some step
        /\ k = steps_key i
        /\ ~ exists s, step = JStr s /\ 10 <= String.length s <= 500).
Proof.
  rewrite validateCreateRecipeCommand_normal.
  destruct (is_object body) eqn:Hobj.
  2:{ intros [= <-] H. apply lookup_singleton_Some in H as [<- _].
      left. by left. }
  destruct (0 <? size (command_errors body)); [|done].
  intros [= <-]. unfold command_errors.
  set (e1 := if is_blank (get_prop_opt body "title") then _ else _).
  assert (forall m, e1 !! k = Some m -> k = "title") as He1.
  { subst e1. intros m. destruct (is_blank (get_prop_opt body "title")).
    - intros H. by apply lookup_insert_Some in H as [[<- _]|[_ H]].
    - destruct (get_prop_opt body "title"); try done.
      destruct (300 <? _); [|done].
      intros H. by apply lookup_insert_Some in H as [[<- _]|[_ H]]. }
  set (e2 := if is_blank (get_prop_opt body "raw_text") then _ else e1).
  assert (forall m, e2 !! k = Some m -> k = "title" \/ k = "raw_text") as He2.
  { subst e2. intros m. destruct (is_blank (get_prop_opt body "raw_text")).
    - intros H. apply lookup_insert_Some in H as [[<- _]|[_ H]]; [by right|].
      left. by apply (He1 m).
    - intros H. left. by apply (He1 m). }
  assert (forall m, e2 !! k = Some m ->
            In k ["body"; "title"; "raw_text"; "recipe_data"; "recipe_data.title";
                  "recipe_data.ingredients"; "recipe_data.steps"]) as Htop.
  { intros m H. destruct (He2 m H) as [->| ->]; simpl; tauto. }
  destruct (is_object (get_prop_opt body "recipe_data")).
  2:{ intros H. apply lookup_insert_Some in H as [[<- _]|[_ H]].
      - left. simpl. tauto.
      - left. by apply (Htop msg). }
  unfold recipe_data_errors, ingredients_of, steps_of.
  set (e3 := if is_blank (get_prop_opt (get_prop_opt body "recipe_data") "title")
             then _ else e2).
  assert (forall m, e3 !! k = Some m ->
            In k ["body"; "title"; "raw_text"; "recipe_data"; "recipe_data.title";
                  "recipe_data.ingredients"; "recipe_data.steps"]) as H3.
  { subst e3. intros m.
    destruct (is_blank (get_prop_opt (get_prop_opt body "recipe_data") "title")).
    - intros H. apply lookup_insert_Some in H as [[<- _]|[_ H]]; [simpl; tauto|].
      by apply (Htop m).
    - apply Htop. }
  set (e4 := match get_prop_opt (get_prop_opt body "recipe_data") "ingredients" with
             | JArr (x :: rest) => _
             | _ => _
             end).
  assert (e4 !! k = Some msg ->
    In k ["body"; "title"; "raw_text"; "recipe_data"; "recipe_data.title";
          "recipe_data.ingredients"; "recipe_data.steps"]
    \/ exists items i item,
         get_prop_opt (get_prop_opt body "recipe_data") "ingredients" = JArr items
         /\ items !! i = Some item /\ k = ingredients_key i
         /\ validateIngredient item i = Normal (Some msg)) as H4.
  { subst e4.
    destruct (get_prop_opt (get_prop_opt body "recipe_data") "ingredients")
      as [| | | | |[|x rest]|];
      try (intros H; apply lookup_insert_Some in H as [[<- _]|[_ H]];
           [left; simpl; tauto|left; by apply (H3 msg)]).
    intros H. apply fold_errors_lookup_inv in H as [H|(j & y & Hj & -> & Hr)].
    - left. by apply (H3 msg).
    - right. exists (x :: rest), j, y. repeat split; try done.
      change (0 + j) with j in Hr.
      rewrite validateIngredient_normal. by rewrite Hr. }
  destruct (get_prop_opt (get_prop_opt body "recipe_data") "steps") as [| | | | |steps|];
    try (intros H; apply lookup_insert_Some in H as [[<- _]|[_ H]];
         [left; simpl; tauto|destruct (H4 H) as [?|?]; [by left|right; by left]]).
  intros H. apply fold_errors_lookup_inv in H as [H|(j & y & Hj & -> & Hr)].
  - destruct (H4 H) as [?|?]; [by left|right; by left].
  - right; right. exists steps, j, y. repeat split; try done.
    intros (s & -> & Hlen). simpl in Hr.
    destruct (Nat.ltb_spec (String.length s) 10); [lia|].
    destruct (Nat.ltb_spec 500 (String.length s)); [lia|]. done.
Qed.

Import Examples MoreExamples.

Lemma ingredient_error_reported_witness :
  exists errors,
    validateCreateRecipeCommand broken_payload = Normal (Invalid errors)
    /\ errors !! ingredients_key 1 = Some "ingredients[1].unit_id must be a valid UUID".
Proof.
  apply (ingredient_error_reported broken_payload
           [ingredient "salt" 1; ingredient_with_short_unit_id] 1
           ingredient_with_short_unit_id);
    [reflexivity|reflexivity|reflexivity|reflexivity|vm_compute; reflexivity].
Defined.

Lemma step_error_reported_witness :
  exists r,
    validateCreateRecipeCommand broken_payload = Normal r
    /\ errors_of r !! steps_key 1 = Some "step must be a string".
Proof.
  apply (step_error_reported broken_payload [JStr "Mix."; JNum 3] 1 (JNum 3));
    reflexivity.
Defined.

Lemma title_rule_witness :
  exists r,
    validateCreateRecipeCommand broken_payload = Normal r
    /\ errors_of r !! "title" = Some "title is required".
Proof.
  apply (title_rule broken_payload). reflexivity.
Defined.

Lemma other_fields_ignored_witness :
  validateCreateRecipeCommand (Route.with_owner salmon (JStr "attacker"))
  = validateCreateRecipeCommand salmon.
Proof.
  apply (other_fields_ignored [("title", JStr "Salmon with Spinach");
            ("raw_text", JStr "...");
            ("recipe_data", get_prop_opt salmon "recipe_data")] "owner_user_id" (JStr "attacker"));
    discriminate.
Defined.

Lemma reported_errors_have_a_cause_witness :
  In (steps_key 0) ["body"; "title"; "raw_text"; "recipe_data"; "recipe_data.title";
                    "recipe_data.ingredients"; "recipe_data.steps"]
  \/ (exists items i item,
        ingredients_of broken_payload = JArr items /\ items !! i = Some item
        /\ steps_key 0 = ingredients_key i
        /\ validateIngredient item i = Normal (Some "step too short (min 10 chars)"))
  \/ (exists steps i step,
        steps_of broken_payload = JArr steps /\ steps !! i = Some step
        /\ steps_key 0 = steps_key i
        /\ ~ exists s, step = JStr s /\ 10 <= String.length s <= 500).
Proof.
  apply (reported_errors_have_a_cause broken_payload (command_errors broken_payload));
    vm_compute; reflexivity.
Defined.

End ValidatorMore.

(** ** More on the recipe write path *)

Module RecipeServiceMore.
Import Supabase RecipeService Route RecipeRows ValidatorFacts RecipeServiceFacts.

Section WithEnv.
Variable env : Env.

Lemma table_rows_insert_eq table rows r t :
  table_rows (apply_query (Insert table rows r) t) table
  = (table_rows t table ++ rows)%list.
Proof. unfold table_rows at 1. simpl. by rewrite lookup_insert_eq. Qed.

Lemma table_rows_insert_ne table name rows r t :
  table <> name ->
  table_rows (apply_query (Insert table rows r) t) name = table_rows t name.
Proof. intros Hne. unfold table_rows. simpl. by rewrite lookup_insert_ne. Qed.

Lemma table_rows_delete_eq table column value t :
  table_rows (apply_query (DeleteEq table column value) t) table
  = List.filter (fun row => negb (column_eq column value row)) (table_rows t table).
Proof. unfold table_rows at 1. simpl. by rewrite lookup_insert_eq. Qed.

(** The same, with the queries named. *)
Lemma createRecipe_success_run userId cmd w items :
  has_ingredients cmd items ->
  error (recipe_insert_response env w userId cmd) = None ->
  truthy (data (recipe_insert_response env w userId cmd)) = true ->
  error (ingredients_insert_response env w items) = None ->
  exists response r3,
    fst (createRecipe env userId cmd w) = Normal response
    /\ response
       = JObj (assoc_set
                 (assoc_set
                    (assoc_set (own_props (data (recipe_insert_response env w userId cmd)))
                       "recipe_data" (get_prop_opt cmd "recipe_data"))
                    "ingredients"
                    (js_or (data (ingredients_insert_response env w items)) (JArr [])))
                 "cached_nutrition" JNull)
    /\ exchanges (snd (createRecipe env userId cmd w))
       = (exchanges w
          ++ [(recipe_insert env w userId cmd, recipe_insert_response env w userId cmd);
              (ingredients_insert env w items, ingredients_insert_response env w items);
              (Insert "recipe_audit" [audit_row (new_recipe_id env w) userId cmd] NoSelect,
               r3)])%list
    /\ tables (snd (createRecipe env userId cmd w))
       = match error r3 with
         | None =>
             apply_query
               (Insert "recipe_audit" [audit_row (new_recipe_id env w) userId cmd] NoSelect)
               (apply_query (ingredients_insert env w items)
                  (apply_query (recipe_insert env w userId cmd) (tables w)))
         | Some _ =>
             apply_query (ingredients_insert env w items)
               (apply_query (recipe_insert env w userId cmd) (tables w))
         end.
Proof.
  intros (Hnn & Hitems & Hall) Herr1 Hdata Herr2.
  pose proof (createRecipe_run env userId cmd w items Hnn Hitems Hall Herr1 Hdata) as Hrun.
  cbv zeta in Hrun. rewrite Hrun.
  change (respond env (S (length (exchanges w))) _)
    with (ingredients_insert_response env w items).
  rewrite Herr2. simpl. eexists _, _. repeat split.
Qed.

(** The run of [createRecipe] when the recipe insert fails. *)
Lemma createRecipe_insert_failure userId cmd w :
  is_nullish cmd = false ->
  is_Some (error (recipe_insert_response env w userId cmd))
  \/ truthy (data (recipe_insert_response env w userId cmd)) = false ->
  createRecipe env userId cmd w
  = (Throw (Error ("Failed to insert recipe: " +:+
                   match error (recipe_insert_response env w userId cmd) with
                   | Some e => if String.eqb (message e) "" then "unknown" else message e
                   | None => "unknown"
                   end)),
     {| tables := match error (recipe_insert_response env w userId cmd) with
                  | None => apply_query (recipe_insert env w userId cmd) (tables w)
                  | Some _ => tables w
                  end;
        exchanges := (exchanges w
                      ++ [(recipe_insert env w userId cmd,
                           recipe_insert_response env w userId cmd)])%list;
        uuid_count := S (uuid_count w);
        clock_reads := clock_reads w |}).
Proof.
  intros Hnn Hfail.
  unfold createRecipe, mbind, M_bind. simpl.
  unfold lift. rewrite !(get_prop_normal cmd) by done. cbv beta iota.
  change (respond env (length (exchanges w)) _)
    with (recipe_insert_response env w userId cmd).
  assert (bool_decide (is_Some (error (recipe_insert_response env w userId cmd)))
          || negb (truthy (data (recipe_insert_response env w userId cmd))) = true) as ->.
  { destruct Hfail as [H|H].
    - by rewrite (bool_decide_eq_true_2 _ H).
    - rewrite H. apply orb_true_r. }
  done.
Qed.

(** X6.  When the database refuses the recipe row, or returns no row,
    [createRecipe] throws ['Failed to insert recipe: ...'] with the message
    of the error (['unknown'] when there is none or it is empty) and sends
    nothing more: no ingredient insert, no delete.  A refused insert leaves
    the tables as they were. *)
Theorem recipe_insert_failure_stops userId cmd w :
  is_nullish cmd = false ->
  is_Some (error (recipe_insert_response env w userId cmd))
  \/ truthy (data (recipe_insert_response env w userId cmd)) = false ->
  fst (createRecipe env userId cmd w)
  = Throw (Error ("Failed to insert recipe: " +:+
                  match error (recipe_insert_response env w userId cmd) with
                  | Some e => if String.eqb (message e) "" then "unknown" else message e
                  | None => "unknown"
                  end))
  /\ issued w (snd (createRecipe env userId cmd w))
     = [(recipe_insert env w userId cmd, recipe_insert_response env w userId cmd)]
  /\ (is_Some (error (recipe_insert_response env w userId cmd)) ->
      tables (snd (createRecipe env userId cmd w)) = tables w).
Proof.
  intros Hnn Hfail. rewrite (createRecipe_insert_failure userId cmd w Hnn Hfail).
  simpl. split; [done|]. split; [by apply issued_app|].
  intros [e He]. by rewrite He.
Qed.

(** X7.  The second query of [createRecipe] inserts one row per ingredient of the
    command, in order: each carries the id of the new recipe as [recipe_id],
    an id of its own, the [name] and [quantity] of the ingredient, and [null]
    for each of [normalized_name], [unit_id] and [unit_text] that the
    ingredient leaves undefined. *)
Theorem ingredient_rows_follow_command userId cmd w items :
  has_ingredients cmd items ->
  error (recipe_insert_response env w userId cmd) = None ->
  truthy (data (recipe_insert_response env w userId cmd)) = true ->
  exists payload r2,
    exchanges (snd (createRecipe env userId cmd w)) !! S (length (exchanges w))
    = Some (Insert "ingredients" payload SelectAll, r2)
    /\ length payload = length items
    /\ forall i item, items !! i = Some item ->
         exists row,
           payload !! i = Some row
           /\ get_prop_opt row "recipe_id" = JStr (new_recipe_id env w)
           /\ get_prop_opt row "id" = JStr (uuid_of env (S (uuid_count w) + i))
           /\ get_prop_opt row "name" = get_prop_opt item "name"
           /\ get_prop_opt row "quantity" = get_prop_opt item "quantity"
           /\ get_prop_opt row "normalized_name"
              = nullish_or (get_prop_opt item "normalized_name") JNull
           /\ get_prop_opt row "unit_id" = nullish_or (get_prop_opt item "unit_id") JNull
           /\ get_prop_opt row "unit_text"
              = nullish_or (get_prop_opt item "unit_text") JNull.
Proof.
  intros (Hnn & Hitems & Hall) Herr1 Hdata.
  pose proof (createRecipe_run env userId cmd w items Hnn Hitems Hall Herr1 Hdata) as Hrun.
  cbv zeta in Hrun. rewrite Hrun. simpl.
  exists (ingredient_rows env w items), (ingredients_insert_response env w items).
  split; [|split].
  - rewrite lookup_app_r by lia.
    by replace (S (length (exchanges w)) - length (exchanges w)) with 1 by lia.
  - unfold ingredient_rows. by rewrite length_imap.
  - intros i item Hi. eexists. split.
    + unfold ingredient_rows. rewrite list_lookup_imap, Hi. reflexivity.
    + repeat split.
Qed.

(** X8.  Once both inserts have succeeded the call returns, whatever the audit
    insert answers: the third and last query is the audit row (action
    ['create'], the recipe id, the user id, the title), and its error, if
    any, is not looked at. *)
Theorem audit_outcome_ignored userId cmd w items :
  has_ingredients cmd items ->
  error (recipe_insert_response env w userId cmd) = None ->
  truthy (data (recipe_insert_response env w userId cmd)) = true ->
  error (ingredients_insert_response env w items) = None ->
  exists response audit r3,
    fst (createRecipe env userId cmd w) = Normal response
    /\ issued w (snd (createRecipe env userId cmd w))
       = [(recipe_insert env w userId cmd, recipe_insert_response env w userId cmd);
          (ingredients_insert env w items, ingredients_insert_response env w items);
          (Insert "recipe_audit" [audit] NoSelect, r3)]
    /\ get_prop_opt audit "action" = JStr "create"
    /\ get_prop_opt audit "recipe_id" = JStr (new_recipe_id env w)
    /\ get_prop_opt audit "user_id" = userId
    /\ get_prop_opt (get_prop_opt audit "meta") "title" = get_prop_opt cmd "title".
Proof.
  intros Hcmd Herr1 Hdata Herr2.
  destruct (createRecipe_success_run userId cmd w items Hcmd Herr1 Hdata Herr2)
    as (response & r3 & Hfst & _ & Hex & _).
  exists response, (audit_row (new_recipe_id env w) userId cmd), r3.
  split; [exact Hfst|]. split; [by apply issued_app|]. repeat split.
Qed.

(** X9.  The response is the row the database returned for the recipe, with
    [recipe_data], [ingredients] and [cached_nutrition] replaced: every other
    field ([id], [owner_user_id], timestamps, ...) is the database's, and
    [ingredients] is what the ingredient insert returned, or [[]] when it
    returned nothing. *)
Theorem response_carries_database_row userId cmd w items :
  has_ingredients cmd items ->
  error (recipe_insert_response env w userId cmd) = None ->
  truthy (data (recipe_insert_response env w userId cmd)) = true ->
  error (ingredients_insert_response env w items) = None ->
  exists response,
    fst (createRecipe env userId cmd w) = Normal response
    /\ get_prop_opt response "ingredients"
       = js_or (data (ingredients_insert_response env w items)) (JArr [])
    /\ forall k, k <> "recipe_data" -> k <> "ingredients" -> k <> "cached_nutrition" ->
         get_prop_opt response k
         = default JUndefined
             (assoc_get (own_props (data (recipe_insert_response env w userId cmd))) k).
Proof.
  intros Hcmd Herr1 Hdata Herr2.
  destruct (createRecipe_success_run userId cmd w items Hcmd Herr1 Hdata Herr2)
    as (response & r3 & Hfst & -> & _).
  eexists. split; [exact Hfst|]. split.
  - unfold get_prop_opt. rewrite assoc_get_set_ne by done. by rewrite assoc_get_set_eq.
  - intros k H1 H2 H3. unfold get_prop_opt.
    by rewrite !assoc_get_set_ne by done.
Qed.

(** After a successful call the recipe row is in [recipes] and every
    ingredient row is in [ingredients]. *)
Theorem rows_persisted_on_success userId cmd w items :
  has_ingredients cmd items ->
  error (recipe_insert_response env w userId cmd) = None ->
  truthy (data (recipe_insert_response env w userId cmd)) = true ->
  error (ingredients_insert_response env w items) = None ->
  In (recipe_row (new_recipe_id env w) userId cmd)
     (table_rows (tables (snd (createRecipe env userId cmd w))) "recipes")
  /\ forall row, In row (ingredient_rows env w items) ->
       In row (table_rows (tables (snd (createRecipe env userId cmd w))) "ingredients").
Proof.
  intros Hcmd Herr1 Hdata Herr2.
  destruct (createRecipe_success_run userId cmd w items Hcmd Herr1 Hdata Herr2)
    as (response & r3 & _ & _ & _ & Htab).
  rewrite Htab. unfold ingredients_insert, recipe_insert.
  destruct (error r3);
    rewrite ?(table_rows_insert_ne "recipe_audit") by done;
    rewrite ?(table_rows_insert_ne "ingredients" "recipes") by done;
    rewrite !table_rows_insert_eq;
    (split; [apply in_or_app; right; by left
            |intros row Hrow; apply in_or_app; by right]).
Qed.

(** X10.  A command whose [recipe_data.ingredients] is not an array (the service
    does not validate by itself) makes the call fail with a [TypeError] after
    the recipe row has been inserted: no further query is sent, in particular
    no delete, and the recipe row stays in [recipes]. *)
Theorem missing_ingredients_leave_recipe_row userId cmd w :
  is_nullish cmd = false ->
  error (recipe_insert_response env w userId cmd) = None ->
  truthy (data (recipe_insert_response env w userId cmd)) = true ->
  isArray (get_prop_opt (get_prop_opt cmd "recipe_data") "ingredients") = false ->
  exists m,
    fst (createRecipe env userId cmd w) = Throw (TypeError m)
    /\ issued w (snd (createRecipe env userId cmd w))
       = [(recipe_insert env w userId cmd, recipe_insert_response env w userId cmd)]
    /\ In (recipe_row (new_recipe_id env w) userId cmd)
          (table_rows (tables (snd (createRecipe env userId cmd w))) "recipes").
Proof.
  intros Hnn Herr1 Hdata Harr.
  assert ((exists m, get_prop (get_prop_opt cmd "recipe_data") "ingredients"
                     = Throw (TypeError m))
          \/ (exists r m, get_prop (get_prop_opt cmd "recipe_data") "ingredients" = Normal r
                          /\ js_array_items r "map" = Throw (TypeError m))) as Hm.
  { destruct (get_prop_opt cmd "recipe_data") as [| | | | |?|fields];
      simpl in *; try (left; eexists; reflexivity);
      try (right; eexists _, _; split; reflexivity).
    right. destruct (default JUndefined (assoc_get fields "ingredients"));
      simpl in *; try done; eexists _, _; split; reflexivity. }
  assert (In (recipe_row (new_recipe_id env w) userId cmd)
             (table_rows (apply_query (recipe_insert env w userId cmd) (tables w))
                "recipes")) as Hin.
  { unfold recipe_insert. rewrite table_rows_insert_eq. apply in_or_app. right. by left. }
  unfold createRecipe, mbind, M_bind. simpl.
  unfold lift. rewrite !(get_prop_normal cmd) by done. cbv beta iota.
  change (respond env (length (exchanges w)) _)
    with (recipe_insert_response env w userId cmd).
  rewrite Herr1, Hdata. simpl.
  destruct Hm as [[m Hm]|(r & m & Hr & Hm)].
  - rewrite Hm. simpl. exists m. split; [done|]. split; [by apply issued_app|exact Hin].
  - rewrite Hr. simpl. rewrite Hm. simpl. exists m.
    split; [done|]. split; [by apply issued_app|exact Hin].
Qed.

(** X11.  When the ingredient insert is refused and the compensating delete
    takes effect, the call throws and the store is as it was before the
    call: every table holds the rows it held (provided no earlier recipe row
    had the freshly drawn id).  The store is the one of
    [Supabase.apply_query]: an accepted insert appends its rows, an accepted
    delete removes the rows its filter matches. *)
Theorem compensating_delete_restores_store userId cmd w items e :
  has_ingredients cmd items ->
  error (recipe_insert_response env w userId cmd) = None ->
  truthy (data (recipe_insert_response env w userId cmd)) = true ->
  error (ingredients_insert_response env w items) = Some e ->
  error (respond env (S (S (length (exchanges w))))
           (DeleteEq "recipes" "id" (JStr (new_recipe_id env w)))) = None ->
  Forall (fun row => column_eq "id" (JStr (new_recipe_id env w)) row = false)
         (table_rows (tables w) "recipes") ->
  fst (createRecipe env userId cmd w)
  = Throw (Error ("Failed to insert ingredients: " +:+ message e))
  /\ forall name,
       table_rows (tables (snd (createRecipe env userId cmd w))) name
       = table_rows (tables w) name.
Proof.
  intros (Hnn & Hitems & Hall) Herr1 Hdata Herr2 Hdel Hfresh.
  pose proof (createRecipe_run env userId cmd w items Hnn Hitems Hall Herr1 Hdata) as Hrun.
  cbv zeta in Hrun. rewrite Hrun.
  change (respond env (S (length (exchanges w))) _)
    with (ingredients_insert_response env w items).
  rewrite Herr2. cbn [fst snd tables].
  change (uuid_of env (uuid_count w)) with (new_recipe_id env w).
  rewrite Hdel. split; [done|]. intros name.
  destruct (decide (name = "recipes")) as [->|Hne].
  - rewrite table_rows_delete_eq, table_rows_insert_eq, List.filter_app.
    simpl. unfold column_eq at 2. simpl. rewrite String.eqb_refl. simpl.
    rewrite app_nil_r.
    induction Hfresh as [|row rows Hrow _ IH]; [done|].
    simpl. by rewrite Hrow, IH.
  - unfold table_rows, apply_query. by rewrite !lookup_insert_ne by done.
Qed.

End WithEnv.

Import Examples MoreExamples.

Lemma recipe_insert_failure_stops_witness :
  fst (createRecipe env_recipes_fail (JStr "user-1") salmon empty_world)
  = Throw (Error "Failed to insert recipe: duplicate key")
  /\ length (issued empty_world
               (snd (createRecipe env_recipes_fail (JStr "user-1") salmon empty_world))) = 1
  /\ tables (snd (createRecipe env_recipes_fail (JStr "user-1") salmon empty_world)) = ∅.
Proof.
  destruct (recipe_insert_failure_stops env_recipes_fail (JStr "user-1") salmon empty_world)
    as (Hthrow & Hlog & Htab);
    [reflexivity|left; vm_compute; eexists; reflexivity|].
  split; [exact Hthrow|]. split; [by rewrite Hlog|].
  apply Htab. vm_compute. eexists. reflexivity.
Defined.

Lemma ingredient_rows_follow_command_witness :
  exists payload r2 row,
    exchanges (snd (createRecipe env_ok (JStr "user-1") salmon empty_world)) !! 1
    = Some (Insert "ingredients" payload SelectAll, r2)
    /\ length payload = 2
    /\ payload !! 1 = Some row
    /\ get_prop_opt row "recipe_id" = JStr "uuid-0"
    /\ get_prop_opt row "id" = JStr "uuid-2"
    /\ get_prop_opt row "name" = JStr "spinach"
    /\ get_prop_opt row "unit_id" = JNull.
Proof.
  destruct (ingredient_rows_follow_command env_ok (JStr "user-1") salmon empty_world
              [ingredient "salmon" 200; ingredient "spinach" 150])
    as (payload & r2 & Hq & Hlen & Hrows);
    [split; [reflexivity|split; [reflexivity|repeat constructor]]
    |reflexivity|reflexivity|].
  destruct (Hrows 1 _ eq_refl) as (row & Hrow & Hrid & Hid & Hname & _ & _ & Hunit & _).
  exists payload, r2, row. split; [exact Hq|]. split; [exact Hlen|].
  split; [exact Hrow|]. split; [exact Hrid|]. split; [exact Hid|].
  split; [exact Hname|exact Hunit].
Defined.

Lemma audit_outcome_ignored_witness :
  exists response audit r3,
    fst (createRecipe env_audit_fails (JStr "user-1") salmon empty_world) = Normal response
    /\ (fun x => error (snd x))
         <$> issued empty_world
               (snd (createRecipe env_audit_fails (JStr "user-1") salmon empty_world))
       = [None; None; error r3]
    /\ error r3 = Some {| message := "permission denied" |}
    /\ get_prop_opt audit "action" = JStr "create"
    /\ get_prop_opt audit "recipe_id" = JStr "uuid-0"
    /\ get_prop_opt audit "user_id" = JStr "user-1".
Proof.
  destruct (audit_outcome_ignored env_audit_fails (JStr "user-1") salmon empty_world
              [ingredient "salmon" 200; ingredient "spinach" 150])
    as (response & audit & r3 & Hret & Hlog & Haction & Hrid & Huid & _);
    [split; [reflexivity|split; [reflexivity|repeat constructor]]
    |reflexivity|reflexivity|reflexivity|].
  exists response, audit, r3. split; [exact Hret|].
  split; [by rewrite Hlog|].
  split; [|by repeat split].
  assert (nth_error (issued empty_world
                       (snd (createRecipe env_audit_fails (JStr "user-1") salmon
                               empty_world))) 2
          = Some (Insert "recipe_audit" [audit] NoSelect, r3)) as Hthird
    by (by rewrite Hlog).
  vm_compute in Hthird. by injection Hthird as _ <-.
Defined.

Lemma response_carries_database_row_witness :
  exists response,
    fst (createRecipe env_ok (JStr "user-1") salmon empty_world) = Normal response
    /\ get_prop_opt response "id" = JStr "uuid-0"
    /\ get_prop_opt response "owner_user_id" = JStr "user-1".
Proof.
  destruct (response_carries_database_row env_ok (JStr "user-1") salmon empty_world
              [ingredient "salmon" 200; ingredient "spinach" 150])
    as (response & Hret & _ & Hother);
    [split; [reflexivity|split; [reflexivity|repeat constructor]]
    |reflexivity|reflexivity|reflexivity|].
  exists response. split; [exact Hret|].
  split; [exact (Hother "id" ltac:(discriminate) ltac:(discriminate) ltac:(discriminate))
         |exact (Hother "owner_user_id" ltac:(discriminate) ltac:(discriminate)
                   ltac:(discriminate))].
Defined.

Lemma rows_persisted_on_success_witness :
  In (recipe_row "uuid-0" (JStr "user-1") salmon)
     (table_rows (tables (snd (createRecipe env_ok (JStr "user-1") salmon empty_world)))
        "recipes")
  /\ In (ingredient_row_value "uuid-0" "uuid-2" (ingredient "spinach" 150))
        (table_rows (tables (snd (createRecipe env_ok (JStr "user-1") salmon empty_world)))
           "ingredients").
Proof.
  destruct (rows_persisted_on_success env_ok (JStr "user-1") salmon empty_world
              [ingredient "salmon" 200; ingredient "spinach" 150])
    as (Hrecipe & Hrows);
    [split; [reflexivity|split; [reflexivity|repeat constructor]]
    |reflexivity|reflexivity|reflexivity|].
  split; [exact Hrecipe|]. apply Hrows. right. left. reflexivity.
Defined.

Lemma missing_ingredients_leave_recipe_row_witness :
  exists m,
    fst (createRecipe env_ok (JStr "user-1") note_without_ingredients empty_world)
    = Throw (TypeError m)
    /\ In (recipe_row "uuid-0" (JStr "user-1") note_without_ingredients)
          (table_rows
             (tables (snd (createRecipe env_ok (JStr "user-1") note_without_ingredients
                             empty_world))) "recipes").
Proof.
  destruct (missing_ingredients_leave_recipe_row env_ok (JStr "user-1")
              note_without_ingredients empty_world)
    as (m & Hthrow & _ & Hrow); [reflexivity|reflexivity|reflexivity|reflexivity|].
  exists m. split; [exact Hthrow|exact Hrow].
Defined.

Lemma compensating_delete_restores_store_witness :
  fst (createRecipe env_ingredients_fail (JStr "user-1") salmon empty_world)
  = Throw (Error "Failed to insert ingredients: violates foreign key constraint")
  /\ forall name,
       table_rows
         (tables (snd (createRecipe env_ingredients_fail (JStr "user-1") salmon
                         empty_world))) name = [].
Proof.
  apply (compensating_delete_restores_store env_ingredients_fail (JStr "user-1") salmon
           empty_world [ingredient "salmon" 200; ingredient "spinach" 150]
           {| message := "violates foreign key constraint" |});
    [split; [reflexivity|split; [reflexivity|repeat constructor]]
    |reflexivity|reflexivity|reflexivity|reflexivity|constructor].
Defined.

End RecipeServiceMore.

(** ** The route, further *)

Module RouteMore.
Import Supabase RecipeService Route Validator ValidatorFacts RecipeServiceFacts RouteFacts.
Import RecipeRows RouteRows RecipeServiceMore Json.

Lemma split_on_nonempty sep s : split_on sep s <> [].
Proof.
  induction s as [|c r IH]; simpl; [done|].
  destruct (Ascii.eqb c sep); [done|]. by destruct (split_on sep r).
Qed.

Lemma split_on_length s : length (split_on " " s) = S (spaces s).
Proof.
  unfold spaces. induction s as [|c r IH]; simpl; [done|].
  destruct (Ascii.eqb_spec c " ") as [->|Hne].
  - simpl. rewrite IH. by destruct (ascii_dec " " " ").
  - destruct (ascii_dec c " "); [done|].
    rewrite <- IH. pose proof (split_on_nonempty " " r).
    by destruct (split_on " " r).
Qed.

Lemma split_on_prefix s t :
  spaces s = 0 -> split_on " " (s +:+ " " +:+ t) = s :: split_on " " t.
Proof.
  unfold spaces. induction s as [|c r IH]; simpl; [done|].
  destruct (ascii_dec c " ") as [->|Hne]; [done|]. intros H.
  destruct (Ascii.eqb_spec c " "); [done|]. by rewrite (IH H).
Qed.

Lemma assoc_get_errors (l : list (string * string)) k :
  assoc_get (map (fun kv => (fst kv, JStr (snd kv))) l) k
  = JStr <$> (list_to_map l : gmap string string) !! k.
Proof.
  induction l as [|[k' v] l IH]; simpl; [by rewrite lookup_empty|].
  destruct (String.eqb_spec k' k) as [->|Hne].
  - by rewrite lookup_insert_eq.
  - by rewrite lookup_insert_ne.
Qed.

Lemma errors_to_js_lookup (errors : gmap string string) k :
  get_prop_opt (errors_to_js errors) k = default JUndefined (JStr <$> errors !! k).
Proof.
  unfold errors_to_js, get_prop_opt. rewrite assoc_get_errors.
  by rewrite list_to_map_to_list.
Qed.

Section WithEnv.
Variable env : Env.

Lemma post_valid request body w a :
  json request = Some body ->
  validateCreateRecipeCommand body = Normal Valid ->
  getAuthUserIdFromHeader env request w = (Normal a, w) ->
  post env request w
  = if negb (truthy a)
    then (Normal {| status := 401;
                    body := error_body "unauthorized" "Missing or invalid token" None |}, w)
    else match resolveUserId env a w with
         | (Normal userId, w1) =>
             match createRecipe env userId body w1 with
             | (Normal recipe, w2) => (Normal {| status := 201; body := recipe |}, w2)
             | (Throw e, w2) =>
                 (Normal {| status := 500;
                            body := error_body "internal_error"
                                      (if String.eqb (exn_message e) "" then "internal"
                                       else exn_message e) None |}, w2)
             | (OutOfFuel, w2) => (OutOfFuel, w2)
             end
         | (Throw e, w1) =>
             (Normal {| status := 500;
                        body := error_body "internal_error" "Failed to resolve user" None |},
              w1)
         | (OutOfFuel, w1) => (OutOfFuel, w1)
         end.
Proof.
  intros Hjson Hvalid Hauth. unfold post. rewrite Hjson, Hvalid.
  unfold mbind at 1. unfold M_bind at 1. unfold lift at 1. cbv beta iota.
  unfold mbind at 1. unfold M_bind at 1. rewrite Hauth.
  destruct (negb (truthy a)); [done|].
  unfold mbind at 1. unfold M_bind at 1. unfold try_catch at 1.
  unfold mbind at 1. unfold M_bind at 1.
  destruct (resolveUserId env a w) as [[userId|e|] w1]; try done.
  unfold mret at 1. unfold M_ret at 1. cbv beta iota.
  unfold try_catch, mbind, M_bind.
  destruct (createRecipe env userId body w1) as [[recipe|e|] w2]; done.
Qed.

Lemma post_invalid request body errors w :
  json request = Some body ->
  validateCreateRecipeCommand body = Normal (Invalid errors) ->
  post env request w
  = (Normal {| status := 400;
               body := error_body "bad_request" "Validation failed"
                         (Some (errors_to_js errors)) |}, w).
Proof. intros Hjson Hv. unfold post. by rewrite Hjson, Hv. Qed.

Lemma validate_cases body :
  validateCreateRecipeCommand body = Normal Valid
  \/ exists errors, validateCreateRecipeCommand body = Normal (Invalid errors).
Proof.
  rewrite validateCreateRecipeCommand_normal.
  destruct (is_object body); [|eauto].
  destruct (0 <? size (command_errors body)); eauto.
Qed.

(** What [resolveUserId] does, case by case. *)
Lemma resolveUserId_run authUserId w :
  resolveUserId env authUserId w
  = let r0 := mapping_response env w authUserId in
    let w0 := {| tables := tables w;
                 exchanges := (exchanges w ++ [(mapping_select authUserId, r0)])%list;
                 uuid_count := uuid_count w; clock_reads := clock_reads w |} in
    if truthy (get_prop_opt (data r0) "user_id")
    then (Normal (get_prop_opt (data r0) "user_id"), w0)
    else
      let q1 := user_insert env w authUserId in
      let r1 := user_insert_response env w authUserId in
      let t1 := match error r1 with
                | None => apply_query q1 (tables w)
                | Some _ => tables w
                end in
      match get_prop (data r1) "user_id" with
      | Normal userId =>
          let q2 := mapping_insert authUserId userId in
          let r2 := respond env (S (S (length (exchanges w)))) q2 in
          (Normal userId,
           {| tables := match error r2 with
                        | None => apply_query q2 t1
                        | Some _ => t1
                        end;
              exchanges := (exchanges w
                            ++ [(mapping_select authUserId, r0); (q1, r1); (q2, r2)])%list;
              uuid_count := uuid_count w; clock_reads := S (S (clock_reads w)) |})
      | Throw e =>
          (Throw e,
           {| tables := t1;
              exchanges := (exchanges w
                            ++ [(mapping_select authUserId, r0); (q1, r1)])%list;
              uuid_count := uuid_count w; clock_reads := S (S (clock_reads w)) |})
      | OutOfFuel =>
          (OutOfFuel,
           {| tables := t1;
              exchanges := (exchanges w
                            ++ [(mapping_select authUserId, r0); (q1, r1)])%list;
              uuid_count := uuid_count w; clock_reads := S (S (clock_reads w)) |})
      end.
Proof.
  cbv zeta. unfold resolveUserId, mbind, M_bind. simpl.
  fold (mapping_select authUserId). fold (mapping_response env w authUserId).
  assert (match error (mapping_response env w authUserId) with
          | Some _ => tables w
          | None => tables w
          end = tables w) as -> by (by destruct (error _)).
  unfold lift.
  assert ((if truthy (data (mapping_response env w authUserId))
           then get_prop (data (mapping_response env w authUserId)) "user_id"
           else mret (data (mapping_response env w authUserId)))
          = Normal (if truthy (data (mapping_response env w authUserId))
                    then get_prop_opt (data (mapping_response env w authUserId)) "user_id"
                    else data (mapping_response env w authUserId))) as ->.
  { destruct (truthy (data (mapping_response env w authUserId))) eqn:E; [|done].
    apply get_prop_normal. by destruct (data _). }
  assert (forall v, truthy (if truthy v then get_prop_opt v "user_id" else v)
                    = truthy (get_prop_opt v "user_id")) as Ht.
  { intros v. destruct (truthy v) eqn:E; [done|]. rewrite E. by destruct v. }
  rewrite Ht.
  destruct (truthy (get_prop_opt (data (mapping_response env w authUserId)) "user_id"))
    eqn:E.
  { destruct (truthy (data (mapping_response env w authUserId))) eqn:E'; [done|].
    destruct (data (mapping_response env w authUserId)); simpl in *; done. }
  simpl. rewrite length_app. simpl.
  replace (length (exchanges w) + 1) with (S (length (exchanges w))) by lia.
  fold (user_row authUserId (date_now env (clock_reads w))
          (date_now env (S (clock_reads w)))).
  fold (user_insert env w authUserId). fold (user_insert_response env w authUserId).
  destruct (get_prop (data (user_insert_response env w authUserId)) "user_id")
    as [userId|e|]; simpl.
  - rewrite !length_app. simpl.
    replace (length (exchanges w) + 1 + 1) with (S (S (length (exchanges w)))) by lia.
    fold (mapping_insert authUserId userId). rewrite <- !app_assoc. done.
  - rewrite <- !app_assoc. done.
  - rewrite <- !app_assoc. done.
Qed.


Lemma resolveUserId_completes authUserId w :
  fst (resolveUserId env authUserId w) <> OutOfFuel.
Proof.
  rewrite resolveUserId_run. cbv zeta.
  destruct (truthy _); [done|].
  destruct (get_prop _ "user_id") eqn:E; try done.
  by destruct (get_prop_fuel _ _ E).
Qed.

Lemma createRecipe_completes userId cmd w :
  fst (createRecipe env userId cmd w) <> OutOfFuel.
Proof.
  destruct (createRecipe_cases env userId cmd w)
    as [(_ & _ & e & H)|[(_ & _ & e & H)|[(? & ? & e & _ & _ & _ & H & _)
                        |(? & ? & ? & resp & _ & _ & _ & _ & H & _)]]];
    by rewrite H.
Qed.

(** X12.  The handler answers every request: it never throws, and the status of
    the response is 201, 400, 401 or 500; every response other than a 201
    carries an [error] object with a code and a message. *)
Theorem post_always_responds request w :
  exists response,
    fst (post env request w) = Normal response
    /\ In (status response) [201; 400; 401; 500]
    /\ (status response <> 201 ->
        exists code message details, body response = error_body code message details).
Proof.
  destruct (json request) as [body|] eqn:Hjson.
  2:{ unfold post. rewrite Hjson. eexists. split; [done|]. simpl. eauto 10. }
  destruct (validate_cases body) as [Hvalid|[errors Hinvalid]].
  2:{ rewrite (post_invalid request body errors w Hjson Hinvalid).
      eexists. split; [done|]. simpl. eauto 10. }
  destruct (getAuthUserIdFromHeader_quiet env request w) as [a Ha].
  rewrite (post_valid request body w a Hjson Hvalid Ha).
  destruct (negb (truthy a)).
  { eexists. split; [done|]. simpl. eauto 10. }
  pose proof (resolveUserId_completes a w) as Hr.
  destruct (resolveUserId env a w) as [[userId|e|] w1]; [| |done].
  - pose proof (createRecipe_completes userId body w1) as Hc.
    destruct (createRecipe env userId body w1) as [[recipe|e|] w2]; [| |done].
    + eexists. split; [done|]. simpl. split; [eauto|done].
    + eexists. split; [done|]. simpl. eauto 10.
  - eexists. split; [done|]. simpl. eauto 10.
Qed.

(** X13.  A request answered with 400 or 401 has left no trace in the
    database: no query was sent, no id drawn, no clock read (the token may
    have been put to the auth service). *)
Theorem rejected_requests_leave_no_trace request w response :
  fst (post env request w) = Normal response ->
  status response = 400 \/ status response = 401 ->
  snd (post env request w) = w.
Proof.
  destruct (json request) as [body|] eqn:Hjson.
  2:{ unfold post. by rewrite Hjson. }
  destruct (validate_cases body) as [Hvalid|[errors Hinvalid]].
  2:{ by rewrite (post_invalid request body errors w Hjson Hinvalid). }
  destruct (getAuthUserIdFromHeader_quiet env request w) as [a Ha].
  rewrite (post_valid request body w a Hjson Hvalid Ha).
  destruct (negb (truthy a)); [done|].
  destruct (resolveUserId env a w) as [[userId|e|] w1].
  - destruct (createRecipe env userId body w1) as [[recipe|e|] w2]; simpl;
      intros [= <-]; simpl; intros [?|?]; done.
  - simpl. intros [= <-]. simpl. intros [?|?]; done.
  - done.
Qed.

(** X14.  Validation comes before authentication: a body the validator rejects is
    answered with 400 whatever the [authorization] header, and the [details]
    of the answer list exactly the entries of the validator's error record. *)
Theorem invalid_body_answered_before_authentication auth body errors w :
  validateCreateRecipeCommand body = Normal (Invalid errors) ->
  exists details,
    post env {| authorization := auth; json := Some body |} w
    = (Normal {| status := 400;
                 body := error_body "bad_request" "Validation failed" (Some details) |},
       w)
    /\ forall k, get_prop_opt details k = default JUndefined (JStr <$> errors !! k).
Proof.
  intros Hv. exists (errors_to_js errors). split.
  - exact (post_invalid {| authorization := auth; json := Some body |} body errors w
             eq_refl Hv).
  - apply errors_to_js_lookup.
Qed.

(** X15.  A valid body without an [authorization] header, or with one that does
    not hold exactly one space, is answered with 401: the token is not looked
    up and nothing is sent to the database. *)
Theorem malformed_authorization_unauthorized auth body w :
  validateCreateRecipeCommand body = Normal Valid ->
  match auth with Some s => spaces s <> 1 | None => True end ->
  post env {| authorization := auth; json := Some body |} w
  = (Normal {| status := 401;
               body := error_body "unauthorized" "Missing or invalid token" None |}, w).
Proof.
  intros Hvalid Hauth.
  assert (getAuthUserIdFromHeader env {| authorization := auth; json := Some body |} w
          = (Normal JNull, w)) as Ha.
  { unfold getAuthUserIdFromHeader. simpl. destruct auth as [s|]; [|done].
    destruct (negb (negb (s =? ""))%string); [done|].
    rewrite split_on_length.
    destruct (Nat.eqb_spec (S (spaces s)) 2) as [E|E]; [lia|done]. }
  by rewrite (post_valid {| authorization := auth; json := Some body |} body w JNull
                eq_refl Hvalid Ha).
Qed.

Lemma getAuthUserIdFromHeader_scheme scheme1 scheme2 token j1 j2 w :
  spaces scheme1 = 0 -> spaces scheme2 = 0 ->
  getAuthUserIdFromHeader env
    {| authorization := Some (scheme1 +:+ " " +:+ token); json := j1 |} w
  = getAuthUserIdFromHeader env
      {| authorization := Some (scheme2 +:+ " " +:+ token); json := j2 |} w.
Proof.
  intros H1 H2. unfold getAuthUserIdFromHeader. simpl.
  rewrite !split_on_prefix by done.
  assert (forall s, (s +:+ " " +:+ token =? "")%string = false) as Hne.
  { intros s. apply String.eqb_neq. intros E.
    apply (f_equal String.length) in E. rewrite string_length_app in E. simpl in E. lia. }
  rewrite !Hne. done.
Qed.

(** X16.  The scheme of the [authorization] header is not looked at: only the
    part after the space is used, so [Bearer t] and [Basic t] are answered
    alike. *)
Theorem auth_scheme_not_checked scheme1 scheme2 token payload w :
  spaces scheme1 = 0 -> spaces scheme2 = 0 ->
  post env {| authorization := Some (scheme1 +:+ " " +:+ token); json := payload |} w
  = post env {| authorization := Some (scheme2 +:+ " " +:+ token); json := payload |} w.
Proof.
  intros H1 H2. unfold post. simpl. destruct payload as [body|]; [|done].
  unfold mbind, M_bind, lift.
  destruct (validateCreateRecipeCommand body) as [[|errors]|e|]; try done.
  by rewrite (getAuthUserIdFromHeader_scheme scheme1 scheme2 token (Some body) (Some body)
                w H1 H2).
Qed.

(** X17.  A 201 means that the body passed validation and that the database
    accepted both the recipe row and the ingredient rows: among the queries
    of the request there is the insert of one recipe row, answered without
    error and with a row, directly followed by the bulk insert of the
    ingredient rows, answered without error. *)
Theorem created_implies_inserts_succeeded request w response :
  fst (post env request w) = Normal response ->
  status response = 201 ->
  exists payload before row r1 rows r2 after,
    json request = Some payload
    /\ validateCreateRecipeCommand payload = Normal Valid
    /\ issued w (snd (post env request w))
       = (before ++ (Insert "recipes" [row] SelectSingle, r1)
                    :: (Insert "ingredients" rows SelectAll, r2) :: after)%list
    /\ error r1 = None /\ truthy (data r1) = true /\ error r2 = None.
Proof.
  destruct (json request) as [payload|] eqn:Hjson.
  2:{ unfold post. rewrite Hjson. simpl. by intros [= <-]. }
  destruct (validate_cases payload) as [Hvalid|[errors Hinvalid]].
  2:{ rewrite (post_invalid request payload errors w Hjson Hinvalid). simpl.
      by intros [= <-]. }
  destruct (getAuthUserIdFromHeader_quiet env request w) as [a Ha].
  rewrite (post_valid request payload w a Hjson Hvalid Ha).
  destruct (negb (truthy a)); [simpl; by intros [= <-]|].
  destruct (resolveUserId_log env a w) as (l1 & Hl1 & _).
  destruct (resolveUserId env a w) as [[userId|e|] w1]; [|simpl; by intros [= <-]|done].
  simpl in Hl1.
  destruct (createRecipe_cases env userId payload w1)
    as [(_ & _ & e & H)|[(_ & _ & e & H)|[(? & ? & e & _ & _ & _ & H & _)
        |(rows & audit & r3 & resp & Hex & He1 & Hrow & He2 & H & _)]]];
    destruct (createRecipe env userId payload w1) as [[recipe|e'|] w2];
    simpl in *; try done; try (by intros [= <-]).
  intros _ _.
  eexists payload, l1, _, _, rows, _, _.
  split; [done|]. split; [done|].
  split; [exact (issued_trans w w1 w2 _ _ Hl1 Hex)|done].
Qed.

(** X18.  A user the mapping table already knows is resolved with the one select:
    no row is inserted, and the error field of the answer is not looked at. *)
Theorem resolveUserId_existing_mapping authUserId w :
  truthy (get_prop_opt (data (mapping_response env w authUserId)) "user_id") = true ->
  fst (resolveUserId env authUserId w)
  = Normal (get_prop_opt (data (mapping_response env w authUserId)) "user_id")
  /\ issued w (snd (resolveUserId env authUserId w))
     = [(mapping_select authUserId, mapping_response env w authUserId)]
  /\ tables (snd (resolveUserId env authUserId w)) = tables w.
Proof.
  intros Hm. rewrite resolveUserId_run. cbv zeta. rewrite Hm. simpl.
  split; [done|]. split; [by apply issued_app|done].
Qed.

(** X19.  A user without a usable mapping gets a [users] row whose [user_id] is the
    auth id (age 0, empty disease, sex and preferences, the two timestamps
    read from the clock one after the other), and then a mapping row from the
    auth id to the [user_id] of the row the database returned, which is also
    the result. *)
Theorem resolveUserId_new_user authUserId w :
  truthy (get_prop_opt (data (mapping_response env w authUserId)) "user_id") = false ->
  is_nullish (data (user_insert_response env w authUserId)) = false ->
  exists r2,
    fst (resolveUserId env authUserId w)
    = Normal (get_prop_opt (data (user_insert_response env w authUserId)) "user_id")
    /\ issued w (snd (resolveUserId env authUserId w))
       = [(mapping_select authUserId, mapping_response env w authUserId);
          (user_insert env w authUserId, user_insert_response env w authUserId);
          (mapping_insert authUserId
             (get_prop_opt (data (user_insert_response env w authUserId)) "user_id"), r2)]
    /\ clock_reads (snd (resolveUserId env authUserId w)) = S (S (clock_reads w)).
Proof.
  intros Hm Hrow. rewrite resolveUserId_run. cbv zeta. rewrite Hm.
  rewrite (get_prop_normal _ _ Hrow). simpl.
  eexists. split; [done|]. split; [by apply issued_app|done].
Qed.

(** X20.  When there is no mapping and the [users] insert returns no row, the
    request is answered with 500 ['Failed to resolve user'] after these two
    queries: no mapping row and no recipe row is written. *)
Theorem user_resolution_failure_is_500 request payload authUserId w :
  json request = Some payload ->
  validateCreateRecipeCommand payload = Normal Valid ->
  getAuthUserIdFromHeader env request w = (Normal authUserId, w) ->
  truthy authUserId = true ->
  truthy (get_prop_opt (data (mapping_response env w authUserId)) "user_id") = false ->
  is_nullish (data (user_insert_response env w authUserId)) = true ->
  fst (post env request w)
  = Normal {| status := 500;
              body := error_body "internal_error" "Failed to resolve user" None |}
  /\ issued w (snd (post env request w))
     = [(mapping_select authUserId, mapping_response env w authUserId);
        (user_insert env w authUserId, user_insert_response env w authUserId)].
Proof.
  intros Hjson Hvalid Ha Ht Hm Hrow.
  rewrite (post_valid request payload w authUserId Hjson Hvalid Ha), Ht. simpl.
  rewrite resolveUserId_run. cbv zeta. rewrite Hm.
  destruct (data (user_insert_response env w authUserId)); try done; simpl;
    (split; [done|by apply issued_app]).
Qed.

(** X21.  An error of the recipe insert goes out to the client: the request
    is answered with 500, and the text of the response is the JSON object
    [{ error: { code, message } }] whose code is [internal_error] and whose
    message is the JSON string, quoted as [JSON.stringify] quotes it, of
    ['Failed to insert recipe: '] followed by the message of the database. *)
Theorem database_error_reaches_client request payload authUserId userId e w :
  json request = Some payload ->
  validateCreateRecipeCommand payload = Normal Valid ->
  getAuthUserIdFromHeader env request w = (Normal authUserId, w) ->
  truthy authUserId = true ->
  fst (resolveUserId env authUserId w) = Normal userId ->
  error (recipe_insert_response env (snd (resolveUserId env authUserId w)) userId payload)
  = Some e ->
  message e <> "" ->
  exists response,
    fst (post env request w) = Normal response
    /\ status response = 500
    /\ JSON_stringify (body response)
       = Some (json_object
                 [("error",
                   json_object
                     [("code", QuoteJSONString "internal_error");
                      ("message",
                       QuoteJSONString ("Failed to insert recipe: " +:+ message e))])]).
Proof.
  intros Hjson Hvalid Ha Ht Hres Herr Hmsg.
  rewrite (post_valid request payload w authUserId Hjson Hvalid Ha), Ht. simpl.
  destruct (resolveUserId env authUserId w) as [c w1]. simpl in Hres, Herr. subst c.
  destruct (valid_command_shape payload Hvalid) as [Hnn _].
  rewrite (createRecipe_insert_failure env userId payload w1 Hnn)
    by (left; by rewrite Herr).
  rewrite Herr. apply String.eqb_neq in Hmsg. simpl exn_message. cbv beta iota.
  rewrite Hmsg. eexists. split; [reflexivity|]. split; reflexivity.
Qed.

End WithEnv.

Import Examples MoreExamples.

(** Why a 201 body is not compared value by value: [JSON.stringify] writes
    [null] for a number that is not finite and for an [undefined] element,
    and leaves out an [undefined] property. *)
Lemma stringify_loses_values :
  JSON_stringify (JArr [JNum infinity; JUndefined; JNull; JObj [("k", JUndefined)]])
  = Some "[null,null,null,{}]".
Proof. reflexivity. Qed.

Lemma rejected_requests_leave_no_trace_witness :
  snd (post env_ok {| authorization := None; json := Some salmon |} empty_world)
  = empty_world.
Proof.
  apply (rejected_requests_leave_no_trace env_ok
           {| authorization := None; json := Some salmon |} empty_world
           {| status := 401;
              body := error_body "unauthorized" "Missing or invalid token" None |});
    [vm_compute; reflexivity|right; reflexivity].
Defined.

Lemma invalid_body_answered_before_authentication_witness :
  exists details,
    post env_ok {| authorization := None; json := Some broken_payload |} empty_world
    = (Normal {| status := 400;
                 body := error_body "bad_request" "Validation failed" (Some details) |},
       empty_world)
    /\ get_prop_opt details "title" = JStr "title is required"
    /\ get_prop_opt details "recipe_data.steps[0]" = JStr "step too short (min 10 chars)".
Proof.
  destruct (invalid_body_answered_before_authentication env_ok None broken_payload
              (command_errors broken_payload) empty_world)
    as (details & Hpost & Hk); [vm_compute; reflexivity|].
  exists details. split; [exact Hpost|]. rewrite !Hk. split; vm_compute; reflexivity.
Defined.

Lemma malformed_authorization_unauthorized_witness :
  post env_ok {| authorization := Some "Bearer"; json := Some salmon |} empty_world
  = (Normal {| status := 401;
               body := error_body "unauthorized" "Missing or invalid token" None |},
     empty_world).
Proof.
  apply (malformed_authorization_unauthorized env_ok (Some "Bearer") salmon empty_world);
    [vm_compute; reflexivity|vm_compute; lia].
Defined.

Lemma auth_scheme_not_checked_witness :
  post env_ok {| authorization := Some "Bearer token-1"; json := Some salmon |} empty_world
  = post env_ok {| authorization := Some "Basic token-1"; json := Some salmon |}
      empty_world.
Proof.
  apply (auth_scheme_not_checked env_ok "Bearer" "Basic" "token-1" (Some salmon)
           empty_world); reflexivity.
Defined.

Lemma created_implies_inserts_succeeded_witness :
  exists payload before row r1 rows r2 after,
    json salmon_request = Some payload
    /\ validateCreateRecipeCommand payload = Normal Valid
    /\ issued empty_world (snd (post env_ok salmon_request empty_world))
       = (before ++ (Insert "recipes" [row] SelectSingle, r1)
                    :: (Insert "ingredients" rows SelectAll, r2) :: after)%list
    /\ error r1 = None /\ truthy (data r1) = true /\ error r2 = None.
Proof.
  apply (created_implies_inserts_succeeded env_ok salmon_request empty_world
           (answer (post env_ok salmon_request empty_world)));
    vm_compute; reflexivity.
Defined.

Lemma resolveUserId_existing_mapping_witness :
  fst (resolveUserId env_known_user (JStr "auth-token-1") empty_world)
  = Normal (JStr "user-7")
  /\ length (issued empty_world
               (snd (resolveUserId env_known_user (JStr "auth-token-1") empty_world))) = 1
  /\ tables (snd (resolveUserId env_known_user (JStr "auth-token-1") empty_world)) = ∅.
Proof.
  destruct (resolveUserId_existing_mapping env_known_user (JStr "auth-token-1") empty_world)
    as (Hret & Hlog & Htab); [reflexivity|].
  split; [exact Hret|]. split; [by rewrite Hlog|exact Htab].
Defined.

Lemma resolveUserId_new_user_witness :
  exists r2,
    fst (resolveUserId env_ok (JStr "auth-token-1") empty_world)
    = Normal (JStr "auth-token-1")
    /\ issued empty_world (snd (resolveUserId env_ok (JStr "auth-token-1") empty_world))
       = [(mapping_select (JStr "auth-token-1"), error_response "no rows");
          (user_insert env_ok empty_world (JStr "auth-token-1"),
           ok_response (user_row (JStr "auth-token-1") "2025-01-01T00:00:00.000Z"
                          "2025-01-01T00:00:00.000Z"));
          (mapping_insert (JStr "auth-token-1") (JStr "auth-token-1"), r2)]
    /\ clock_reads (snd (resolveUserId env_ok (JStr "auth-token-1") empty_world)) = 2.
Proof.
  apply (resolveUserId_new_user env_ok (JStr "auth-token-1") empty_world); reflexivity.
Defined.

Lemma user_resolution_failure_is_500_witness :
  fst (post env_users_fail salmon_request empty_world)
  = Normal {| status := 500;
              body := error_body "internal_error" "Failed to resolve user" None |}
  /\ length (issued empty_world (snd (post env_users_fail salmon_request empty_world)))
     = 2.
Proof.
  destruct (user_resolution_failure_is_500 env_users_fail salmon_request salmon
              (JStr "auth-token-1") empty_world)
    as (Hret & Hlog);
    [reflexivity|vm_compute; reflexivity|vm_compute; reflexivity|reflexivity
    |reflexivity|reflexivity|].
  split; [exact Hret|by rewrite Hlog].
Defined.

Lemma database_error_reaches_client_witness :
  exists response,
    fst (post env_recipes_fail salmon_request empty_world) = Normal response
    /\ status response = 500
    /\ JSON_stringify (body response)
       = Some (json_object
                 [("error",
                   json_object
                     [("code", QuoteJSONString "internal_error");
                      ("message",
                       QuoteJSONString "Failed to insert recipe: duplicate key")])]).
Proof.
  apply (database_error_reaches_client env_recipes_fail salmon_request salmon
           (JStr "auth-token-1") (JStr "auth-token-1")
           {| message := "duplicate key" |} empty_world);
    [reflexivity|vm_compute; reflexivity|vm_compute; reflexivity|reflexivity
    |vm_compute; reflexivity|vm_compute; reflexivity|discriminate].
Defined.

End RouteMore.

(** ** The enrichment client, further *)

Module OpenRouterMore.
Import OpenRouter OpenRouterFacts OpenRouterAdmin.

Lemma M_bind_cong {S A B} (m1 m2 : M S A) (f g : A -> M S B) (s : S) :
  m1 s = m2 s ->
  (forall a s', m2 s = (Normal a, s') -> f a s' = g a s') ->
  (m1 ≫= f) s = (m2 ≫= g) s.
Proof.
  intros E H. unfold mbind, M_bind. rewrite E.
  destruct (m2 s) as [[a|e|] s']; auto.
Qed.

Section WithNet.
Variable net : Net.

Lemma attempt_failure payload s :
  fetch_fails (fetch_outcome net (fetch_count s)) ->
  exists m cause,
    attempt net payload s
    = (Throw (NetworkError m cause),
       {| validators := validators s; systemMessage := systemMessage s;
          isShutdown := isShutdown s; fetch_count := S (fetch_count s);
          random_count := random_count s; waits := waits s |}).
Proof.
  intros Hfail. unfold attempt, try_catch, mbind, M_bind, fetch, lift, throw.
  unfold fetch_fails in Hfail.
  destruct (fetch_outcome net (fetch_count s)) as [err|res].
  - destruct (is_AbortError err); eauto.
  - assert (exists e, handleOpenRouterResponse res payload = Throw e) as [e ->].
    { unfold handleOpenRouterResponse. destruct Hfail as [H|H].
      - rewrite H. simpl. destruct (res_status res =? 401)%Z; [eauto|].
        destruct (res_status res =? 429)%Z; eauto.
      - rewrite H. destruct (negb (res_ok res)); [|eauto].
        destruct (res_status res =? 401)%Z; [eauto|].
        destruct (res_status res =? 429)%Z; eauto. }
    destruct (is_AbortError e); eauto.
Qed.

Lemma attempt_success payload s res v :
  fetch_outcome net (fetch_count s) = FetchResolves res ->
  handleOpenRouterResponse res payload = Normal v ->
  attempt net payload s
  = (Normal v,
     {| validators := validators s; systemMessage := systemMessage s;
        isShutdown := isShutdown s; fetch_count := S (fetch_count s);
        random_count := random_count s; waits := waits s |}).
Proof.
  intros Hres Hv. unfold attempt, try_catch, mbind, M_bind, fetch, lift.
  by rewrite Hres, Hv.
Qed.

(** The loop when the next [k] attempts fail and the one after succeeds. *)
Lemma retry_loop_recovers payload retries res v :
  handleOpenRouterResponse res payload = Normal v ->
  forall k fuel a s,
    a + k <= Z.to_nat retries ->
    k < fuel ->
    (forall i, i < k -> fetch_fails (fetch_outcome net (fetch_count s + i))) ->
    fetch_outcome net (fetch_count s + k) = FetchResolves res ->
    exists s',
      retry_loop net fuel (attempt net payload) retries a s = (Normal v, s')
      /\ fetch_count s' = fetch_count s + k + 1
      /\ length (waits s') = length (waits s) + k
      /\ random_count s' = random_count s + k
      /\ validators s' = validators s.
Proof.
  intros Hv. induction k as [|k IH]; intros fuel a s Ha Hfuel Hfail Hres.
  - destruct fuel as [|fuel]; [lia|]. simpl. unfold try_catch.
    rewrite Nat.add_0_r in Hres.
    rewrite (attempt_success payload s res v Hres Hv).
    eexists. split; [done|]. simpl. repeat split; lia.
  - destruct fuel as [|fuel]; [lia|]. simpl. unfold try_catch.
    destruct (attempt_failure payload s) as (m & cause & ->).
    { specialize (Hfail 0). rewrite Nat.add_0_r in Hfail. apply Hfail. lia. }
    simpl isRetriableError. simpl negb. rewrite orb_false_l.
    assert ((retries <? Z.of_nat (S a))%Z = false) as -> by (apply Z.ltb_ge; lia).
    unfold mbind, M_bind, Math_random, sleep. simpl.
    match goal with |- context [retry_loop net fuel _ retries (S a) ?s2] =>
      destruct (IH fuel (S a) s2) as (s' & Hrun & Hfc & Hw & Hrc & Hval);
        [lia|lia| |rewrite <- Hres; f_equal; simpl; lia|]
    end.
    { simpl. intros i Hi.
      replace (S (fetch_count s + i)) with (fetch_count s + S i) by lia.
      apply Hfail. lia. }
    exists s'. split; [exact Hrun|]. simpl in *. rewrite length_app in Hw. simpl in Hw.
    repeat split; [lia|lia|lia|done].
Qed.

(** The loop when every attempt fails. *)
Lemma retry_loop_exhausted payload retries :
  forall n fuel a s,
    n = Z.to_nat retries - a ->
    n < fuel ->
    (forall i, i <= n -> fetch_fails (fetch_outcome net (fetch_count s + i))) ->
    exists m cause s',
      retry_loop net fuel (attempt net payload) retries a s
      = (Throw (NetworkError m cause), s')
      /\ fetch_count s' = fetch_count s + n + 1
      /\ length (waits s') = length (waits s) + n
      /\ validators s' = validators s.
Proof.
  induction n as [|n IH]; intros fuel a s Hn Hfuel Hfail.
  - destruct fuel as [|fuel]; [lia|]. simpl. unfold try_catch.
    destruct (attempt_failure payload s) as (m & cause & ->).
    { specialize (Hfail 0). rewrite Nat.add_0_r in Hfail. apply Hfail. lia. }
    simpl isRetriableError. simpl negb. rewrite orb_false_l.
    assert ((retries <? Z.of_nat (S a))%Z = true) as -> by (apply Z.ltb_lt; lia).
    unfold throw. eexists _, _, _. split; [done|]. simpl. repeat split; lia.
  - destruct fuel as [|fuel]; [lia|]. simpl. unfold try_catch.
    destruct (attempt_failure payload s) as (m & cause & ->).
    { specialize (Hfail 0). rewrite Nat.add_0_r in Hfail. apply Hfail. lia. }
    simpl isRetriableError. simpl negb. rewrite orb_false_l.
    assert ((retries <? Z.of_nat (S a))%Z = false) as -> by (apply Z.ltb_ge; lia).
    unfold mbind, M_bind, Math_random, sleep. simpl.
    match goal with |- context [retry_loop net fuel _ retries (S a) ?s2] =>
      destruct (IH fuel (S a) s2) as (m' & cause' & s' & Hrun & Hfc & Hw & Hval);
        [lia|lia| |]
    end.
    { simpl. intros i Hi.
      replace (S (fetch_count s + i)) with (fetch_count s + S i) by lia.
      apply Hfail. lia. }
    exists m', cause', s'. split; [exact Hrun|]. simpl in *.
    rewrite length_app in Hw. simpl in Hw. repeat split; [lia|lia|done].
Qed.

Lemma buildPayload_response_format svc sys messages opts payload :
  buildPayload svc sys messages opts = Normal payload ->
  truthy (get_prop_opt payload "response_format")
  = bool_decide (is_Some (opt_responseFormat opts)).
Proof.
  unfold buildPayload. destruct messages as [|m rest]; [done|].
  intros [= <-]. cbv zeta.
  destruct (opt_responseFormat opts) as [rf|].
  - unfold get_prop_opt. by rewrite assoc_get_set_eq.
  - destruct (opt_params opts) as [p|]; [destruct (truthy p)|]; done.
Qed.

Lemma sendMessage_run fuel svc messages opts s :
  isShutdown s = false ->
  messages <> [] ->
  exists payload,
    buildPayload svc (systemMessage s) messages opts = Normal payload
    /\ sendMessage net fuel svc messages opts s
       = retry_loop net fuel (attempt net payload) (maxRetries svc) 0 s.
Proof.
  intros Hup Hmsgs.
  unfold sendMessage, mbind, M_bind, get_state. simpl. rewrite Hup.
  destruct messages as [|m rest]; [done|].
  unfold lift. eexists. split; [reflexivity|]. done.
Qed.

Lemma attempt_state payload s :
  snd (attempt net payload s)
  = {| validators := validators s; systemMessage := systemMessage s;
       isShutdown := isShutdown s; fetch_count := S (fetch_count s);
       random_count := random_count s; waits := waits s |}.
Proof.
  unfold attempt, try_catch, mbind, M_bind, fetch, lift, throw.
  destruct (fetch_outcome net (fetch_count s)) as [err|res].
  - by destruct (is_AbortError err).
  - destruct (handleOpenRouterResponse res payload) as [v|e|]; [done| |done].
    by destruct (is_AbortError e).
Qed.

(** What the loop leaves alone, and that a result takes a [fetch]. *)
Lemma retry_loop_frame payload retries :
  forall fuel a s,
    validators (snd (retry_loop net fuel (attempt net payload) retries a s)) = validators s
    /\ systemMessage (snd (retry_loop net fuel (attempt net payload) retries a s))
       = systemMessage s
    /\ isShutdown (snd (retry_loop net fuel (attempt net payload) retries a s))
       = isShutdown s
    /\ fetch_count s <= fetch_count (snd (retry_loop net fuel (attempt net payload)
                                            retries a s))
    /\ forall v, fst (retry_loop net fuel (attempt net payload) retries a s) = Normal v ->
         fetch_count s < fetch_count (snd (retry_loop net fuel (attempt net payload)
                                             retries a s)).
Proof.
  induction fuel as [|fuel IH]; intros a s; simpl; [repeat split; [lia|done]|].
  unfold try_catch. pose proof (attempt_state payload s) as Hst.
  destruct (attempt net payload s) as [[v|e|] s1]; simpl in Hst; subst s1; simpl;
    try (repeat split; lia).
  destruct (negb (isRetriableError e) || (retries <? Z.of_nat (S a))%Z).
  - unfold throw. simpl. repeat split; [lia|done].
  - unfold mbind, M_bind, Math_random, sleep. simpl.
    match goal with |- context [retry_loop net fuel _ retries (S a) ?s2] =>
      destruct (IH (S a) s2) as (Hv & Hsys & Hup & Hfc & Hnormal)
    end.
    simpl in *. repeat split; [done|done|done|lia|].
    intros v Hv'. specialize (Hnormal v Hv'). lia.
Qed.

Lemma retry_loop_ext {A} (fn1 fn2 : M State A) retries :
  (forall s, fn1 s = fn2 s) ->
  forall fuel a s, retry_loop net fuel fn1 retries a s = retry_loop net fuel fn2 retries a s.
Proof.
  intros H. induction fuel as [|fuel IH]; intros a s; simpl; [done|].
  unfold try_catch. rewrite H. destruct (fn2 s) as [[v|e|] s1]; try done.
  destruct (negb (isRetriableError e) || (retries <? Z.of_nat (S a))%Z); [done|].
  unfold mbind, M_bind, Math_random, sleep. simpl. apply IH.
Qed.

Lemma sendMessage_frame fuel svc messages opts s :
  validators (snd (sendMessage net fuel svc messages opts s)) = validators s
  /\ systemMessage (snd (sendMessage net fuel svc messages opts s)) = systemMessage s
  /\ isShutdown (snd (sendMessage net fuel svc messages opts s)) = isShutdown s
  /\ forall v, fst (sendMessage net fuel svc messages opts s) = Normal v ->
       fetch_count s < fetch_count (snd (sendMessage net fuel svc messages opts s)).
Proof.
  destruct (isShutdown s) eqn:Hup.
  { unfold sendMessage, mbind, M_bind, get_state. simpl. rewrite Hup. done. }
  destruct messages as [|m rest].
  { unfold sendMessage, mbind, M_bind, get_state. simpl. rewrite Hup. done. }
  destruct (sendMessage_run fuel svc (m :: rest) opts s Hup) as (payload & _ & ->); [done|].
  destruct (retry_loop_frame payload (maxRetries svc) fuel 0 s) as (H1 & H2 & H3 & _ & H5).
  rewrite Hup in H3. done.
Qed.

(** X22.  Every failed attempt is retried, whatever the failure (a rejected
    [fetch], a status 400, 401, 429 or 500, a body that is not JSON): when
    the first [1 + maxRetries] attempts fail, [sendMessage] makes exactly
    these attempts, waits [maxRetries] times and throws a [NetworkError]. *)
Theorem every_failure_is_retried fuel svc messages opts s :
  isShutdown s = false ->
  messages <> [] ->
  Z.to_nat (maxRetries svc) < fuel ->
  (forall i, i <= Z.to_nat (maxRetries svc) ->
     fetch_fails (fetch_outcome net (fetch_count s + i))) ->
  exists m cause,
    fst (sendMessage net fuel svc messages opts s) = Throw (NetworkError m cause)
    /\ fetch_count (snd (sendMessage net fuel svc messages opts s))
       = fetch_count s + 1 + Z.to_nat (maxRetries svc)
    /\ length (waits (snd (sendMessage net fuel svc messages opts s)))
       = length (waits s) + Z.to_nat (maxRetries svc).
Proof.
  intros Hup Hmsgs Hfuel Hfail.
  destruct (sendMessage_run fuel svc messages opts s Hup Hmsgs) as (payload & _ & ->).
  destruct (retry_loop_exhausted payload (maxRetries svc) (Z.to_nat (maxRetries svc))
              fuel 0 s) as (m & cause & s' & -> & Hfc & Hw & _); [lia|lia|exact Hfail|].
  exists m, cause. simpl. repeat split; lia.
Qed.

(** X23.  When the first [k] attempts fail, [k] being at most [maxRetries], and the
    next is answered with a 2xx status and a JSON body, [sendMessage] returns
    after [k + 1] calls of [fetch] and [k] waits.  Without a response format
    the result is the body; with one, it is the [output] of the body when
    there is one. *)
Theorem sendMessage_recovers fuel svc messages opts s k res data :
  isShutdown s = false ->
  messages <> [] ->
  k <= Z.to_nat (maxRetries svc) ->
  k < fuel ->
  (forall i, i < k -> fetch_fails (fetch_outcome net (fetch_count s + i))) ->
  fetch_outcome net (fetch_count s + k) = FetchResolves res ->
  res_ok res = true ->
  res_json res = Some data ->
  exists v,
    fst (sendMessage net fuel svc messages opts s) = Normal v
    /\ (opt_responseFormat opts = None -> v = data)
    /\ (opt_responseFormat opts <> None ->
        is_nullish (get_prop_opt data "output") = false ->
        v = get_prop_opt data "output")
    /\ fetch_count (snd (sendMessage net fuel svc messages opts s))
       = fetch_count s + k + 1
    /\ length (waits (snd (sendMessage net fuel svc messages opts s)))
       = length (waits s) + k.
Proof.
  intros Hup Hmsgs Hk Hfuel Hfail Hres Hok Hjson.
  destruct (sendMessage_run fuel svc messages opts s Hup Hmsgs) as (payload & Hp & ->).
  pose proof (buildPayload_response_format _ _ _ _ _ Hp) as Hrf.
  assert (exists v, handleOpenRouterResponse res payload = Normal v
                    /\ (opt_responseFormat opts = None -> v = data)
                    /\ (opt_responseFormat opts <> None ->
                        is_nullish (get_prop_opt data "output") = false ->
                        v = get_prop_opt data "output")) as (v & Hv & Hnone & Hsome).
  { unfold handleOpenRouterResponse. rewrite Hok, Hjson, Hrf. simpl.
    destruct (opt_responseFormat opts) as [rf|]; simpl.
    - eexists. split; [done|]. split; [done|]. intros _ Hout.
      unfold nullish_or at 1. by rewrite Hout.
    - eexists. split; [done|]. split; [done|]. done. }
  destruct (retry_loop_recovers payload (maxRetries svc) res v Hv k fuel 0 s)
    as (s' & -> & Hfc & Hw & _); [lia|lia|exact Hfail|exact Hres|].
  exists v. simpl. repeat split; [exact Hnone|exact Hsome|lia|lia].
Qed.

(** X24.  How [handleOpenRouterResponse] ends: it returns exactly for a 2xx status
    with a JSON body, throws an [AuthenticationError] exactly for 401, a
    [RateLimitError] exactly for 429, and otherwise an [OpenRouterError] that
    carries the status, with code [OPENROUTER_HTTP] for another status outside
    2xx and [INVALID_JSON] for a 2xx body that is not JSON. *)
Theorem handleOpenRouterResponse_outcome res payload :
  ((exists v, handleOpenRouterResponse res payload = Normal v)
   <-> res_ok res = true /\ is_Some (res_json res))
  /\ ((exists m, handleOpenRouterResponse res payload = Throw (AuthenticationError m))
      <-> res_status res = 401%Z)
  /\ ((exists m r, handleOpenRouterResponse res payload = Throw (RateLimitError m r))
      <-> res_status res = 429%Z)
  /\ forall e, handleOpenRouterResponse res payload = Throw e ->
       res_status res <> 401%Z -> res_status res <> 429%Z ->
       exists m code cause,
         e = OpenRouterError m code (Some (res_status res)) cause
         /\ code = if res_ok res then "INVALID_JSON" else "OPENROUTER_HTTP".
Proof.
  unfold handleOpenRouterResponse, res_ok.
  destruct (Z.leb_spec 200 (res_status res)) as [H200|H200];
    destruct (Z.leb_spec (res_status res) 299) as [H299|H299]; simpl;
    destruct (Z.eqb_spec (res_status res) 401) as [H401|H401];
    destruct (Z.eqb_spec (res_status res) 429) as [H429|H429]; try lia;
    try destruct (res_json res) as [data|];
    try destruct (truthy (get_prop_opt payload "response_format"));
    (split; [split; [intros [v Hv]; try done; split; eauto
                    |intros [H1 [d Hd]]; try done; eauto]|]);
    (split; [split; [intros [m Hm]; try done|intros; try lia; eauto]|]);
    (split; [split; [intros (m & r & Hm); try done|intros; try lia; eauto]|]);
    intros e He; try done; intros _ _; injection He as <-; eauto.
Qed.

(** X25.  After [shutdown()] nothing is sent: [sendMessage] and
    [sendStructuredMessage] throw ['Service is shutdown'] without a [fetch],
    whatever the messages, and leave the client as it is. *)
Theorem shutdown_stops_sending fuel svc messages opts rf s :
  rf_type rf = "json_schema" ->
  sendMessage net fuel svc messages opts (snd (shutdown s))
  = (Throw (OpenRouterError "Service is shutdown" "OPENROUTER_ERROR" None None),
     snd (shutdown s))
  /\ sendStructuredMessage net fuel svc messages (Some rf) opts (snd (shutdown s))
     = (Throw (OpenRouterError "Service is shutdown" "OPENROUTER_ERROR" None None),
        snd (shutdown s))
  /\ fetch_count (snd (shutdown s)) = fetch_count s.
Proof.
  intros Hty. split; [done|]. split; [|done].
  unfold sendStructuredMessage. rewrite Hty. done.
Qed.

(** X26.  A schema that Ajv cannot compile is found out only after the
    request: the call to the provider has been made when
    [sendStructuredMessage] throws ['Invalid response schema provided']. *)
Theorem invalid_schema_found_after_the_call fuel svc messages rf opts s res s1 :
  rf_type rf = "json_schema" ->
  sendMessage net fuel svc messages (with_responseFormat opts rf) s = (Normal res, s1) ->
  validators_get (validators s) (rf_name rf) = None ->
  ajv_compile net (rf_schema rf) = None ->
  sendStructuredMessage net fuel svc messages (Some rf) opts s
  = (Throw (ValidationError "Invalid response schema provided"), s1)
  /\ fetch_count s < fetch_count s1.
Proof.
  intros Hty Hsend Hcache Hcompile.
  destruct (sendMessage_frame fuel svc messages (with_responseFormat opts rf) s)
    as (Hval & _ & _ & Hfc).
  rewrite Hsend in Hval, Hfc. simpl in Hval, Hfc.
  split; [|by apply (Hfc res)].
  unfold sendStructuredMessage. rewrite Hty. simpl.
  unfold mbind at 1. unfold M_bind at 1. rewrite Hsend.
  unfold mbind, M_bind, get_state. simpl. rewrite Hval, Hcache, Hcompile. done.
Qed.

(** X27.  A schema is compiled on its first use and kept under its name: after a
    structured call whose request succeeded, the validator compiled from the
    schema is registered, whether or not the response matched. *)
Theorem validator_registered_on_first_use fuel svc messages rf opts s res s1 v :
  rf_type rf = "json_schema" ->
  sendMessage net fuel svc messages (with_responseFormat opts rf) s = (Normal res, s1) ->
  validators_get (validators s) (rf_name rf) = None ->
  ajv_compile net (rf_schema rf) = Some v ->
  validators_get
    (validators (snd (sendStructuredMessage net fuel svc messages (Some rf) opts s)))
    (rf_name rf) = Some v.
Proof.
  intros Hty Hsend Hcache Hcompile.
  destruct (sendMessage_frame fuel svc messages (with_responseFormat opts rf) s)
    as (Hval & _).
  rewrite Hsend in Hval. simpl in Hval.
  unfold sendStructuredMessage. rewrite Hty. simpl.
  unfold mbind at 1. unfold M_bind at 1. rewrite Hsend.
  unfold mbind, M_bind, get_state, set_validator, modify_state. simpl.
  rewrite Hval, Hcache, Hcompile. simpl.
  destruct (v (nullish_or (get_prop_opt res "output") res)) as [[|] errors]; simpl;
    by rewrite String.eqb_refl.
Qed.

Lemma handleOpenRouterResponse_payload res p1 p2 :
  truthy (get_prop_opt p1 "response_format") = truthy (get_prop_opt p2 "response_format") ->
  handleOpenRouterResponse res p1 = handleOpenRouterResponse res p2.
Proof. intros H. unfold handleOpenRouterResponse. by rewrite H. Qed.

Lemma attempt_payload p1 p2 s :
  truthy (get_prop_opt p1 "response_format") = truthy (get_prop_opt p2 "response_format") ->
  attempt net p1 s = attempt net p2 s.
Proof.
  intros H. unfold attempt, try_catch, mbind, M_bind, lift.
  destruct (fetch net s) as [[res|e|] s1]; try done.
  by rewrite (handleOpenRouterResponse_payload res p1 p2 H).
Qed.

(** X28.  Validators are kept by schema name only: once a name is registered,
    a format of that name is checked with the registered validator and its
    own schema is not compiled, so, for the same answers of the provider, two
    formats of the same name are treated alike whatever their schemas. *)
Theorem validators_keyed_by_name fuel svc messages rf1 rf2 opts s v :
  rf_type rf1 = "json_schema" ->
  rf_type rf2 = "json_schema" ->
  rf_name rf1 = rf_name rf2 ->
  validators_get (validators s) (rf_name rf1) = Some v ->
  sendStructuredMessage net fuel svc messages (Some rf1) opts s
  = sendStructuredMessage net fuel svc messages (Some rf2) opts s.
Proof.
  intros Hty1 Hty2 Hname Hcache.
  assert (sendMessage net fuel svc messages (with_responseFormat opts rf1) s
          = sendMessage net fuel svc messages (with_responseFormat opts rf2) s) as Hsend.
  { destruct (isShutdown s) eqn:Hup.
    { unfold sendMessage, mbind, M_bind, get_state. simpl. by rewrite Hup. }
    destruct messages as [|m rest].
    { unfold sendMessage, mbind, M_bind, get_state. simpl. by rewrite Hup. }
    destruct (sendMessage_run fuel svc (m :: rest) (with_responseFormat opts rf1) s Hup)
      as (p1 & Hp1 & ->); [done|].
    destruct (sendMessage_run fuel svc (m :: rest) (with_responseFormat opts rf2) s Hup)
      as (p2 & Hp2 & ->); [done|].
    apply retry_loop_ext. intros s0. apply attempt_payload.
    rewrite (buildPayload_response_format _ _ _ _ _ Hp1).
    by rewrite (buildPayload_response_format _ _ _ _ _ Hp2). }
  unfold sendStructuredMessage. rewrite Hty1, Hty2. simpl negb. cbv iota.
  apply M_bind_cong; [exact Hsend|]. intros res s1 Hrun.
  destruct (sendMessage_frame fuel svc messages (with_responseFormat opts rf2) s)
    as (Hval & _).
  rewrite Hrun in Hval. simpl in Hval.
  unfold mbind, M_bind, get_state. simpl. rewrite <- Hname, Hval, Hcache. done.
Qed.

(** X29.  [healthCheck] never throws and makes one [fetch], also after
    [shutdown()]: it reports [ok] exactly when the provider answers with a
    2xx status; a 401 is reported as not ok with the message
    ['Invalid API key'], a rejected [fetch] with the message of the error. *)
Theorem healthCheck_never_throws start finish s :
  exists r,
    fst (healthCheck net start finish s) = Normal r
    /\ fetch_count (snd (healthCheck net start finish s)) = S (fetch_count s)
    /\ (ok r = true <->
        exists res, fetch_outcome net (fetch_count s) = FetchResolves res
                    /\ res_ok res = true)
    /\ (ok r = true -> latMs r = Some (finish - start)%Z)
    /\ (forall res, fetch_outcome net (fetch_count s) = FetchResolves res ->
          details r = if (res_status res =? 401)%Z then MessageDetails "Invalid API key"
                      else StatusDetails (res_status res))
    /\ (forall err, fetch_outcome net (fetch_count s) = FetchRejects err ->
          details r = MessageDetails (Route.exn_message err)).
Proof.
  unfold healthCheck, try_catch, mbind, M_bind, fetch, throw, mret, M_ret.
  destruct (fetch_outcome net (fetch_count s)) as [err|res] eqn:Hout; simpl.
  - eexists. split; [done|]. split; [done|]. simpl.
    split; [split; [done|by intros (res & Hres & _)]|].
    split; [done|]. split; [done|]. by intros err' [= <-].
  - destruct (Z.eqb_spec (res_status res) 401) as [H401|H401]; simpl.
    + eexists. split; [done|]. split; [done|]. simpl.
      split; [split; [done|]|].
      * intros (res' & [= <-] & Hok). unfold res_ok in Hok. rewrite H401 in Hok. done.
      * split; [done|]. split; [|done]. intros res' [= <-].
        by rewrite (proj2 (Z.eqb_eq _ _) H401).
    + eexists. split; [done|]. split; [done|]. simpl.
      split; [split; [by eauto|by intros (res' & [= <-] & Hok)]|].
      split; [done|]. split; [|done]. intros res' [= <-].
      by rewrite (proj2 (Z.eqb_neq _ _) H401).
Qed.

End WithNet.

(** X30.  A system message set with [setSystemMessage] is sent first, before the
    messages of every later call; anything but a non-empty string is refused
    and leaves the client as it is. *)
Theorem system_message_is_prepended svc message messages opts s :
  messages <> [] ->
  match message with
  | JStr (String _ _ as m) =>
      fst (setSystemMessage message s) = Normal tt
      /\ exists payload,
           buildPayload svc (systemMessage (snd (setSystemMessage message s))) messages opts
           = Normal payload
           /\ get_prop_opt payload "messages"
              = JArr (message_to_js {| role := system; content := m |}
                      :: map message_to_js messages)
  | _ =>
      setSystemMessage message s
      = (Throw (ValidationError "system message must be a non-empty string"), s)
  end.
Proof.
  intros Hmsgs. destruct message as [| |b|x|m|items|fields]; try done.
  - unfold setSystemMessage. simpl. by destruct b.
  - unfold setSystemMessage. simpl.
    by destruct (negb (negb (PrimFloat.eqb x 0 || PrimFloat.is_nan x))).
  - destruct m as [|c m]; [done|]. split; [done|].
    destruct messages as [|m0 rest]; [done|].
    unfold setSystemMessage, buildPayload. simpl. eexists. split; [done|].
    destruct (opt_responseFormat opts) as [rf|];
      destruct (opt_params opts) as [p|]; try destruct (truthy p); done.
Qed.

Import Examples MoreExamples.

Lemma every_failure_is_retried_witness :
  exists m cause,
    fst (sendMessage net_unauthorized 10 default_service hello no_options fresh_state)
    = Throw (NetworkError m cause)
    /\ fetch_count (snd (sendMessage net_unauthorized 10 default_service hello no_options
                           fresh_state)) = 4
    /\ length (waits (snd (sendMessage net_unauthorized 10 default_service hello
                             no_options fresh_state))) = 3.
Proof.
  apply (every_failure_is_retried net_unauthorized 10 default_service hello no_options
           fresh_state);
    [reflexivity|discriminate|simpl; lia|intros i _; left; reflexivity].
Defined.

Lemma sendMessage_recovers_witness :
  fst (sendMessage net_flaky 10 default_service hello no_options fresh_state)
  = Normal (JObj [("output", JStr "hello")])
  /\ fetch_count (snd (sendMessage net_flaky 10 default_service hello no_options
                         fresh_state)) = 3
  /\ length (waits (snd (sendMessage net_flaky 10 default_service hello no_options
                           fresh_state))) = 2.
Proof.
  destruct (sendMessage_recovers net_flaky 10 default_service hello no_options fresh_state
              2 (ok_json (JObj [("output", JStr "hello")]))
              (JObj [("output", JStr "hello")]))
    as (v & Hret & Hplain & _ & Hfetches & Hwaits);
    [reflexivity|discriminate|simpl; lia|lia
    |intros [|[|i]] Hi; [exact I|left; reflexivity|lia]
    |reflexivity|reflexivity|reflexivity|].
  rewrite (Hplain eq_refl) in Hret. split; [exact Hret|]. split; [exact Hfetches|exact Hwaits].
Defined.

Lemma shutdown_stops_sending_witness :
  fst (sendMessage net_flaky 10 default_service hello no_options
         (snd (shutdown fresh_state)))
  = Throw (OpenRouterError "Service is shutdown" "OPENROUTER_ERROR" None None)
  /\ fst (sendStructuredMessage net_flaky 10 default_service hello (Some nutrition_format)
            no_options (snd (shutdown fresh_state)))
     = Throw (OpenRouterError "Service is shutdown" "OPENROUTER_ERROR" None None)
  /\ fetch_count (snd (shutdown fresh_state)) = 0.
Proof.
  destruct (shutdown_stops_sending net_flaky 10 default_service hello no_options
              nutrition_format fresh_state) as (Hsend & Hstructured & Hcount);
    [reflexivity|].
  rewrite Hsend, Hstructured. split; [reflexivity|]. split; [reflexivity|exact Hcount].
Defined.

Lemma invalid_schema_found_after_the_call_witness :
  fst (sendStructuredMessage net_bad_schema 10 default_service hello
         (Some nutrition_format) no_options fresh_state)
  = Throw (ValidationError "Invalid response schema provided")
  /\ fetch_count (snd (sendStructuredMessage net_bad_schema 10 default_service hello
                         (Some nutrition_format) no_options fresh_state)) = 1.
Proof.
  destruct (invalid_schema_found_after_the_call net_bad_schema 10 default_service hello
              nutrition_format no_options fresh_state (JStr "hello")
              {| validators := []; systemMessage := None; isShutdown := false;
                 fetch_count := 1; random_count := 0; waits := [] |})
    as (Hrun & _); [reflexivity|reflexivity|reflexivity|reflexivity|].
  rewrite Hrun. split; reflexivity.
Defined.

Lemma validator_registered_on_first_use_witness :
  validators_get
    (validators (snd (sendStructuredMessage net_wrong_shape 10 default_service hello
                        (Some nutrition_format) no_options fresh_state)))
    "ingredient_nutrition_list" = Some needs_ingredients.
Proof.
  apply (validator_registered_on_first_use net_wrong_shape 10 default_service hello
           nutrition_format no_options fresh_state (JObj [("foo", JNum 1)])
           {| validators := []; systemMessage := None; isShutdown := false;
              fetch_count := 1; random_count := 0; waits := [] |});
    reflexivity.
Defined.

Lemma validators_keyed_by_name_witness :
  sendStructuredMessage net_flaky 10 default_service hello (Some nutrition_format)
    no_options cached_state
  = sendStructuredMessage net_flaky 10 default_service hello (Some renamed_format)
      no_options cached_state.
Proof.
  apply (validators_keyed_by_name net_flaky 10 default_service hello nutrition_format
           renamed_format no_options cached_state needs_ingredients);
    reflexivity.
Defined.

Lemma system_message_is_prepended_witness :
  fst (setSystemMessage (JStr "You are a dietitian.") fresh_state) = Normal tt
  /\ exists payload,
       buildPayload default_service
         (systemMessage (snd (setSystemMessage (JStr "You are a dietitian.") fresh_state)))
         hello no_options = Normal payload
       /\ get_prop_opt payload "messages"
          = JArr (message_to_js {| role := system; content := "You are a dietitian." |}
                  :: map message_to_js hello).
Proof.
  apply (system_message_is_prepended default_service (JStr "You are a dietitian.") hello
           no_options fresh_state).
  discriminate.
Defined.

End OpenRouterMore.
